(** * MolViewEditor: lifecycle of the Monaco-backed editor component

    A shallow embedding of the Preact component [MolViewEditor]: its props,
    its three effects (environment registration, session creation with its
    cleanup, and the [initialCode] update), the capturing key listener
    [handleKeyDown], and the closures it hands to the editor engine.

    The editor engine (Monaco) and the DOM are not part of the component.
    They are embedded as a small explicit state machine that offers exactly
    the operations the component invokes.  Where the component cannot tell
    how the engine behaves, the behaviour is a field of [EngineProfile]; an
    engine call that throws is followed the way the exception travels
    through the component's code.  The process is followed through one root
    of the page, which holds at most one instance of the component. *)

From stdpp Require Import base tactics option list strings.
From Stdlib Require Import Lia.

Open Scope string_scope.

(** ** Props *)

(** A host callback is a function value; dependency arrays compare functions
    by identity, so a callback is represented by its identity. *)
Definition Callback := nat.

(** [MolViewEditorProps]: every field is optional. *)
Record MolViewEditorProps := {
  p_initialCode : option string;
  p_onCodeChange : option Callback;
  p_onSave : option Callback;
  p_height : option string
}.

Definition DEFAULT_CODE : string :=
"const structure = builder
  .download({ url: 'https://www.ebi.ac.uk/pdbe/entry-files/1cbs.bcif' })
  .parse({ format: 'bcif' })
  .modelStructure();

structure
  .component({ selector: 'polymer' })
  .representation({ type: 'cartoon' })
  .color({ color: 'green' });".

(** The destructuring defaults of the component's parameter list. *)
Definition initialCode (p : MolViewEditorProps) : string :=
  default DEFAULT_CODE (p_initialCode p).
Definition onCodeChange (p : MolViewEditorProps) : option Callback := p_onCodeChange p.
Definition onSave (p : MolViewEditorProps) : option Callback := p_onSave p.
Definition height (p : MolViewEditorProps) : string := default "400px" (p_height p).

(** What the host observes: each invocation of one of its callbacks. *)
Inductive Notification :=
| CodeChange (cb : Callback) (code : string)
| Save (cb : Callback) (code : string).

(** ** The editor engine *)

Record Model := {
  m_uri : string;
  m_language : string;
  m_text : string;
  m_disposed : bool
}.

(** [monaco.KeyMod.CtrlCmd | monaco.KeyCode.KeyS] is the only binding used. *)
Inductive Keybinding := CtrlCmd_KeyS.

(** The closure passed to [editor.addCommand]; it captures [onSave]. *)
Inductive Command := SaveCommand (captured_onSave : option Callback).

(** The closure passed to [editor.onDidChangeModelContent]; it captures
    [onCodeChange]. *)
Inductive ContentListener := ForwardChange (captured_onCodeChange : option Callback).

Record Editor := {
  ed_container : nat;          (* the component instance whose container hosts the widget *)
  ed_model : nat;
  ed_disposed : bool;
  ed_cursor : nat;
  ed_undo : list (string * nat);
  ed_commands : list (Keybinding * Command);
  ed_listeners : list ContentListener
}.

Record Monaco := {
  languages : list string;
  tokensProviders : list string;
  languageConfigurations : list string;
  models : list Model;
  editors : list Editor
}.

(** Engine behaviour the component's code does not determine. *)
Record EngineProfile := {
  (* does [languages.register] throw when the id is already registered? *)
  register_rejects_duplicate : bool;
  (* does [editor.dispose()] also dispose a model that was handed to [create]? *)
  dispose_releases_model : bool;
  (* [CtrlCmd] is the meta key on macOS and the control key elsewhere *)
  isMac : bool;
  (* does [editor.createModel] throw when a live model already has the URI? *)
  createModel_rejects_uri_in_use : bool
}.

Definition set_languages (x : list string) (mo : Monaco) : Monaco :=
  {| languages := x; tokensProviders := tokensProviders mo;
     languageConfigurations := languageConfigurations mo;
     models := models mo; editors := editors mo |}.
Definition set_tokensProviders (x : list string) (mo : Monaco) : Monaco :=
  {| languages := languages mo; tokensProviders := x;
     languageConfigurations := languageConfigurations mo;
     models := models mo; editors := editors mo |}.
Definition set_languageConfigurations (x : list string) (mo : Monaco) : Monaco :=
  {| languages := languages mo; tokensProviders := tokensProviders mo;
     languageConfigurations := x;
     models := models mo; editors := editors mo |}.
Definition set_models (x : list Model) (mo : Monaco) : Monaco :=
  {| languages := languages mo; tokensProviders := tokensProviders mo;
     languageConfigurations := languageConfigurations mo;
     models := x; editors := editors mo |}.
Definition set_editors (x : list Editor) (mo : Monaco) : Monaco :=
  {| languages := languages mo; tokensProviders := tokensProviders mo;
     languageConfigurations := languageConfigurations mo;
     models := models mo; editors := x |}.

Definition set_m_text (t : string) (m : Model) : Model :=
  {| m_uri := m_uri m; m_language := m_language m; m_text := t; m_disposed := m_disposed m |}.
Definition set_m_disposed (b : bool) (m : Model) : Model :=
  {| m_uri := m_uri m; m_language := m_language m; m_text := m_text m; m_disposed := b |}.

Definition registered (id : string) (mo : Monaco) : bool :=
  existsb (String.eqb id) (languages mo).

(** [monaco.languages.register({ id })]; [None] stands for a thrown error. *)
Definition languages_register (ep : EngineProfile) (id : string) (mo : Monaco) : option Monaco :=
  if register_rejects_duplicate ep && registered id mo then None
  else Some (set_languages (languages mo ++ [id]) mo).

Definition setMonarchTokensProvider (id : string) (mo : Monaco) : Monaco :=
  set_tokensProviders (tokensProviders mo ++ [id]) mo.

Definition setLanguageConfiguration (id : string) (mo : Monaco) : Monaco :=
  set_languageConfigurations (languageConfigurations mo ++ [id]) mo.

(** Is a model that has not been disposed registered under [uri]? *)
Definition uri_in_use (uri : string) (mo : Monaco) : bool :=
  existsb (fun m => negb (m_disposed m) && String.eqb (m_uri m) uri) (models mo).

(** [monaco.editor.createModel(value, language, uri)]: the new model's handle
    and the engine holding it; [None] stands for the error an engine with
    exclusive URIs throws when a live model already has [uri]. *)
Definition createModel (ep : EngineProfile) (value language uri : string) (mo : Monaco)
    : option (nat * Monaco) :=
  if createModel_rejects_uri_in_use ep && uri_in_use uri mo then None
  else Some (length (models mo),
             set_models (models mo ++ [{| m_uri := uri; m_language := language;
                                            m_text := value; m_disposed := false |}]) mo).

(** [monaco.editor.create(container, { model, ... })]. *)
Definition editor_create (container model : nat) (mo : Monaco) : nat * Monaco :=
  (length (editors mo),
   set_editors (editors mo ++ [{| ed_container := container; ed_model := model;
                                    ed_disposed := false; ed_cursor := 0; ed_undo := [];
                                    ed_commands := []; ed_listeners := [] |}]) mo).

Definition live_editor (eid : nat) (mo : Monaco) : option Editor :=
  match editors mo !! eid with
  | Some ed => if ed_disposed ed then None else Some ed
  | None => None
  end.

(** [editor.getModel()]: a disposed editor has no model. *)
Definition editor_getModel (eid : nat) (mo : Monaco) : option nat :=
  ed_model <$> live_editor eid mo.

(** [editor.getValue()]: the text of the attached model, the empty string
    once the editor is disposed. *)
Definition editor_getValue (eid : nat) (mo : Monaco) : string :=
  match live_editor eid mo with
  | Some ed => match models mo !! ed_model ed with
               | Some m => m_text m
               | None => ""
               end
  | None => ""
  end.

Definition with_commands (x : list (Keybinding * Command)) (ed : Editor) : Editor :=
  {| ed_container := ed_container ed; ed_model := ed_model ed; ed_disposed := ed_disposed ed;
     ed_cursor := ed_cursor ed; ed_undo := ed_undo ed;
     ed_commands := x; ed_listeners := ed_listeners ed |}.
Definition with_listeners (x : list ContentListener) (ed : Editor) : Editor :=
  {| ed_container := ed_container ed; ed_model := ed_model ed; ed_disposed := ed_disposed ed;
     ed_cursor := ed_cursor ed; ed_undo := ed_undo ed;
     ed_commands := ed_commands ed; ed_listeners := x |}.
Definition with_cursor_undo (c : nat) (u : list (string * nat)) (ed : Editor) : Editor :=
  {| ed_container := ed_container ed; ed_model := ed_model ed; ed_disposed := ed_disposed ed;
     ed_cursor := c; ed_undo := u;
     ed_commands := ed_commands ed; ed_listeners := ed_listeners ed |}.
Definition disposed_editor (ed : Editor) : Editor :=
  {| ed_container := ed_container ed; ed_model := ed_model ed; ed_disposed := true;
     ed_cursor := ed_cursor ed; ed_undo := [];
     ed_commands := []; ed_listeners := [] |}.

(** [editor.addCommand(keybinding, handler)]. *)
Definition editor_addCommand (eid : nat) (kb : Keybinding) (cmd : Command) (mo : Monaco) : Monaco :=
  set_editors (alter (fun ed => with_commands (ed_commands ed ++ [(kb, cmd)]) ed) eid (editors mo)) mo.

(** [editor.onDidChangeModelContent(listener)]. *)
Definition editor_onDidChangeModelContent (eid : nat) (l : ContentListener) (mo : Monaco) : Monaco :=
  set_editors (alter (fun ed => with_listeners (ed_listeners ed ++ [l]) ed) eid (editors mo)) mo.

(** [editor.dispose()]: the widget leaves the DOM and releases its commands
    and subscriptions; the attached model goes with it only in an engine
    whose editors own the models they are given. *)
Definition editor_dispose (ep : EngineProfile) (eid : nat) (mo : Monaco) : Monaco :=
  match live_editor eid mo with
  | Some ed =>
      let mo1 := set_editors (<[eid := disposed_editor ed]> (editors mo)) mo in
      if dispose_releases_model ep
      then set_models (alter (set_m_disposed true) (ed_model ed) (models mo1)) mo1
      else mo1
  | None => mo
  end.

(** Text with [ins] inserted at offset [n] (at the end when [n] is past it). *)
Fixpoint insert_at (n : nat) (ins t : string) : string :=
  match n, t with
  | 0, _ => ins ++ t
  | S n', String c t' => String c (insert_at n' ins t')
  | S _, EmptyString => ins
  end.

(** Replace the text of the editor's model and move the cursor. *)
Definition write_text (eid : nat) (ed : Editor) (t : string) (cur : nat)
    (undo : list (string * nat)) (mo : Monaco) : Monaco :=
  set_editors (<[eid := with_cursor_undo cur undo ed]> (editors mo))
    (set_models (alter (set_m_text t) (ed_model ed) (models mo)) mo).

(** An edit the widget accepts: [Some] engine state when the content changed
    (its content listeners then fire once), [None] when nothing happened. *)
Definition editor_type (eid : nat) (text : string) (mo : Monaco) : option Monaco :=
  match live_editor eid mo with
  | Some ed =>
      if String.eqb text "" then None
      else
        let old := editor_getValue eid mo in
        let cur := Nat.min (ed_cursor ed) (String.length old) in
        Some (write_text eid ed (insert_at cur text old) (cur + String.length text)
                ((old, ed_cursor ed) :: ed_undo ed) mo)
  | None => None
  end.

Definition editor_undo (eid : nat) (mo : Monaco) : option Monaco :=
  match live_editor eid mo with
  | Some ed =>
      match ed_undo ed with
      | (t, cur) :: rest => Some (write_text eid ed t cur rest mo)
      | [] => None
      end
  | None => None
  end.

(** [editor.setValue(v)]: wholesale replace; the undo history is flushed and
    the cursor returns to the start. *)
Definition editor_setValue (eid : nat) (v : string) (mo : Monaco) : option Monaco :=
  match live_editor eid mo with
  | Some ed => Some (write_text eid ed v 0 [] mo)
  | None => None
  end.

(** ** The document, the window and the component instance *)

(** Where a keyboard event is aimed: inside the widget of an editor, inside
    the container of a component instance but outside any widget, or
    elsewhere in the page. *)
Inductive Target :=
| TEditor (eid : nat)
| TContainer (inst : nat)
| TOutside.

Inductive KeyCode := KeyS | KeyOther.

Record KeyboardEvent := {
  metaKey : bool;
  ctrlKey : bool;
  shiftKey : bool;
  altKey : bool;
  key : string;
  code : KeyCode;
  target : Target
}.

Record EventFlags := {
  defaultPrevented : bool;
  propagationStopped : bool
}.

(** The closure [handleKeyDown] of one run of the session effect: its
    identity, the instance whose refs it reads, and the [onSave] it captured. *)
Record KeyListener := {
  kl_id : nat;
  kl_instance : nat;
  kl_onSave : option Callback
}.

(** The callback given to [setTimeout]; it captures the editor it nudges. *)
Inductive Timer := Nudge (eid : nat).

Inductive LogEntry :=
| LogRegistered
| LogAlreadyRegisteredOrError
| LogRequestingWorker (label : string)
| LogCreatedModel (language : string)
| LogAvailableLanguages (ids : list string)
| LogSettingUpCompletion
| LogMVSTypesLength
| LogExtraLibs
| LogSetupComplete
| LogEditorModelLanguage (language : string)
| LogTriggeringValidation
| LogUncaughtError.

(** The calls the component issues, in program order. *)
Inductive Action :=
| ALanguagesRegister (id : string)
| ASetMonarchTokensProvider (id : string)
| ASetLanguageConfiguration (id : string)
| AInstallMonacoEnvironment
| AAddEventListener (l : KeyListener)
| ARemoveEventListener (l : KeyListener)
| ASetCompilerOptions
| ASetDiagnosticsOptions
| ASetEagerModelSync (b : bool)
| ACreateModel (value language uri : string)
| ACreateEditor (container model : nat)
| ASetEditorRef (r : option nat)
| ASetupMonacoCodeCompletion
| AGetExtraLibs
| ASetTimeout (t : Timer) (ms : nat)
| AAddCommand (eid : nat) (kb : Keybinding)
| AOnDidChangeModelContent (eid : nat)
| ASetIsReady (b : bool)
| AEditorDispose (eid : nat)
| AEditorSetValue (eid : nat) (v : string)
| AEditorTrigger (eid : nat) (handler : string).

(** The dependency arrays of the last committed render: [[onSave]] for the
    session effect, [[initialCode, isReady]] for the update effect. *)
Record Deps := {
  d_onSave : option Callback;
  d_initialCode : string;
  d_isReady : bool
}.

Record Component := {
  instance : nat;
  props : MolViewEditorProps;
  containerRef : bool;              (* is [containerRef.current] non-null? *)
  editorRef : option nat;
  isReady : bool;
  deps : option Deps;
  cleanup : option KeyListener      (* the cleanup returned by the session effect *)
}.

Record World := {
  monaco : Monaco;
  MonacoEnvironment : bool;         (* is [window.MonacoEnvironment] set? *)
  doc_keydown : list KeyListener;   (* capturing keydown listeners of [document] *)
  timers : list Timer;
  console : list LogEntry;
  trace : list Action;
  host : list Notification;
  fresh : nat;
  component : option Component
}.

#[global] Instance Callback_option_eq_dec : EqDecision (option Callback).
Proof. solve_decision. Defined.
#[global] Instance KeyListener_eq_dec : EqDecision KeyListener.
Proof. solve_decision. Defined.

Definition set_monaco (x : Monaco) (w : World) : World :=
  {| monaco := x; MonacoEnvironment := MonacoEnvironment w; doc_keydown := doc_keydown w;
     timers := timers w; console := console w; trace := trace w; host := host w;
     fresh := fresh w; component := component w |}.
Definition set_MonacoEnvironment (x : bool) (w : World) : World :=
  {| monaco := monaco w; MonacoEnvironment := x; doc_keydown := doc_keydown w;
     timers := timers w; console := console w; trace := trace w; host := host w;
     fresh := fresh w; component := component w |}.
Definition set_doc_keydown (x : list KeyListener) (w : World) : World :=
  {| monaco := monaco w; MonacoEnvironment := MonacoEnvironment w; doc_keydown := x;
     timers := timers w; console := console w; trace := trace w; host := host w;
     fresh := fresh w; component := component w |}.
Definition set_timers (x : list Timer) (w : World) : World :=
  {| monaco := monaco w; MonacoEnvironment := MonacoEnvironment w; doc_keydown := doc_keydown w;
     timers := x; console := console w; trace := trace w; host := host w;
     fresh := fresh w; component := component w |}.
Definition set_fresh (x : nat) (w : World) : World :=
  {| monaco := monaco w; MonacoEnvironment := MonacoEnvironment w; doc_keydown := doc_keydown w;
     timers := timers w; console := console w; trace := trace w; host := host w;
     fresh := x; component := component w |}.
Definition set_component (x : option Component) (w : World) : World :=
  {| monaco := monaco w; MonacoEnvironment := MonacoEnvironment w; doc_keydown := doc_keydown w;
     timers := timers w; console := console w; trace := trace w; host := host w;
     fresh := fresh w; component := x |}.
Definition log (x : LogEntry) (w : World) : World :=
  {| monaco := monaco w; MonacoEnvironment := MonacoEnvironment w; doc_keydown := doc_keydown w;
     timers := timers w; console := console w ++ [x]; trace := trace w; host := host w;
     fresh := fresh w; component := component w |}.
Definition act (x : Action) (w : World) : World :=
  {| monaco := monaco w; MonacoEnvironment := MonacoEnvironment w; doc_keydown := doc_keydown w;
     timers := timers w; console := console w; trace := trace w ++ [x]; host := host w;
     fresh := fresh w; component := component w |}.
Definition set_host (x : list Notification) (w : World) : World :=
  {| monaco := monaco w; MonacoEnvironment := MonacoEnvironment w; doc_keydown := doc_keydown w;
     timers := timers w; console := console w; trace := trace w; host := x;
     fresh := fresh w; component := component w |}.
Definition notify (x : Notification) (w : World) : World := set_host (host w ++ [x]) w.

Definition with_containerRef (b : bool) (c : Component) : Component :=
  {| instance := instance c; props := props c; containerRef := b;
     editorRef := editorRef c; isReady := isReady c; deps := deps c; cleanup := cleanup c |}.
Definition with_editorRef (r : option nat) (c : Component) : Component :=
  {| instance := instance c; props := props c; containerRef := containerRef c;
     editorRef := r; isReady := isReady c; deps := deps c; cleanup := cleanup c |}.
Definition with_isReady (b : bool) (c : Component) : Component :=
  {| instance := instance c; props := props c; containerRef := containerRef c;
     editorRef := editorRef c; isReady := b; deps := deps c; cleanup := cleanup c |}.
Definition with_deps (d : option Deps) (c : Component) : Component :=
  {| instance := instance c; props := props c; containerRef := containerRef c;
     editorRef := editorRef c; isReady := isReady c; deps := d; cleanup := cleanup c |}.
Definition with_cleanup (k : option KeyListener) (c : Component) : Component :=
  {| instance := instance c; props := props c; containerRef := containerRef c;
     editorRef := editorRef c; isReady := isReady c; deps := deps c; cleanup := k |}.
Definition with_props (p : MolViewEditorProps) (c : Component) : Component :=
  {| instance := instance c; props := p; containerRef := containerRef c;
     editorRef := editorRef c; isReady := isReady c; deps := deps c; cleanup := cleanup c |}.

Definition update_component (f : Component -> Component) (w : World) : World :=
  set_component (f <$> component w) w.

(** The process before the component is first mounted. *)
Definition init : World :=
  {| monaco := {| languages := []; tokensProviders := []; languageConfigurations := [];
                  models := []; editors := [] |};
     MonacoEnvironment := false; doc_keydown := []; timers := []; console := [];
     trace := []; host := []; fresh := 0; component := None |}.

(** How the body of a function ends: it returns, or an exception leaves
    it; either way with the world its calls have made. *)
Inductive Completion :=
| Returned (w : World)
| Threw (w : World).

Definition world_of (r : Completion) : World :=
  match r with
  | Returned w => w
  | Threw w => w
  end.

(** ** Engine events delivered to the component's closures *)

(** The body of the content-change listener:
    [if (onCodeChange) onCodeChange(editor.getValue())]. *)
Definition runContentListener (eid : nat) (w : World) (l : ContentListener) : World :=
  match l with
  | ForwardChange (Some cb) => notify (CodeChange cb (editor_getValue eid (monaco w))) w
  | ForwardChange None => w
  end.

Definition fireDidChangeModelContent (eid : nat) (w : World) : World :=
  match live_editor eid (monaco w) with
  | Some ed => foldl (runContentListener eid) w (ed_listeners ed)
  | None => w
  end.

(** An engine edit followed by the delivery of its change event. *)
Definition edit (eid : nat) (op : Monaco -> option Monaco) (w : World) : World :=
  match op (monaco w) with
  | Some mo => fireDidChangeModelContent eid (set_monaco mo w)
  | None => w
  end.

(** The body of the save command: [if (onSave) onSave(editor.getValue())]. *)
Definition runCommand (eid : nat) (w : World) (cmd : Command) : World :=
  match cmd with
  | SaveCommand (Some cb) => notify (Save cb (editor_getValue eid (monaco w))) w
  | SaveCommand None => w
  end.

Definition kb_matches (ep : EngineProfile) (kb : Keybinding) (e : KeyboardEvent) : bool :=
  match kb with
  | CtrlCmd_KeyS =>
      match code e with
      | KeyS =>
          (if isMac ep then metaKey e && negb (ctrlKey e) else ctrlKey e && negb (metaKey e))
          && negb (shiftKey e) && negb (altKey e)
      | KeyOther => false
      end
  end.

(** Keybinding dispatch of the widget that received a keydown. *)
Definition widgetKeyDown (ep : EngineProfile) (eid : nat) (e : KeyboardEvent) (w : World) : World :=
  match live_editor eid (monaco w) with
  | Some ed =>
      foldl (fun w '(kb, cmd) => if kb_matches ep kb e then runCommand eid w cmd else w)
            w (ed_commands ed)
  | None => w
  end.

(** ** The component *)

(** The function installed as [MonacoEnvironment.getWorkerUrl]. *)
Definition getWorkerUrl (_moduleId label : string) (w : World) : string * World :=
  let w := log (LogRequestingWorker label) w in
  if String.eqb label "typescript" || String.eqb label "javascript"
  then ("./ts.worker.js", w)
  else ("./editor.worker.js", w).

(** The first effect (dependencies [[]], so it runs once per mounted
    instance): language registration inside [try]/[catch], then the guarded
    installation of [window.MonacoEnvironment]. *)
Definition registerEnvironment (ep : EngineProfile) (w : World) : World :=
  let w := act (ALanguagesRegister "javascript") w in
  let w :=
    match languages_register ep "javascript" (monaco w) with
    | Some mo =>
        let w := set_monaco mo w in
        let w := act (ASetMonarchTokensProvider "javascript")
                   (set_monaco (setMonarchTokensProvider "javascript" (monaco w)) w) in
        let w := act (ASetLanguageConfiguration "javascript")
                   (set_monaco (setLanguageConfiguration "javascript" (monaco w)) w) in
        log LogRegistered w
    | None => log LogAlreadyRegisteredOrError w
    end in
  if MonacoEnvironment w then w
  else act AInstallMonacoEnvironment (set_MonacoEnvironment true w).

(** The refs of a component instance as a closure of that instance reads
    them: both are null once the instance is gone. *)
Definition containerRef_of (inst : nat) (w : World) : bool :=
  match component w with
  | Some c => Nat.eqb (instance c) inst && containerRef c
  | None => false
  end.

Definition editorRef_of (inst : nat) (w : World) : option nat :=
  match component w with
  | Some c => if Nat.eqb (instance c) inst then editorRef c else None
  | None => None
  end.

(** [container.contains(node)] for the container of instance [inst]. *)
Definition contains (inst : nat) (t : Target) (mo : Monaco) : bool :=
  match t with
  | TEditor eid =>
      match live_editor eid mo with
      | Some ed => Nat.eqb (ed_container ed) inst
      | None => false
      end
  | TContainer i => Nat.eqb i inst
  | TOutside => false
  end.

(** [e.preventDefault()] and [e.stopPropagation()]. *)
Definition preventDefault (fl : EventFlags) : EventFlags :=
  {| defaultPrevented := true; propagationStopped := propagationStopped fl |}.
Definition stopPropagation (fl : EventFlags) : EventFlags :=
  {| defaultPrevented := defaultPrevented fl; propagationStopped := true |}.

(** The key test of [handleKeyDown]:
    [(e.metaKey || e.ctrlKey) && e.key === "s"]. *)
Definition saveGesture (e : KeyboardEvent) : bool :=
  (metaKey e || ctrlKey e) && String.eqb (key e) "s".

(** [handleKeyDown], the capturing keydown listener on [document]. *)
Definition handleKeyDown (e : KeyboardEvent) (st : World * EventFlags) (kl : KeyListener)
    : World * EventFlags :=
  let '(w, fl) := st in
  if saveGesture e then
    if containerRef_of (kl_instance kl) w && contains (kl_instance kl) (target e) (monaco w) then
      let fl := stopPropagation (preventDefault fl) in
      match kl_onSave kl, editorRef_of (kl_instance kl) w with
      | Some cb, Some eid => (notify (Save cb (editor_getValue eid (monaco w))) w, fl)
      | _, _ => (w, fl)
      end
    else st
  else st.

Definition model_language (mid : nat) (mo : Monaco) : string :=
  match models mo !! mid with
  | Some m => m_language m
  | None => ""
  end.

(** [initEditor], with the values of [initialCode], [onSave] and
    [onCodeChange] of the render that scheduled the effect.  Nothing in it
    catches an error of [createModel]: the calls after it are then not
    reached. *)
Definition initEditor (ep : EngineProfile) (c : Component) (w : World) : Completion :=
  let w := act ASetCompilerOptions w in
  let w := act ASetDiagnosticsOptions w in
  let w := act (ASetEagerModelSync true) w in
  let w := act (ACreateModel (initialCode (props c)) "javascript" "file:///main.js") w in
  match createModel ep (initialCode (props c)) "javascript" "file:///main.js" (monaco w) with
  | None => Threw w
  | Some (mid, mo) =>
      let w := set_monaco mo w in
      let w := log (LogCreatedModel (model_language mid (monaco w))) w in
      let w := log (LogAvailableLanguages (languages (monaco w))) w in
      let '(eid, mo) := editor_create (instance c) mid (monaco w) in
      let w := act (ACreateEditor (instance c) mid) (set_monaco mo w) in
      let w := act (ASetEditorRef (Some eid)) (update_component (with_editorRef (Some eid)) w) in
      let w := log LogSettingUpCompletion w in
      let w := log LogMVSTypesLength w in
      let w := act ASetupMonacoCodeCompletion w in
      let w := act AGetExtraLibs w in
      let w := log LogExtraLibs w in
      let w := log LogSetupComplete w in
      let w := act (ASetTimeout (Nudge eid) 1000) (set_timers (timers w ++ [Nudge eid]) w) in
      let w := act (AAddCommand eid CtrlCmd_KeyS)
                 (set_monaco (editor_addCommand eid CtrlCmd_KeyS (SaveCommand (onSave (props c)))
                                (monaco w)) w) in
      let w := act (AOnDidChangeModelContent eid)
                 (set_monaco (editor_onDidChangeModelContent eid
                                (ForwardChange (onCodeChange (props c))) (monaco w)) w) in
      Returned (act (ASetIsReady true) (update_component (with_isReady true) w))
  end.

(** [document.addEventListener("keydown", handleKeyDown, true)] with a
    freshly created closure. *)
Definition addEventListener (kl : KeyListener) (w : World) : World :=
  act (AAddEventListener kl) (set_doc_keydown (doc_keydown w ++ [kl]) w).

(** [document.removeEventListener("keydown", handleKeyDown, true)]: the
    listener with that identity goes, if it is there. *)
Definition removeEventListener (kl : KeyListener) (w : World) : World :=
  act (ARemoveEventListener kl)
    (set_doc_keydown (List.filter (fun l => negb (Nat.eqb (kl_id l) (kl_id kl))) (doc_keydown w)) w).

(** The function returned by the session effect. *)
Definition cleanupSession (ep : EngineProfile) (kl : KeyListener) (w : World) : World :=
  let w := removeEventListener kl w in
  match editorRef_of (kl_instance kl) w with
  | Some eid =>
      let w := act (AEditorDispose eid) (set_monaco (editor_dispose ep eid (monaco w)) w) in
      act (ASetEditorRef None) (update_component (with_editorRef None) w)
  | None => w
  end.

(** The second effect (dependencies [[onSave]]).  The listener is added
    before [initEditor] is called; the cleanup is what the effect returns,
    so an effect that [initEditor] leaves by an error hands over none. *)
Definition sessionEffect (ep : EngineProfile) (w : World) : Completion :=
  match component w with
  | Some c =>
      if negb (containerRef c) then Returned w
      else
        let kl := {| kl_id := fresh w; kl_instance := instance c; kl_onSave := onSave (props c) |} in
        let w := addEventListener kl (set_fresh (S (fresh w)) w) in
        match initEditor ep c w with
        | Returned w => Returned (update_component (with_cleanup (Some kl)) w)
        | Threw w => Threw w
        end
  | None => Returned w
  end.

(** The hook runtime calls the cleanup an effect returned, once, before the
    effect runs again and at unmount. *)
Definition invokeCleanup (ep : EngineProfile) (w : World) : World :=
  match component w with
  | Some c =>
      match cleanup c with
      | Some kl => update_component (with_cleanup None) (cleanupSession ep kl w)
      | None => w
      end
  | None => w
  end.

(** The third effect (dependencies [[initialCode, isReady]]), with the
    values of the render that scheduled it. *)
Definition updateEffect (newCode : string) (ready : bool) (w : World) : World :=
  match component w with
  | Some c =>
      match editorRef c with
      | Some eid =>
          if ready then
            let currentValue := editor_getValue eid (monaco w) in
            if negb (String.eqb currentValue newCode)
            then edit eid (editor_setValue eid newCode) (act (AEditorSetValue eid newCode) w)
            else w
          else w
      | None => w
      end
  | None => w
  end.

(** What the hook runtime does once the session effect has ended: after a
    return the update effect runs if it is scheduled; an error ends the
    flush, so the effects after it are dropped.  The component catches
    nothing, so the error leaves it; the instance stays mounted, as it does
    when no error boundary of the host takes the subtree down. *)
Definition afterSessionEffect (run3 : bool) (newCode : string) (ready : bool) (r : Completion)
    : World :=
  match r with
  | Returned w => if run3 then updateEffect newCode ready w else w
  | Threw w => log LogUncaughtError w
  end.

(** One render of the mounted instance followed by its effects: the cleanups
    of the effects whose dependencies changed, then their bodies in
    declaration order.  The dependency arrays of the render are recorded
    whether or not an effect fails. *)
Definition commit (ep : EngineProfile) (w : World) : World :=
  match component w with
  | Some c =>
      let new := {| d_onSave := onSave (props c);
                    d_initialCode := initialCode (props c);
                    d_isReady := isReady c |} in
      let first := match deps c with None => true | Some _ => false end in
      let run2 := match deps c with
                  | None => true
                  | Some d => negb (bool_decide (d_onSave d = d_onSave new))
                  end in
      let run3 := match deps c with
                  | None => true
                  | Some d => negb (String.eqb (d_initialCode d) (d_initialCode new))
                              || negb (Bool.eqb (d_isReady d) (d_isReady new))
                  end in
      let w := if run2 then invokeCleanup ep w else w in
      let w := if first then registerEnvironment ep w else w in
      let r := if run2 then sessionEffect ep w else Returned w in
      let w := afterSessionEffect run3 (d_initialCode new) (d_isReady new) r in
      update_component (with_deps (Some new)) w
  | None => w
  end.

(** A state update made by an effect ([setIsReady]) schedules one more
    render when it changed the state. *)
Definition stateChanged (w : World) : bool :=
  match component w with
  | Some c => match deps c with
              | Some d => negb (Bool.eqb (d_isReady d) (isReady c))
              | None => true
              end
  | None => false
  end.

Definition render (ep : EngineProfile) (w : World) : World :=
  let w := commit ep w in
  if stateChanged w then commit ep w else w.

(** The timer callback: the edit-then-undo cycle that forces validation. *)
Definition nudge (eid : nat) (w : World) : World :=
  match editor_getModel eid (monaco w) with
  | Some mid =>
      let w := log (LogEditorModelLanguage (model_language mid (monaco w))) w in
      let w := log LogTriggeringValidation w in
      let w := edit eid (editor_type eid " ") (act (AEditorTrigger eid "type") w) in
      edit eid (editor_undo eid) (act (AEditorTrigger eid "undo") w)
  | None => w
  end.

(** Is the target still part of the page?  A disposed widget and the
    container of an unmounted instance are not. *)
Definition attached (w : World) (t : Target) : bool :=
  match t with
  | TEditor eid =>
      match live_editor eid (monaco w) with
      | Some ed => containerRef_of (ed_container ed) w
      | None => false
      end
  | TContainer i => containerRef_of i w
  | TOutside => true
  end.

Definition no_flags : EventFlags := {| defaultPrevented := false; propagationStopped := false |}.

(** Dispatch of a keydown: the capturing listeners of [document] first; the
    widget under the target sees the event only if none of them stopped its
    propagation. *)
Definition dispatchKeyDown (ep : EngineProfile) (e : KeyboardEvent) (w : World)
    : World * EventFlags :=
  if attached w (target e) then
    let st := foldl (handleKeyDown e) (w, no_flags) (doc_keydown w) in
    if propagationStopped (snd st) then st
    else match target e with
         | TEditor eid => (widgetKeyDown ep eid e (fst st), snd st)
         | _ => st
         end
  else (w, no_flags).

(** ** Events of the process *)

Inductive Event :=
| Mount (p : MolViewEditorProps) (container : bool)
| Rerender (p : MolViewEditorProps)
| Unmount
| KeyDown (e : KeyboardEvent)
| UserType (eid : nat) (text : string)
| UserUndo (eid : nat)
| TimerFire (i : nat)
| AssignContainerRef (container : bool).

(** The host renders the mounted instance with new props. *)
Definition rerender (ep : EngineProfile) (p : MolViewEditorProps) (w : World) : World :=
  match component w with
  | Some _ => render ep (update_component (with_props p) w)
  | None => w
  end.

(** The host renders the component into the root the process watches.  On
    an empty root a new instance with fresh refs and state is rendered and
    its effects run; [container] tells whether the [div] of the instance is
    in place when they run.  On a root that holds the instance the renderer
    keeps that instance and renders it with the new props.  Instances in
    other roots of the page are outside this embedding. *)
Definition mount (ep : EngineProfile) (p : MolViewEditorProps) (container : bool) (w : World) : World :=
  match component w with
  | Some _ => rerender ep p w
  | None =>
      render ep
        (set_component
           (Some {| instance := fresh w; props := p; containerRef := container;
                    editorRef := None; isReady := false; deps := None; cleanup := None |})
           (set_fresh (S (fresh w)) w))
  end.

(** The renderer assigns [containerRef.current]: the [div] when it is
    attached, [null] when it is detached.  The component reads the ref anew
    at every run of the session effect and at every key event. *)
Definition assignContainerRef (container : bool) (w : World) : World :=
  update_component (with_containerRef container) w.

(** The host unmounts the instance: the registered cleanup runs, then the
    instance and its refs are gone. *)
Definition unmount (ep : EngineProfile) (w : World) : World :=
  match component w with
  | Some _ => set_component None (invokeCleanup ep w)
  | None => w
  end.

(** The [i]-th pending timer fires; timers are never cancelled. *)
Definition fireTimer (i : nat) (w : World) : World :=
  match timers w !! i with
  | Some (Nudge eid) => nudge eid (set_timers (delete i (timers w)) w)
  | None => w
  end.

(** One turn of the event loop. *)
Definition step (ep : EngineProfile) (w : World) (ev : Event) : World :=
  match ev with
  | Mount p container => mount ep p container w
  | Rerender p => rerender ep p w
  | Unmount => unmount ep w
  | KeyDown e => fst (dispatchKeyDown ep e w)
  | UserType eid text => edit eid (editor_type eid text) w
  | UserUndo eid => edit eid (editor_undo eid) w
  | TimerFire i => fireTimer i w
  | AssignContainerRef container => assignContainerRef container w
  end.

Definition run (ep : EngineProfile) (w : World) (evs : list Event) : World :=
  foldl (step ep) w evs.

(** The engine as shipped: registering a known language id is accepted, an
    editor does not own a model it was handed, and a second live model
    under one URI is refused. *)
Definition monaco_profile : EngineProfile :=
  {| register_rejects_duplicate := false; dispose_releases_model := false; isMac := false;
     createModel_rejects_uri_in_use := true |}.

(** An engine whose editors own the models they are given; otherwise as
    shipped. *)
Definition owning_profile : EngineProfile :=
  {| register_rejects_duplicate := false; dispose_releases_model := true; isMac := false;
     createModel_rejects_uri_in_use := true |}.


(** ** Sessions *)

(** The text the component reads through [editorRef.current.getValue()]. *)
Definition liveText (w : World) : string :=
  match component w with
  | Some c => match editorRef c with
              | Some eid => editor_getValue eid (monaco w)
              | None => ""
              end
  | None => ""
  end.

(** What a content listener that captured [cb] sends for the text [t]. *)
Definition forward (cb : option Callback) (t : string) : list Notification :=
  match cb with
  | Some f => [CodeChange f t]
  | None => []
  end.

(** A live session: the instance, its last rendered props, the handles the
    session effect created, and the [onCodeChange] that effect captured. *)
Record Session := {
  s_instance : nat;
  s_props : MolViewEditorProps;
  s_editor : nat;
  s_model : nat;
  s_listener : nat;
  s_onCodeChange : option Callback
}.

Definition session_listener (s : Session) : KeyListener :=
  {| kl_id := s_listener s; kl_instance := s_instance s; kl_onSave := onSave (s_props s) |}.

Definition session_component (s : Session) : Component :=
  {| instance := s_instance s; props := s_props s; containerRef := true;
     editorRef := Some (s_editor s); isReady := true;
     deps := Some {| d_onSave := onSave (s_props s);
                     d_initialCode := initialCode (s_props s);
                     d_isReady := true |};
     cleanup := Some (session_listener s) |}.

(** The state [Ready] of the session controller. *)
Record Ready (w : World) (s : Session) : Prop := {
  ready_component : component w = Some (session_component s);
  ready_doc : doc_keydown w = [session_listener s];
  ready_editor :
    exists ed, editors (monaco w) !! s_editor s = Some ed /\
      ed_disposed ed = false /\ ed_container ed = s_instance s /\
      ed_model ed = s_model s /\
      ed_commands ed = [(CtrlCmd_KeyS, SaveCommand (onSave (s_props s)))] /\
      ed_listeners ed = [ForwardChange (s_onCodeChange s)];
  ready_model :
    exists m, models (monaco w) !! s_model s = Some m /\ m_disposed m = false;
  ready_others :
    forall i ed, editors (monaco w) !! i = Some ed -> i <> s_editor s -> ed_disposed ed = true
}.

(** No session: no key listener, no live editor, and the instance, if one
    is mounted, never got its container. *)
Record Idle (w : World) : Prop := {
  idle_component :
    match component w with
    | Some c => containerRef c = false /\ editorRef c = None /\ isReady c = false /\
                cleanup c = None /\
                deps c = Some {| d_onSave := onSave (props c);
                                 d_initialCode := initialCode (props c);
                                 d_isReady := false |}
    | None => True
    end;
  idle_doc : doc_keydown w = [];
  idle_editors : forall i ed, editors (monaco w) !! i = Some ed -> ed_disposed ed = true
}.

Definition is_mount (ev : Event) : bool :=
  match ev with
  | Mount _ _ => true
  | _ => false
  end.

(** Does the engine refuse a new document at [file:///main.js]? *)
Definition refused (ep : EngineProfile) (w : World) : bool :=
  createModel_rejects_uri_in_use ep && uri_in_use "file:///main.js" (monaco w).

(** No editor of the engine is live. *)
Definition no_live_editor (w : World) : Prop :=
  forall i ed, editors (monaco w) !! i = Some ed -> ed_disposed ed = true.

(** The instance after a session effect that [createModel] left by an
    error: the key listener [kl] of that run is on the document, no editor
    is behind the ref, and no cleanup is registered for the effect. *)
Record Stranded (w : World) (kl : KeyListener) : Prop := {
  stranded_component :
    exists c, component w = Some c /\ instance c = kl_instance kl /\
      containerRef c = true /\ editorRef c = None /\ cleanup c = None;
  stranded_doc : doc_keydown w = [kl];
  stranded_editors : forall i ed, editors (monaco w) !! i = Some ed -> ed_disposed ed = true
}.

(** Every live editor is the one behind the editor ref of the mounted
    instance, and that instance holds the cleanup that disposes it. *)
Definition Tended (w : World) : Prop :=
  forall i ed, editors (monaco w) !! i = Some ed -> ed_disposed ed = false ->
    exists c kl, component w = Some c /\ editorRef c = Some i /\
      cleanup c = Some kl /\ kl_instance kl = instance c.

(** Nothing is mounted and no editor is live. *)
Definition Dormant (w : World) : Prop := component w = None /\ no_live_editor w.

(** ** Derived notions used in the statements *)

(** The shape of the engine's edits: each rewrites the text of the editor's
    own model. *)
Definition rewrites (eid : nat) (op : Monaco -> option Monaco) : Prop :=
  forall mo mo', op mo = Some mo' ->
    exists ed t cur undo, live_editor eid mo = Some ed /\ mo' = write_text eid ed t cur undo mo.

(** What a save does for the host: one call of the captured [onSave], if
    there is one, with the live text. *)
Definition saveBy (cb : option Callback) (w : World) : World :=
  match cb with
  | Some f => notify (Save f (liveText w)) w
  | None => w
  end.

Definition new_editor (c : Component) (mid : nat) : Editor :=
  {| ed_container := instance c; ed_model := mid; ed_disposed := false;
     ed_cursor := 0; ed_undo := [];
     ed_commands := [(CtrlCmd_KeyS, SaveCommand (onSave (props c)))];
     ed_listeners := [ForwardChange (onCodeChange (props c))] |}.

Definition new_model (c : Component) : Model :=
  {| m_uri := "file:///main.js"; m_language := "javascript";
     m_text := initialCode (props c); m_disposed := false |}.

(** The languages the engine knows after one more registration attempt. *)
Definition registered_after (ep : EngineProfile) (mo : Monaco) : list string :=
  if register_rejects_duplicate ep && registered "javascript" mo
  then languages mo
  else (languages mo ++ ["javascript"])%list.

Definition with_s_props (p : MolViewEditorProps) (s : Session) : Session :=
  {| s_instance := s_instance s; s_props := p; s_editor := s_editor s;
     s_model := s_model s; s_listener := s_listener s;
     s_onCodeChange := s_onCodeChange s |}.

(** The programmatic replace of the update effect. *)
Definition replaceText (v : string) (s : Session) (w : World) : World :=
  edit (s_editor s) (editor_setValue (s_editor s) v)
    (act (AEditorSetValue (s_editor s) v) w).

(** The insertion point of the next typed text: the cursor, kept inside
    the text. *)
Definition cursorOf (eid : nat) (mo : Monaco) : nat :=
  match live_editor eid mo with
  | Some ed => Nat.min (ed_cursor ed) (String.length (editor_getValue eid mo))
  | None => 0
  end.

(** The key presses that type [T], one character per event. *)
Fixpoint typing (eid : nat) (T : string) : list Event :=
  match T with
  | EmptyString => []
  | String c T' => UserType eid (String c "") :: typing eid T'
  end.

Definition exampleProps : MolViewEditorProps :=
  {| p_initialCode := Some "let a = 1"; p_onCodeChange := Some 7;
     p_onSave := Some 9; p_height := None |}.

Definition exampleSession : Session :=
  {| s_instance := 0; s_props := exampleProps; s_editor := 0; s_model := 0;
     s_listener := 1; s_onCodeChange := Some 7 |}.

Definition exampleWorld (ep : EngineProfile) : World := mount ep exampleProps true init.

Definition ctrlS (t : Target) : KeyboardEvent :=
  {| metaKey := false; ctrlKey := true; shiftKey := false; altKey := false;
     key := "s"; code := KeyS; target := t |}.

(** [n] rounds of mounting and unmounting the component. *)
Fixpoint remounts (n : nat) (p : MolViewEditorProps) : list Event :=
  match n with
  | 0 => []
  | S n' => Mount p true :: Unmount :: remounts n' p
  end.

Definition is_register (a : Action) : bool :=
  match a with
  | ALanguagesRegister _ => true
  | _ => false
  end.

Definition is_install (a : Action) : bool :=
  match a with
  | AInstallMonacoEnvironment => true
  | _ => false
  end.

(** The document of a session is destroyed when its model is disposed. *)
Definition document_destroyed (w : World) (mid : nat) : Prop :=
  exists m, models (monaco w) !! mid = Some m /\ m_disposed m = true.

(** ** Notions used by the further properties *)

(** The calls of the registration effect, given the engine and whether
    [window.MonacoEnvironment] is already there. *)
Definition registerTrace (ep : EngineProfile) (mo : Monaco) (env : bool) : list Action :=
  (ALanguagesRegister "javascript"
   :: (if register_rejects_duplicate ep && registered "javascript" mo then []
       else [ASetMonarchTokensProvider "javascript"; ASetLanguageConfiguration "javascript"])
   ++ (if env then [] else [AInstallMonacoEnvironment]))%list.

(** The calls of one run of the session effect, in program order. *)
Definition sessionTrace (kl : KeyListener) (p : MolViewEditorProps) (inst mid eid : nat)
    : list Action :=
  [AAddEventListener kl; ASetCompilerOptions; ASetDiagnosticsOptions;
   ASetEagerModelSync true;
   ACreateModel (initialCode p) "javascript" "file:///main.js";
   ACreateEditor inst mid; ASetEditorRef (Some eid);
   ASetupMonacoCodeCompletion; AGetExtraLibs;
   ASetTimeout (Nudge eid) 1000; AAddCommand eid CtrlCmd_KeyS;
   AOnDidChangeModelContent eid; ASetIsReady true].

(** A document as the component creates them. *)
Definition main_js_model (ep : EngineProfile) (m : Model) : Prop :=
  m_uri m = "file:///main.js" /\ m_language m = "javascript" /\
  (dispose_releases_model ep = false -> m_disposed m = false).

(** Events under which a session whose key listener captured [cb] stays
    in place: key presses, edits, timers, a ref assignment that keeps the
    container, and a render that keeps [onSave]. *)
Definition keeps_session (cb : option Callback) (ev : Event) : bool :=
  match ev with
  | Mount _ _ => false
  | Unmount => false
  | AssignContainerRef container => container
  | Rerender p => bool_decide (onSave p = cb)
  | _ => true
  end.

Definition handled : EventFlags := {| defaultPrevented := true; propagationStopped := true |}.

(** Props with every field left out. *)
Definition noProps : MolViewEditorProps :=
  {| p_initialCode := None; p_onCodeChange := None; p_onSave := None; p_height := None |}.

(** The installations of [window.MonacoEnvironment] recorded so far. *)
Definition installs (w : World) : list Action := List.filter is_install (trace w).

(** What every reachable world satisfies about the worker resolution and
    the documents: [MonacoEnvironment] was installed once if it is set and
    never otherwise, and every model is one the component created. *)
Definition sound (ep : EngineProfile) (w : World) : Prop :=
  installs w = (if MonacoEnvironment w then [AInstallMonacoEnvironment] else []) /\
  Forall (main_js_model ep) (models (monaco w)).

(** The language registry of the engine: the languages, the tokenizers and
    the language configurations installed so far. *)
Definition registry (mo : Monaco) : list string * list string * list string :=
  (languages mo, tokensProviders mo, languageConfigurations mo).

(** What every reachable world satisfies about the registry: only
    [javascript] is registered, its tokenizer and configuration were
    installed as often as the language, and an engine that rejects a known
    id holds it at most once. *)
Definition registry_ok (ep : EngineProfile) (w : World) : Prop :=
  Forall (eq "javascript") (languages (monaco w)) /\
  tokensProviders (monaco w) = languages (monaco w) /\
  languageConfigurations (monaco w) = languages (monaco w) /\
  (register_rejects_duplicate ep = true -> length (languages (monaco w)) <= 1).

(** * Properties *)

Section WithEngine.

Variable ep : EngineProfile.

(** ** The engine *)

Lemma live_editor_Some eid mo ed :
  editors mo !! eid = Some ed -> ed_disposed ed = false -> live_editor eid mo = Some ed.
Proof. intros H1 H2. unfold live_editor. rewrite H1, H2. reflexivity. Qed.

Lemma live_editor_disposed eid mo ed :
  editors mo !! eid = Some ed -> ed_disposed ed = true -> live_editor eid mo = None.
Proof. intros H1 H2. unfold live_editor. rewrite H1, H2. reflexivity. Qed.

Lemma live_editor_inv eid mo ed :
  live_editor eid mo = Some ed -> editors mo !! eid = Some ed /\ ed_disposed ed = false.
Proof.
  unfold live_editor. destruct (editors mo !! eid) as [ed'|]; [|discriminate].
  destruct (ed_disposed ed') eqn:E; [discriminate|].
  intros [= <-]. auto.
Qed.

Lemma all_disposed_not_live eid mo :
  (forall i ed, editors mo !! i = Some ed -> ed_disposed ed = true) ->
  live_editor eid mo = None.
Proof.
  intros H. destruct (live_editor eid mo) as [ed|] eqn:E; [|reflexivity].
  apply live_editor_inv in E as [E1 E2]. apply H in E1. congruence.
Qed.

Lemma alter_snoc {A} (f : A -> A) (l : list A) (x : A) :
  alter f (length l) (l ++ [x])%list = (l ++ [f x])%list.
Proof.
  replace (length l) with (length l + 0) by lia.
  rewrite alter_app_r. reflexivity.
Qed.

Lemma lookup_snoc_length {A} (l : list A) (x : A) : (l ++ [x])%list !! length l = Some x.
Proof. apply list_lookup_middle. reflexivity. Qed.

Lemma insert_at_length n ins t :
  String.length (insert_at n ins t) = String.length ins + String.length t.
Proof.
  revert t. induction n as [|n IH]; intros t; simpl.
  - induction ins as [|c ins IHi]; simpl; [reflexivity|]. f_equal. exact IHi.
  - destruct t as [|c t]; simpl; [lia|]. rewrite IH. lia.
Qed.

Lemma append_nil_r (s : string) : s ++ "" = s.
Proof.
  induction s as [|c s IH]; [reflexivity|].
  change (String c (s ++ "") = String c s). f_equal. exact IH.
Qed.

Lemma append_assoc (a b c : string) : (a ++ b) ++ c = a ++ (b ++ c).
Proof.
  induction a as [|x a IH]; [reflexivity|].
  change (String x ((a ++ b) ++ c) = String x (a ++ (b ++ c))). f_equal. exact IH.
Qed.

(** Inserting [b] right after an insertion of [a] is inserting [a ++ b]. *)
Lemma insert_at_insert_at n a b t :
  n <= String.length t ->
  insert_at (n + String.length a) b (insert_at n a t) = insert_at n (a ++ b) t.
Proof.
  revert t. induction n as [|n IH]; intros t Hn; simpl.
  - clear Hn. induction a as [|c a IHa]; [reflexivity|].
    change (String c (insert_at (String.length a) b (a ++ t)) = String c ((a ++ b) ++ t)).
    f_equal. exact IHa.
  - destruct t as [|c t]; simpl in *; [lia|]. f_equal. apply IH. lia.
Qed.

(** ** Frames: what the small operations leave alone *)

Lemma set_host_id w : set_host (host w) w = w.
Proof. destruct w. reflexivity. Qed.

Lemma set_monaco_id w : set_monaco (monaco w) w = w.
Proof. destruct w. reflexivity. Qed.

Lemma runContentListener_frame eid w l :
  exists h, runContentListener eid w l = set_host h w.
Proof.
  destruct l as [[cb|]]; simpl.
  - eexists. reflexivity.
  - exists (host w). symmetry. apply set_host_id.
Qed.

Lemma runCommand_frame eid w cmd :
  exists h, runCommand eid w cmd = set_host h w.
Proof.
  destruct cmd as [[cb|]]; simpl.
  - eexists. reflexivity.
  - exists (host w). symmetry. apply set_host_id.
Qed.

Lemma handleKeyDown_frame e w fl kl :
  exists h fl', handleKeyDown e (w, fl) kl = (set_host h w, fl').
Proof.
  unfold handleKeyDown.
  destruct (saveGesture e);
    [destruct (containerRef_of _ w && contains _ _ _);
     [destruct (kl_onSave kl); [destruct (editorRef_of _ w)|]|]|];
    try (exists (host w); eexists; rewrite set_host_id; reflexivity).
  eexists; eexists; reflexivity.
Qed.

Lemma foldl_handleKeyDown_frame e kls w fl :
  exists h fl', foldl (handleKeyDown e) (w, fl) kls = (set_host h w, fl').
Proof.
  revert w fl. induction kls as [|kl kls IH]; intros w fl.
  - exists (host w), fl. rewrite set_host_id. reflexivity.
  - change (foldl (handleKeyDown e) (w, fl) (kl :: kls))
      with (foldl (handleKeyDown e) (handleKeyDown e (w, fl) kl) kls).
    destruct (handleKeyDown_frame e w fl kl) as (h & fl' & ->).
    destruct (IH (set_host h w) fl') as (h' & fl'' & ->).
    exists h', fl''. reflexivity.
Qed.

Lemma widgetKeyDown_frame eid e w :
  exists h, widgetKeyDown ep eid e w = set_host h w.
Proof.
  unfold widgetKeyDown.
  destruct (live_editor eid (monaco w)) as [ed|];
    [|exists (host w); symmetry; apply set_host_id].
  generalize (ed_commands ed). intros cmds. revert w.
  induction cmds as [|[kb cmd] cmds IH]; intros w; simpl.
  - exists (host w). symmetry. apply set_host_id.
  - destruct (kb_matches ep kb e).
    + destruct (runCommand_frame eid w cmd) as [h ->].
      destruct (IH (set_host h w)) as [h' ->]. exists h'. reflexivity.
    + apply IH.
Qed.

(** A key event changes nothing but the list of host notifications. *)
Lemma dispatchKeyDown_frame e w :
  exists h, fst (dispatchKeyDown ep e w) = set_host h w.
Proof.
  unfold dispatchKeyDown.
  destruct (attached w (target e)); [|exists (host w); symmetry; apply set_host_id].
  destruct (foldl_handleKeyDown_frame e (doc_keydown w) w no_flags) as (h & fl & ->).
  simpl. destruct (propagationStopped fl); [exists h; reflexivity|].
  destruct (target e) as [eid| |]; simpl; try (exists h; reflexivity).
  destruct (widgetKeyDown_frame eid e (set_host h w)) as [h' ->].
  exists h'. reflexivity.
Qed.

(** ** Facts about a ready session *)

Lemma Ready_frame w w' s :
  monaco w' = monaco w -> doc_keydown w' = doc_keydown w -> component w' = component w ->
  Ready w s -> Ready w' s.
Proof.
  intros Hm Hd Hc [R1 R2 R3 R4 R5].
  constructor; rewrite ?Hm, ?Hd, ?Hc; assumption.
Qed.

(** A session survives whatever leaves the engine, the key listeners and the
    component alone. *)
Ltac keep_ready R := eapply Ready_frame; [| | |exact R]; reflexivity.

Lemma ready_live w s :
  Ready w s ->
  exists ed, live_editor (s_editor s) (monaco w) = Some ed /\
    ed_container ed = s_instance s /\ ed_model ed = s_model s /\
    ed_commands ed = [(CtrlCmd_KeyS, SaveCommand (onSave (s_props s)))] /\
    ed_listeners ed = [ForwardChange (s_onCodeChange s)].
Proof.
  intros [_ _ (ed & H1 & H2 & H3 & H4 & H5 & H6) _ _].
  exists ed. split; [apply live_editor_Some; assumption|]. auto.
Qed.

Lemma ready_other_dead w s eid :
  Ready w s -> eid <> s_editor s -> live_editor eid (monaco w) = None.
Proof.
  intros R Hne. destruct (live_editor eid (monaco w)) as [ed|] eqn:E; [|reflexivity].
  apply live_editor_inv in E as [E1 E2].
  rewrite (ready_others _ _ R _ _ E1 Hne) in E2. discriminate.
Qed.

Lemma ready_live_unique w s eid ed :
  Ready w s -> live_editor eid (monaco w) = Some ed -> eid = s_editor s.
Proof.
  intros R E. destruct (decide (eid = s_editor s)) as [|Hne]; [assumption|].
  rewrite (ready_other_dead _ _ _ R Hne) in E. discriminate.
Qed.

Lemma ready_liveText_eq w s :
  Ready w s -> liveText w = editor_getValue (s_editor s) (monaco w).
Proof. intros R. unfold liveText. rewrite (ready_component _ _ R). reflexivity. Qed.

Lemma ready_text w s :
  Ready w s ->
  exists m, models (monaco w) !! s_model s = Some m /\ m_disposed m = false /\
            liveText w = m_text m.
Proof.
  intros R. destruct (ready_model _ _ R) as (m & Hm & Hd).
  exists m. split; [assumption|]. split; [assumption|].
  rewrite (ready_liveText_eq _ _ R). unfold editor_getValue.
  destruct (ready_live _ _ R) as (ed & -> & _ & -> & _). rewrite Hm. reflexivity.
Qed.

(** Rewriting the text of the session's document keeps the session. *)
Lemma ready_write_text w s ed t cur undo :
  Ready w s -> live_editor (s_editor s) (monaco w) = Some ed ->
  Ready (set_monaco (write_text (s_editor s) ed t cur undo (monaco w)) w) s /\
  liveText (set_monaco (write_text (s_editor s) ed t cur undo (monaco w)) w) = t.
Proof.
  intros R L.
  destruct (ready_live _ _ R) as (ed' & L' & Hc & Hmo & Hcmd & Hls).
  rewrite L in L'. injection L' as <-.
  apply live_editor_inv in L as [Hed Hdis].
  destruct (ready_model _ _ R) as (m & Hm & Hmd).
  assert (Hlt : s_editor s < length (editors (monaco w))) by (eapply lookup_lt_Some; eauto).
  assert (R' : Ready (set_monaco (write_text (s_editor s) ed t cur undo (monaco w)) w) s).
  { constructor; simpl.
    - apply (ready_component _ _ R).
    - apply (ready_doc _ _ R).
    - exists (with_cursor_undo cur undo ed). split.
      + apply list_lookup_insert_eq. assumption.
      + simpl. auto.
    - exists (set_m_text t m). split; [|simpl; assumption].
      rewrite Hmo, list_lookup_alter_eq, Hm. reflexivity.
    - intros i ed0 Hi Hne. rewrite list_lookup_insert_ne in Hi by congruence.
      eapply (ready_others _ _ R); eauto. }
  split; [exact R'|].
  destruct (ready_text _ _ R') as (m' & Hm' & _ & ->).
  simpl in Hm'. rewrite Hmo, list_lookup_alter_eq, Hm in Hm'.
  injection Hm' as <-. reflexivity.
Qed.

Lemma fire_ready w s :
  Ready w s ->
  fireDidChangeModelContent (s_editor s) w
  = set_host (host w ++ forward (s_onCodeChange s) (liveText w)) w.
Proof.
  intros R. unfold fireDidChangeModelContent.
  destruct (ready_live _ _ R) as (ed & -> & _ & _ & _ & ->).
  rewrite (ready_liveText_eq _ _ R).
  destruct (s_onCodeChange s) as [cb|]; simpl.
  - reflexivity.
  - rewrite app_nil_r. symmetry. apply set_host_id.
Qed.

Lemma editor_type_rewrites eid text : rewrites eid (editor_type eid text).
Proof.
  intros mo mo'. unfold editor_type.
  destruct (live_editor eid mo) as [ed|] eqn:E; [|discriminate].
  destruct (String.eqb text ""); [discriminate|].
  intros [= <-]. eauto 10.
Qed.

Lemma editor_undo_rewrites eid : rewrites eid (editor_undo eid).
Proof.
  intros mo mo'. unfold editor_undo.
  destruct (live_editor eid mo) as [ed|] eqn:E; [|discriminate].
  destruct (ed_undo ed) as [|[t cur] rest]; [discriminate|].
  intros [= <-]. eauto 10.
Qed.

Lemma editor_setValue_rewrites eid v : rewrites eid (editor_setValue eid v).
Proof.
  intros mo mo'. unfold editor_setValue.
  destruct (live_editor eid mo) as [ed|] eqn:E; [|discriminate].
  intros [= <-]. eauto 10.
Qed.

(** An edit of the session's editor: nothing happens, or the session stays
    ready and its listener is called once with the whole new text. *)
Lemma ready_edit w s op :
  Ready w s -> rewrites (s_editor s) op ->
  (op (monaco w) = None /\ edit (s_editor s) op w = w) \/
  (exists mo', op (monaco w) = Some mo' /\
     Ready (edit (s_editor s) op w) s /\
     edit (s_editor s) op w
     = set_host (host w ++ forward (s_onCodeChange s) (liveText (edit (s_editor s) op w)))
         (set_monaco mo' w)).
Proof.
  intros R Hop. unfold edit.
  destruct (op (monaco w)) as [mo'|] eqn:E; [right|left; auto].
  exists mo'. split; [reflexivity|].
  destruct (Hop _ _ E) as (ed & t & cur & undo & L & ->).
  destruct (ready_write_text w s ed t cur undo R L) as [R' Ht].
  rewrite (fire_ready _ _ R'). rewrite Ht. simpl.
  split; [keep_ready R'|].
  change (liveText (set_host ?h ?x)) with (liveText x). rewrite Ht. reflexivity.
Qed.

(** An edit aimed at any other editor finds it disposed. *)
Lemma dead_edit w eid op :
  live_editor eid (monaco w) = None -> rewrites eid op -> edit eid op w = w.
Proof.
  intros L Hop. unfold edit.
  destruct (op (monaco w)) as [mo'|] eqn:E; [|reflexivity].
  destruct (Hop _ _ E) as (ed & _ & _ & _ & L' & _). congruence.
Qed.

(** ** Key events in a ready session *)

#[local] Arguments kb_matches : simpl never.
#[local] Arguments saveGesture : simpl never.

Lemma ready_refs w s :
  Ready w s ->
  containerRef_of (s_instance s) w = true /\
  editorRef_of (s_instance s) w = Some (s_editor s).
Proof.
  intros R. unfold containerRef_of, editorRef_of.
  rewrite (ready_component _ _ R). simpl. rewrite Nat.eqb_refl. auto.
Qed.

Lemma ready_contains_attached w s t :
  Ready w s -> contains (s_instance s) t (monaco w) = true -> attached w t = true.
Proof.
  intros R. destruct (ready_refs _ _ R) as [Hc _].
  destruct t as [eid|i|]; simpl; [| |discriminate].
  - destruct (live_editor eid (monaco w)) as [ed|]; [|discriminate].
    intros ->%Nat.eqb_eq. exact Hc.
  - intros ->%Nat.eqb_eq. exact Hc.
Qed.

Lemma ready_attached_editor w s eid :
  Ready w s -> attached w (TEditor eid) = true ->
  eid = s_editor s /\ contains (s_instance s) (TEditor eid) (monaco w) = true.
Proof.
  intros R. simpl.
  destruct (live_editor eid (monaco w)) as [ed|] eqn:L; [|discriminate].
  intros _. pose proof (ready_live_unique _ _ _ _ R L) as ->.
  destruct (ready_live _ _ R) as (ed' & L' & Hc & _).
  rewrite L in L'. injection L' as <-.
  split; [reflexivity|]. rewrite Hc. apply Nat.eqb_refl.
Qed.

(** The complete effect of a keydown on a ready session. *)
Lemma ready_keydown w s e :
  Ready w s ->
  fst (dispatchKeyDown ep e w) =
    if contains (s_instance s) (target e) (monaco w) then
      if saveGesture e then saveBy (onSave (s_props s)) w
      else match target e with
           | TEditor _ =>
               if kb_matches ep CtrlCmd_KeyS e then saveBy (onSave (s_props s)) w else w
           | _ => w
           end
    else w.
Proof.
  intros R. unfold dispatchKeyDown. rewrite (ready_doc _ _ R).
  destruct (ready_refs _ _ R) as [Hc He].
  destruct (contains (s_instance s) (target e) (monaco w)) eqn:C.
  - rewrite (ready_contains_attached _ _ _ R C).
    change (foldl (handleKeyDown e) (w, no_flags) [session_listener s])
      with (handleKeyDown e (w, no_flags) (session_listener s)).
    unfold handleKeyDown. simpl kl_instance. simpl kl_onSave.
    rewrite Hc, He, C. simpl andb.
    destruct (saveGesture e).
    + unfold saveBy. rewrite (ready_liveText_eq _ _ R).
      destruct (onSave (s_props s)); reflexivity.
    + simpl. destruct (target e) as [eid| |] eqn:T; try reflexivity.
      assert (eid = s_editor s) as ->.
      { apply (ready_attached_editor w s eid R).
        apply (ready_contains_attached _ _ _ R C). }
      unfold widgetKeyDown.
      destruct (ready_live _ _ R) as (ed & -> & _ & _ & -> & _).
      simpl. destruct (kb_matches ep CtrlCmd_KeyS e); [|reflexivity].
      unfold saveBy. rewrite (ready_liveText_eq _ _ R).
      destruct (onSave (s_props s)); reflexivity.
  - destruct (attached w (target e)) eqn:A; [|reflexivity].
    change (foldl (handleKeyDown e) (w, no_flags) [session_listener s])
      with (handleKeyDown e (w, no_flags) (session_listener s)).
    unfold handleKeyDown. simpl kl_instance. rewrite C, andb_false_r.
    destruct (saveGesture e); simpl;
      (destruct (target e) as [eid| |] eqn:T; try reflexivity;
       destruct (ready_attached_editor w s eid R A) as [_ C']; congruence).
Qed.

Lemma ready_keydown_ready w s e :
  Ready w s -> Ready (fst (dispatchKeyDown ep e w)) s.
Proof.
  intros R. destruct (dispatchKeyDown_frame e w) as [h ->].
  keep_ready R.
Qed.

(** ** The session effect and its cleanup *)

Lemma refused_models w w' :
  models (monaco w') = models (monaco w) -> refused ep w' = refused ep w.
Proof. intros H. unfold refused, uri_in_use. rewrite H. reflexivity. Qed.

(** Unless the engine refuses the document, the session effect returns. *)
Lemma sessionEffect_returns w :
  refused ep w = false -> sessionEffect ep w = Returned (world_of (sessionEffect ep w)).
Proof.
  intros Hr. unfold sessionEffect. destruct (component w) as [c|]; [|reflexivity].
  destruct (negb (containerRef c)); [reflexivity|].
  unfold initEditor, createModel. unfold refused in Hr. simpl. rewrite Hr. reflexivity.
Qed.

Lemma sessionEffect_spec w c :
  component w = Some c -> containerRef c = true -> refused ep w = false ->
  let kl := {| kl_id := fresh w; kl_instance := instance c; kl_onSave := onSave (props c) |} in
  let w' := world_of (sessionEffect ep w) in
  component w' = Some (with_cleanup (Some kl)
                         (with_isReady true
                            (with_editorRef (Some (length (editors (monaco w)))) c))) /\
  doc_keydown w' = (doc_keydown w ++ [kl])%list /\
  editors (monaco w') = (editors (monaco w) ++ [new_editor c (length (models (monaco w)))])%list /\
  models (monaco w') = (models (monaco w) ++ [new_model c])%list /\
  host w' = host w /\ languages (monaco w') = languages (monaco w).
Proof.
  intros Hc Hcont Hr. destruct w as [mo env dk tm co tr ho fr comp].
  simpl in Hc. subst comp. unfold refused in Hr. simpl in Hr.
  unfold sessionEffect, initEditor, createModel. simpl. rewrite Hcont, Hr. simpl.
  rewrite !alter_snoc. auto 10.
Qed.

(** When the engine refuses the document, the session effect is left by
    the error of [createModel]: the key listener is on the document, the
    options are set, and nothing after the call is reached. *)
Lemma sessionEffect_refused w c :
  component w = Some c -> containerRef c = true -> refused ep w = true ->
  sessionEffect ep w
  = Threw (act (ACreateModel (initialCode (props c)) "javascript" "file:///main.js")
             (act (ASetEagerModelSync true)
                (act ASetDiagnosticsOptions
                   (act ASetCompilerOptions
                      (addEventListener
                         {| kl_id := fresh w; kl_instance := instance c;
                            kl_onSave := onSave (props c) |}
                         (set_fresh (S (fresh w)) w)))))).
Proof.
  intros Hc Hcont Hr. unfold sessionEffect. rewrite Hc, Hcont. simpl negb. cbv iota.
  unfold initEditor, createModel. unfold refused in Hr. simpl. rewrite Hr. reflexivity.
Qed.

Lemma registerEnvironment_frame w :
  let w' := registerEnvironment ep w in
  editors (monaco w') = editors (monaco w) /\ models (monaco w') = models (monaco w) /\
  doc_keydown w' = doc_keydown w /\ component w' = component w /\ host w' = host w /\
  fresh w' = fresh w /\ timers w' = timers w /\
  languages (monaco w') = registered_after ep (monaco w).
Proof.
  unfold registerEnvironment, languages_register, registered_after. simpl.
  destruct (register_rejects_duplicate ep && registered "javascript" (monaco w)); simpl;
    destruct (MonacoEnvironment w); simpl; auto 10.
Qed.

Lemma invokeCleanup_none w c :
  component w = Some c -> cleanup c = None -> invokeCleanup ep w = w.
Proof. intros Hc Hk. unfold invokeCleanup. rewrite Hc, Hk. reflexivity. Qed.

Lemma updateEffect_not_ready v w : updateEffect v false w = w.
Proof.
  unfold updateEffect. destruct (component w) as [c|]; [|reflexivity].
  destruct (editorRef c); reflexivity.
Qed.

Lemma updateEffect_same v w c eid :
  component w = Some c -> editorRef c = Some eid ->
  editor_getValue eid (monaco w) = v -> updateEffect v true w = w.
Proof.
  intros Hc He Hv. unfold updateEffect. rewrite Hc, He, Hv, String.eqb_refl. reflexivity.
Qed.

Lemma afterSessionEffect_returned run3 v r w :
  afterSessionEffect run3 v r (Returned w) = if run3 then updateEffect v r w else w.
Proof. reflexivity. Qed.

Lemma afterSessionEffect_threw run3 v r w :
  afterSessionEffect run3 v r (Threw w) = log LogUncaughtError w.
Proof. reflexivity. Qed.

Lemma commit_first w c :
  component w = Some c -> deps c = None -> cleanup c = None ->
  commit ep w
  = update_component
      (with_deps (Some {| d_onSave := onSave (props c);
                          d_initialCode := initialCode (props c);
                          d_isReady := isReady c |}))
      (afterSessionEffect true (initialCode (props c)) (isReady c)
         (sessionEffect ep (registerEnvironment ep w))).
Proof.
  intros Hc Hd Hk. unfold commit. rewrite Hc, Hd.
  rewrite (invokeCleanup_none w c Hc Hk). reflexivity.
Qed.

Lemma commit_next w c d :
  component w = Some c -> deps c = Some d ->
  commit ep w
  = update_component
      (with_deps (Some {| d_onSave := onSave (props c);
                          d_initialCode := initialCode (props c);
                          d_isReady := isReady c |}))
      (afterSessionEffect
         (negb (String.eqb (d_initialCode d) (initialCode (props c)))
          || negb (Bool.eqb (d_isReady d) (isReady c)))
         (initialCode (props c)) (isReady c)
         (if negb (bool_decide (d_onSave d = onSave (props c)))
          then sessionEffect ep (invokeCleanup ep w) else Returned w)).
Proof.
  intros Hc Hd. unfold commit. rewrite Hc, Hd. simpl.
  destruct (negb (bool_decide (d_onSave d = onSave (props c)))); reflexivity.
Qed.

Lemma getValue_snoc mo eds mods ed m :
  editors mo = (eds ++ [ed])%list -> models mo = (mods ++ [m])%list ->
  ed_disposed ed = false -> ed_model ed = length mods ->
  editor_getValue (length eds) mo = m_text m.
Proof.
  intros He Hm Hd Hmid. unfold editor_getValue, live_editor.
  rewrite He, lookup_snoc_length, Hd, Hm, Hmid, lookup_snoc_length. reflexivity.
Qed.

(** A world with a freshly created session on top of disposed editors. *)
Lemma ready_intro w s eds mods :
  component w = Some (session_component s) ->
  doc_keydown w = [session_listener s] ->
  editors (monaco w)
  = (eds ++ [{| ed_container := s_instance s; ed_model := s_model s; ed_disposed := false;
                ed_cursor := 0; ed_undo := [];
                ed_commands := [(CtrlCmd_KeyS, SaveCommand (onSave (s_props s)))];
                ed_listeners := [ForwardChange (s_onCodeChange s)] |}])%list ->
  models (monaco w)
  = (mods ++ [{| m_uri := "file:///main.js"; m_language := "javascript";
                 m_text := initialCode (s_props s); m_disposed := false |}])%list ->
  s_editor s = length eds -> s_model s = length mods ->
  (forall i ed, eds !! i = Some ed -> ed_disposed ed = true) ->
  Ready w s /\ liveText w = initialCode (s_props s).
Proof.
  intros Hc Hd He Hm Heid Hmid Hall.
  assert (R : Ready w s).
  { constructor; try assumption.
    - rewrite He, Heid. eexists. split; [apply lookup_snoc_length|]. simpl. auto.
    - rewrite Hm, Hmid. eexists. split; [apply lookup_snoc_length|]. reflexivity.
    - intros i ed Hi Hne. rewrite He in Hi.
      apply lookup_app_Some in Hi as [Hi|[Hge Hi]]; [eauto|].
      destruct (i - length eds) as [|k] eqn:K; [exfalso; lia|].
      destruct k; discriminate. }
  split; [exact R|].
  rewrite (ready_liveText_eq _ _ R), Heid.
  erewrite getValue_snoc; eauto; simpl; auto.
Qed.

Lemma mount_ready p w :
  Idle w -> component w = None -> refused ep w = false ->
  Ready (mount ep p true w)
    {| s_instance := fresh w; s_props := p; s_editor := length (editors (monaco w));
       s_model := length (models (monaco w)); s_listener := S (fresh w);
       s_onCodeChange := onCodeChange p |} /\
  host (mount ep p true w) = host w /\
  liveText (mount ep p true w) = initialCode p /\
  languages (monaco (mount ep p true w)) = registered_after ep (monaco w).
Proof.
  intros [I1 I2 I3] Hc Hr. unfold mount. rewrite Hc. unfold render.
  set (c0 := {| instance := fresh w; props := p; containerRef := true; editorRef := None;
                isReady := false; deps := None; cleanup := None |}).
  set (w0 := set_component (Some c0) (set_fresh (S (fresh w)) w)).
  rewrite (commit_first w0 c0) by reflexivity.
  destruct (registerEnvironment_frame w0) as (F1 & F2 & F3 & F4 & F5 & F6 & F7 & F8).
  set (w1 := registerEnvironment ep w0) in *.
  assert (Hr1 : refused ep w1 = false) by (rewrite (refused_models w w1 F2); exact Hr).
  rewrite (sessionEffect_returns w1 Hr1), afterSessionEffect_returned.
  rewrite updateEffect_not_ready.
  destruct (sessionEffect_spec w1 c0) as (S1 & S2 & S3 & S4 & S5 & S6);
    [rewrite F4; reflexivity|reflexivity|exact Hr1|].
  set (w2 := world_of (sessionEffect ep w1)) in *.
  set (w3 := update_component _ w2).
  assert (C3 : component w3 = Some (with_deps (Some {| d_onSave := onSave p;
               d_initialCode := initialCode p; d_isReady := false |})
               (with_cleanup (Some {| kl_id := S (fresh w); kl_instance := fresh w;
                                      kl_onSave := onSave p |})
                  (with_isReady true
                    (with_editorRef (Some (length (editors (monaco w)))) c0))))).
  { unfold w3, update_component. simpl. rewrite S1, F1, F6. reflexivity. }
  unfold stateChanged. rewrite C3. simpl.
  erewrite (commit_next w3) by (exact C3 || reflexivity).
  simpl. rewrite bool_decide_eq_true_2 by reflexivity.
  rewrite String.eqb_refl. simpl.
  assert (V3 : editor_getValue (length (editors (monaco w))) (monaco w3) = initialCode p).
  { apply (getValue_snoc (monaco w3) (editors (monaco w)) (models (monaco w))
             (new_editor c0 (length (models (monaco w)))) (new_model c0)).
    - unfold w3. simpl. rewrite S3, F1, F2. reflexivity.
    - unfold w3. simpl. rewrite S4, F2. reflexivity.
    - reflexivity.
    - reflexivity. }
  erewrite updateEffect_same; [|exact C3|reflexivity|exact V3].
  set (w4 := update_component _ w3).
  destruct (ready_intro w4
    {| s_instance := fresh w; s_props := p; s_editor := length (editors (monaco w));
       s_model := length (models (monaco w)); s_listener := S (fresh w);
       s_onCodeChange := onCodeChange p |} (editors (monaco w)) (models (monaco w)))
    as [R T]; try reflexivity.
  - unfold w4, update_component. simpl. rewrite S1, F1, F6. reflexivity.
  - unfold w4. simpl. rewrite S2, F3, F6. simpl. rewrite I2. reflexivity.
  - unfold w4. simpl. rewrite S3, F1, F2. reflexivity.
  - unfold w4. simpl. rewrite S4, F2. reflexivity.
  - exact I3.
  - split; [exact R|]. split; [|split; [exact T|]].
    + unfold w4. simpl. rewrite S5, F5. reflexivity.
    + unfold w4. simpl. rewrite S6, F8. reflexivity.
Qed.

(** Rendering into a root that holds the instance renders that instance. *)
Lemma mount_mounted p b w c : component w = Some c -> mount ep p b w = rerender ep p w.
Proof. intros Hc. unfold mount. rewrite Hc. reflexivity. Qed.

Lemma sessionEffect_no_container w c :
  component w = Some c -> containerRef c = false -> sessionEffect ep w = Returned w.
Proof. intros Hc Hb. unfold sessionEffect. rewrite Hc, Hb. reflexivity. Qed.

(** Without a container the session effect returns at once: nothing is
    created and no cleanup is registered. *)
Lemma mount_deferred p w :
  Idle w -> component w = None ->
  Idle (mount ep p false w) /\ host (mount ep p false w) = host w /\
  languages (monaco (mount ep p false w)) = registered_after ep (monaco w).
Proof.
  intros [I1 I2 I3] Hc. unfold mount. rewrite Hc. unfold render.
  set (c0 := {| instance := fresh w; props := p; containerRef := false; editorRef := None;
                isReady := false; deps := None; cleanup := None |}).
  set (w0 := set_component (Some c0) (set_fresh (S (fresh w)) w)).
  rewrite (commit_first w0 c0) by reflexivity.
  destruct (registerEnvironment_frame w0) as (F1 & F2 & F3 & F4 & F5 & F6 & F7 & F8).
  set (w1 := registerEnvironment ep w0) in *.
  rewrite (sessionEffect_no_container w1 c0 F4 eq_refl), afterSessionEffect_returned.
  rewrite updateEffect_not_ready.
  unfold stateChanged, update_component. simpl. rewrite F4. simpl.
  split; [|split; [exact F5|exact F8]].
  constructor; simpl.
  - auto.
  - rewrite F3. exact I2.
  - rewrite F1. exact I3.
Qed.

(** The mount when the engine refuses the document: the error of
    [createModel] leaves the session effect, so no editor and no document
    are made, no timer is set, the instance never becomes ready, and the key
    listener the effect had added stays on the document without a cleanup
    to remove it. *)
Lemma mount_refused p w :
  Idle w -> component w = None -> refused ep w = true ->
  let kl := {| kl_id := S (fresh w); kl_instance := fresh w; kl_onSave := onSave p |} in
  let w' := mount ep p true w in
  Stranded w' kl /\ host w' = host w /\
  models (monaco w') = models (monaco w) /\ editors (monaco w') = editors (monaco w) /\
  timers w' = timers w /\
  (exists c, component w' = Some c /\ isReady c = false /\ props c = p) /\
  last (console w') = Some LogUncaughtError /\
  languages (monaco w') = registered_after ep (monaco w).
Proof.
  intros [I1 I2 I3] Hc Hr kl w'. subst w'. unfold mount. rewrite Hc. unfold render.
  set (c0 := {| instance := fresh w; props := p; containerRef := true; editorRef := None;
                isReady := false; deps := None; cleanup := None |}).
  set (w0 := set_component (Some c0) (set_fresh (S (fresh w)) w)).
  rewrite (commit_first w0 c0) by reflexivity.
  destruct (registerEnvironment_frame w0) as (F1 & F2 & F3 & F4 & F5 & F6 & F7 & F8).
  set (w1 := registerEnvironment ep w0) in *.
  assert (Hr1 : refused ep w1 = true) by (rewrite (refused_models w w1 F2); exact Hr).
  rewrite (sessionEffect_refused w1 c0 F4 eq_refl Hr1), afterSessionEffect_threw.
  unfold stateChanged, update_component. simpl. rewrite F4. simpl.
  split; [constructor; simpl|].
  - eexists. repeat split; reflexivity.
  - rewrite F3, F6. simpl. rewrite I2. reflexivity.
  - rewrite F1. exact I3.
  - rewrite F1, F2, F5, F7, F8. simpl.
    split; [reflexivity|]. split; [reflexivity|]. split; [reflexivity|].
    split; [reflexivity|]. split; [eexists; repeat split; reflexivity|].
    split; [apply last_snoc|reflexivity].
Qed.

(** ** Teardown *)

Lemma cleanupSession_live kl w c eid :
  component w = Some c -> instance c = kl_instance kl -> editorRef c = Some eid ->
  cleanupSession ep kl w
  = act (ASetEditorRef None)
      (update_component (with_editorRef None)
         (act (AEditorDispose eid)
            (set_monaco (editor_dispose ep eid (monaco w)) (removeEventListener kl w)))).
Proof.
  intros Hc Hi He. unfold cleanupSession, editorRef_of. simpl.
  rewrite Hc, Hi, Nat.eqb_refl, He. reflexivity.
Qed.

Lemma cleanupSession_no_editor kl w :
  editorRef_of (kl_instance kl) w = None ->
  cleanupSession ep kl w = removeEventListener kl w.
Proof.
  intros He. unfold cleanupSession.
  change (editorRef_of (kl_instance kl) (removeEventListener kl w))
    with (editorRef_of (kl_instance kl) w).
  rewrite He. reflexivity.
Qed.

Lemma editor_dispose_live eid mo ed :
  live_editor eid mo = Some ed ->
  editors (editor_dispose ep eid mo) = <[eid := disposed_editor ed]> (editors mo) /\
  models (editor_dispose ep eid mo)
  = if dispose_releases_model ep
    then alter (set_m_disposed true) (ed_model ed) (models mo)
    else models mo.
Proof.
  intros L. unfold editor_dispose. rewrite L.
  destruct (dispose_releases_model ep); simpl; auto.
Qed.

Lemma editor_dispose_dead eid mo :
  live_editor eid mo = None -> editor_dispose ep eid mo = mo.
Proof. intros L. unfold editor_dispose. rewrite L. reflexivity. Qed.

Lemma insert_disposed_all eid ed (eds : list Editor) :
  (forall i e, eds !! i = Some e -> i <> eid -> ed_disposed e = true) ->
  forall i e, <[eid := disposed_editor ed]> eds !! i = Some e -> ed_disposed e = true.
Proof.
  intros H i e Hi. destruct (decide (i = eid)) as [->|Hne].
  - apply list_lookup_insert_Some in Hi as [(_ & <- & _)|[? _]]; [reflexivity|congruence].
  - rewrite list_lookup_insert_ne in Hi by congruence. eauto.
Qed.

Lemma set_component_id w c : component w = Some c -> set_component (Some c) w = w.
Proof. intros H. destruct w. simpl in H. subst. reflexivity. Qed.

(** The world after the cleanup of a ready session, field by field.  The
    cleanup reads only the instance and the editor ref of the component. *)
Lemma cleanup_session w s c :
  Ready w s -> instance c = s_instance s -> editorRef c = Some (s_editor s) ->
  let w' := cleanupSession ep (session_listener s) (set_component (Some c) w) in
  component w' = Some (with_editorRef None c) /\
  doc_keydown w' = [] /\
  (exists ed, live_editor (s_editor s) (monaco w) = Some ed /\ ed_model ed = s_model s /\
     editors (monaco w') = <[s_editor s := disposed_editor ed]> (editors (monaco w))) /\
  models (monaco w')
  = (if dispose_releases_model ep
     then alter (set_m_disposed true) (s_model s) (models (monaco w))
     else models (monaco w)) /\
  (forall i e, editors (monaco w') !! i = Some e -> ed_disposed e = true) /\
  host w' = host w /\ fresh w' = fresh w /\ timers w' = timers w /\
  trace w' = (trace w ++ [ARemoveEventListener (session_listener s);
                           AEditorDispose (s_editor s); ASetEditorRef None])%list.
Proof.
  intros R Hi He w'. subst w'.
  rewrite (cleanupSession_live _ (set_component (Some c) w) c (s_editor s));
    [|reflexivity|exact Hi|exact He].
  destruct (ready_live _ _ R) as (ed & L & _ & Hmo & _).
  destruct (editor_dispose_live _ _ _ L) as [E1 E2].
  unfold update_component. simpl. rewrite (ready_doc _ _ R).
  rewrite E1, E2, Hmo.
  repeat split; try reflexivity.
  - simpl. rewrite Nat.eqb_refl. reflexivity.
  - exists ed. auto.
  - apply insert_disposed_all. apply (ready_others _ _ R).
  - rewrite <- !app_assoc. reflexivity.
Qed.

Lemma cleanup_ready w s :
  Ready w s ->
  let w' := cleanupSession ep (session_listener s) w in
  component w' = Some (with_editorRef None (session_component s)) /\
  doc_keydown w' = [] /\
  (exists ed, live_editor (s_editor s) (monaco w) = Some ed /\ ed_model ed = s_model s /\
     editors (monaco w') = <[s_editor s := disposed_editor ed]> (editors (monaco w))) /\
  models (monaco w')
  = (if dispose_releases_model ep
     then alter (set_m_disposed true) (s_model s) (models (monaco w))
     else models (monaco w)) /\
  (forall i e, editors (monaco w') !! i = Some e -> ed_disposed e = true) /\
  host w' = host w /\ fresh w' = fresh w /\ timers w' = timers w /\
  trace w' = (trace w ++ [ARemoveEventListener (session_listener s);
                           AEditorDispose (s_editor s); ASetEditorRef None])%list.
Proof.
  intros R.
  pose proof (cleanup_session w s (session_component s) R eq_refl eq_refl) as H.
  rewrite (set_component_id w _ (ready_component _ _ R)) in H. exact H.
Qed.

Lemma unmount_ready w s :
  Ready w s ->
  Idle (unmount ep w) /\ component (unmount ep w) = None /\
  host (unmount ep w) = host w /\
  trace (unmount ep w)
  = (trace w ++ [ARemoveEventListener (session_listener s);
                  AEditorDispose (s_editor s); ASetEditorRef None])%list.
Proof.
  intros R. unfold unmount, invokeCleanup. rewrite (ready_component _ _ R). simpl.
  destruct (cleanup_ready w s R) as (C1 & C2 & _ & _ & C5 & C6 & _ & _ & C9).
  split; [constructor; simpl; auto|]. auto.
Qed.

(** ** Re-rendering a ready session *)

Lemma runContentListener_set_component eid x w l :
  runContentListener eid (set_component x w) l = set_component x (runContentListener eid w l).
Proof. destruct l as [[cb|]]; reflexivity. Qed.

Lemma fire_set_component eid x w :
  fireDidChangeModelContent eid (set_component x w)
  = set_component x (fireDidChangeModelContent eid w).
Proof.
  unfold fireDidChangeModelContent. simpl.
  destruct (live_editor eid (monaco w)) as [ed|]; [|reflexivity].
  generalize (ed_listeners ed). intros ls. revert w.
  induction ls as [|l ls IH]; intros w; [reflexivity|].
  change (foldl (runContentListener eid) (set_component x w) (l :: ls))
    with (foldl (runContentListener eid) (runContentListener eid (set_component x w) l) ls).
  rewrite runContentListener_set_component. apply IH.
Qed.

Lemma edit_set_component eid op x w :
  edit eid op (set_component x w) = set_component x (edit eid op w).
Proof.
  unfold edit. simpl. destruct (op (monaco w)) as [mo|]; [|reflexivity].
  apply (fire_set_component eid x (set_monaco mo w)).
Qed.

(** New props with the same [onSave] leave the session what it is; the
    [onCodeChange] it captured stays. *)
Lemma ready_reprops w s p :
  Ready w s -> onSave p = onSave (s_props s) ->
  Ready (set_component (Some (session_component (with_s_props p s))) w) (with_s_props p s).
Proof.
  intros [R1 R2 R3 R4 R5] H. constructor; simpl; try assumption.
  - reflexivity.
  - rewrite R2. unfold session_listener. simpl. rewrite H. reflexivity.
  - rewrite H. exact R3.
Qed.

Lemma liveText_reprops w s p :
  Ready w s ->
  liveText (set_component (Some (session_component (with_s_props p s))) w) = liveText w.
Proof. intros R. rewrite (ready_liveText_eq _ _ R). reflexivity. Qed.

(** A re-render that keeps [onSave]: only the update effect can run. *)
Lemma rerender_same p w s :
  Ready w s -> onSave p = onSave (s_props s) ->
  rerender ep p w
  = set_component (Some (session_component (with_s_props p s)))
      (if negb (String.eqb (initialCode (s_props s)) (initialCode p))
          && negb (String.eqb (liveText w) (initialCode p))
       then replaceText (initialCode p) s w else w).
Proof.
  intros R H. unfold rerender. rewrite (ready_component _ _ R). unfold render.
  set (c0 := with_props p (session_component s)).
  assert (E0 : update_component (with_props p) w = set_component (Some c0) w).
  { unfold update_component. rewrite (ready_component _ _ R). reflexivity. }
  rewrite E0.
  erewrite (commit_next (set_component (Some c0) w) c0) by reflexivity.
  simpl. rewrite bool_decide_eq_true_2 by (symmetry; exact H). simpl.
  rewrite orb_false_r.
  set (w1 := if negb (String.eqb (initialCode (s_props s)) (initialCode p)) then _ else _).
  assert (E1 : w1 = set_component (Some c0)
                 (if negb (String.eqb (initialCode (s_props s)) (initialCode p))
                     && negb (String.eqb (liveText w) (initialCode p))
                  then replaceText (initialCode p) s w else w)).
  { subst w1. destruct (negb (String.eqb (initialCode (s_props s)) (initialCode p)));
      [|reflexivity].
    unfold updateEffect. simpl. rewrite <- (ready_liveText_eq _ _ R).
    destruct (negb (String.eqb (liveText w) (initialCode p))); [|reflexivity].
    simpl. unfold replaceText.
    apply (edit_set_component _ _ _ (act (AEditorSetValue (s_editor s) (initialCode p)) w)). }
  rewrite E1. unfold stateChanged, update_component. simpl.
  unfold c0, session_component, session_listener. simpl. rewrite ?H. reflexivity.
Qed.

(** ** Edits of a ready session *)

Lemma write_text_live eid ed t cur undo mo :
  live_editor eid mo = Some ed ->
  live_editor eid (write_text eid ed t cur undo mo) = Some (with_cursor_undo cur undo ed).
Proof.
  intros L. apply live_editor_inv in L as [L1 L2].
  apply live_editor_Some; [|exact L2].
  simpl. apply list_lookup_insert_eq. eapply lookup_lt_Some; eauto.
Qed.

(** One engine edit of the session's document, with everything it does. *)
Lemma ready_rewrite w s ed t cur undo :
  Ready w s -> live_editor (s_editor s) (monaco w) = Some ed ->
  let w' := fireDidChangeModelContent (s_editor s)
              (set_monaco (write_text (s_editor s) ed t cur undo (monaco w)) w) in
  Ready w' s /\ liveText w' = t /\
  host w' = (host w ++ forward (s_onCodeChange s) t)%list /\
  cursorOf (s_editor s) (monaco w') = Nat.min cur (String.length t) /\
  trace w' = trace w /\ timers w' = timers w /\ fresh w' = fresh w /\
  console w' = console w.
Proof.
  intros R L w'. subst w'.
  destruct (ready_write_text w s ed t cur undo R L) as [R' Ht].
  rewrite (fire_ready _ _ R'). rewrite Ht.
  split; [keep_ready R'|].
  split; [exact Ht|]. split; [reflexivity|].
  split; [|auto].
  set (W := set_monaco (write_text (s_editor s) ed t cur undo (monaco w)) w) in *.
  change (cursorOf (s_editor s) (monaco W) = Nat.min cur (String.length t)).
  unfold cursorOf. rewrite <- (ready_liveText_eq _ _ R'), Ht.
  unfold W. simpl monaco. rewrite (write_text_live _ _ t cur undo _ L). reflexivity.
Qed.

Lemma replaceText_spec v w s :
  Ready w s ->
  let w' := replaceText v s w in
  Ready w' s /\ liveText w' = v /\
  host w' = (host w ++ forward (s_onCodeChange s) v)%list /\
  trace w' = (trace w ++ [AEditorSetValue (s_editor s) v])%list /\
  timers w' = timers w /\ fresh w' = fresh w.
Proof.
  intros R w'. subst w'. unfold replaceText, edit, editor_setValue. simpl monaco.
  destruct (ready_live _ _ R) as (ed & L & _).
  rewrite L.
  assert (Ra : Ready (act (AEditorSetValue (s_editor s) v) w) s)
    by keep_ready R.
  destruct (ready_rewrite _ s ed v 0 [] Ra L) as (H1 & H2 & H3 & _ & H5 & H6 & H7 & _).
  auto 10.
Qed.

Lemma type_spec w s text :
  Ready w s -> text <> "" ->
  let w' := edit (s_editor s) (editor_type (s_editor s) text) w in
  Ready w' s /\
  liveText w' = insert_at (cursorOf (s_editor s) (monaco w)) text (liveText w) /\
  cursorOf (s_editor s) (monaco w') = cursorOf (s_editor s) (monaco w) + String.length text /\
  host w' = (host w ++ forward (s_onCodeChange s) (liveText w'))%list /\
  trace w' = trace w /\ timers w' = timers w.
Proof.
  intros R Hne w'. subst w'. unfold edit, editor_type, cursorOf.
  destruct (ready_live _ _ R) as (ed & L & _). rewrite L.
  apply String.eqb_neq in Hne. rewrite Hne.
  rewrite <- (ready_liveText_eq _ _ R).
  set (cur := Nat.min (ed_cursor ed) (String.length (liveText w))).
  destruct (ready_rewrite w s ed (insert_at cur text (liveText w))
              (cur + String.length text) ((liveText w, ed_cursor ed) :: ed_undo ed) R L)
    as (H1 & H2 & H3 & H4 & H5 & H6 & _).
  split; [exact H1|]. split; [exact H2|]. split.
  - match goal with |- context [live_editor ?e ?m] =>
      change (match live_editor e m with
              | Some ed0 => Nat.min (ed_cursor ed0) (String.length (editor_getValue e m))
              | None => 0 end) with (cursorOf e m) end.
    rewrite H4, insert_at_length. subst cur. lia.
  - rewrite H2. auto.
Qed.

Lemma undo_spec w s :
  Ready w s ->
  let w' := edit (s_editor s) (editor_undo (s_editor s)) w in
  Ready w' s /\
  (w' = w \/ host w' = (host w ++ forward (s_onCodeChange s) (liveText w'))%list) /\
  trace w' = trace w /\ timers w' = timers w.
Proof.
  intros R w'. subst w'. unfold edit, editor_undo.
  destruct (ready_live _ _ R) as (ed & L & _). rewrite L.
  destruct (ed_undo ed) as [|[t cur] rest]; [auto|].
  destruct (ready_rewrite w s ed t cur rest R L) as (H1 & H2 & H3 & _ & H5 & H6 & _).
  split; [exact H1|]. split; [right; rewrite H2; exact H3|]. auto.
Qed.

(** ** Re-creating the session *)

Lemma invokeCleanup_some w c kl :
  component w = Some c -> cleanup c = Some kl ->
  invokeCleanup ep w = update_component (with_cleanup None) (cleanupSession ep kl w).
Proof. intros Hc Hk. unfold invokeCleanup. rewrite Hc, Hk. reflexivity. Qed.

Lemma ready_cleanup_models w s :
  Ready w s ->
  models (monaco (invokeCleanup ep w))
  = if dispose_releases_model ep
    then alter (set_m_disposed true) (s_model s) (models (monaco w))
    else models (monaco w).
Proof.
  intros R.
  rewrite (invokeCleanup_some w _ (session_listener s) (ready_component _ _ R) eq_refl).
  destruct (cleanup_ready w s R) as (_ & _ & _ & C4 & _). exact C4.
Qed.

(** The start of a re-render with another [onSave]: the cleanup has run and
    the session effect is about to run again. *)
Lemma rerender_changed p w s :
  Ready w s -> onSave p <> onSave (s_props s) ->
  let c0 := with_props p (session_component s) in
  let w1 := update_component (with_cleanup None)
              (cleanupSession ep (session_listener s) (set_component (Some c0) w)) in
  rerender ep p w
  = (let w3 := update_component
                 (with_deps (Some {| d_onSave := onSave p; d_initialCode := initialCode p;
                                     d_isReady := true |}))
                 (afterSessionEffect
                    (negb (String.eqb (initialCode (s_props s)) (initialCode p)) || false)
                    (initialCode p) true (sessionEffect ep w1)) in
     if stateChanged w3 then commit ep w3 else w3) /\
  refused ep w1 = refused ep (invokeCleanup ep w).
Proof.
  intros R Hne c0 w1. split.
  - unfold rerender. rewrite (ready_component _ _ R). unfold render.
    assert (E0 : update_component (with_props p) w = set_component (Some c0) w).
    { unfold update_component. rewrite (ready_component _ _ R). reflexivity. }
    rewrite E0. set (w0 := set_component (Some c0) w).
    erewrite (commit_next w0 c0) by reflexivity.
    simpl d_onSave. simpl d_initialCode. simpl d_isReady.
    rewrite bool_decide_eq_false_2 by (intros E; apply Hne; symmetry; exact E).
    change (negb false) with true. cbv beta iota zeta.
    rewrite (invokeCleanup_some w0 c0 (session_listener s)) by reflexivity.
    reflexivity.
  - apply refused_models. rewrite (ready_cleanup_models w s R).
    destruct (cleanup_session w s c0 R eq_refl eq_refl) as (_ & _ & _ & C4 & _).
    exact C4.
Qed.

(** A re-render with another [onSave]: the cleanup runs, then the session
    effect builds a new session from the props of this render, provided
    the engine accepts the new document. *)
Lemma rerender_new p w s :
  Ready w s -> onSave p <> onSave (s_props s) -> refused ep (invokeCleanup ep w) = false ->
  let s' := {| s_instance := s_instance s; s_props := p;
               s_editor := length (editors (monaco w));
               s_model := length (models (monaco w));
               s_listener := fresh w; s_onCodeChange := onCodeChange p |} in
  let w' := rerender ep p w in
  Ready w' s' /\ liveText w' = initialCode p /\ host w' = host w /\
  (exists ed, editors (monaco w') !! s_editor s = Some ed /\ ed_disposed ed = true).
Proof.
  intros R Hne Hr s' w'. subst w'.
  destruct (rerender_changed p w s R Hne) as [E Er]. rewrite E. clear E.
  rewrite <- Er in Hr. clear Er.
  set (c0 := with_props p (session_component s)) in *.
  set (w0 := set_component (Some c0) w) in *.
  destruct (cleanup_session w s c0 R eq_refl eq_refl)
    as (C1 & C2 & (ed & L & Hmo & C3) & C4 & C5 & C6 & C7 & C8 & C9).
  fold w0 in C1, C2, C3, C4, C5, C6, C7, C8, C9.
  set (wc := cleanupSession ep (session_listener s) w0) in *.
  set (w1 := update_component (with_cleanup None) wc) in *.
  set (c1 := with_cleanup None (with_editorRef None c0)).
  assert (K1 : component w1 = Some c1).
  { unfold w1, update_component. simpl. rewrite C1. reflexivity. }
  rewrite (sessionEffect_returns w1 Hr), afterSessionEffect_returned.
  destruct (sessionEffect_spec w1 c1 K1 eq_refl Hr) as (S1 & S2 & S3 & S4 & S5 & _).
  set (w2 := world_of (sessionEffect ep w1)) in *.
  change (editors (monaco w1)) with (editors (monaco wc)) in *.
  change (models (monaco w1)) with (models (monaco wc)) in *.
  change (doc_keydown w1) with (doc_keydown wc) in *.
  change (fresh w1) with (fresh wc) in *.
  change (host w1) with (host wc) in *.
  assert (Hle : length (editors (monaco wc)) = length (editors (monaco w)))
    by (rewrite C3; apply length_insert).
  assert (Hlm : length (models (monaco wc)) = length (models (monaco w)))
    by (rewrite C4; destruct (dispose_releases_model ep);
        [apply length_alter|reflexivity]).
  assert (V2 : editor_getValue (length (editors (monaco w))) (monaco w2) = initialCode p).
  { rewrite <- Hle.
    apply (getValue_snoc (monaco w2) (editors (monaco wc)) (models (monaco wc))
             (new_editor c1 (length (models (monaco wc)))) (new_model c1));
      auto. }
  assert (U : (if negb (String.eqb (initialCode (s_props s)) (initialCode p)) || false
               then updateEffect (initialCode p) true w2 else w2) = w2).
  { destruct (negb (String.eqb (initialCode (s_props s)) (initialCode p)) || false);
      [|reflexivity].
    eapply updateEffect_same; [exact S1|simpl; rewrite Hle; reflexivity|exact V2]. }
  rewrite U. clear U. cbv zeta.
  set (w3 := update_component _ w2).
  assert (K3 : component w3 = Some (session_component s')).
  { unfold w3, update_component. simpl. rewrite S1, C7, Hle. reflexivity. }
  assert (N : stateChanged w3 = false).
  { unfold stateChanged. rewrite K3. reflexivity. }
  rewrite N.
  destruct (ready_intro w3 s' (editors (monaco wc)) (models (monaco wc))) as [R' T].
  - exact K3.
  - unfold w3. simpl. rewrite S2, C2, C7. reflexivity.
  - unfold w3. simpl. rewrite S3, Hlm. reflexivity.
  - unfold w3. simpl. rewrite S4. reflexivity.
  - simpl. auto.
  - simpl. auto.
  - exact C5.
  - split; [exact R'|]. split; [exact T|]. split.
    + unfold w3. simpl. rewrite S5. exact C6.
    + exists (disposed_editor ed). split; [|reflexivity].
      unfold w3. simpl. rewrite S3. apply lookup_app_l_Some. rewrite C3.
      apply list_lookup_insert_eq. apply live_editor_inv in L as [L _].
      eapply lookup_lt_Some; eauto.
Qed.

(** The same re-render when the engine refuses the new document: the old
    session is gone, and the session effect is left by the error of
    [createModel] with its key listener on the document. *)
Lemma rerender_refused p w s :
  Ready w s -> onSave p <> onSave (s_props s) -> refused ep (invokeCleanup ep w) = true ->
  let kl := {| kl_id := fresh w; kl_instance := s_instance s; kl_onSave := onSave p |} in
  let w' := rerender ep p w in
  Stranded w' kl /\ liveText w' = "" /\ host w' = host w /\
  (exists ed, editors (monaco w') !! s_editor s = Some ed /\ ed_disposed ed = true) /\
  models (monaco w') = models (monaco (invokeCleanup ep w)) /\
  timers w' = timers w /\
  (exists c, component w' = Some c /\ props c = p /\ isReady c = true) /\
  last (console w') = Some LogUncaughtError /\
  trace w'
  = (trace w ++ [ARemoveEventListener (session_listener s); AEditorDispose (s_editor s);
                  ASetEditorRef None; AAddEventListener kl; ASetCompilerOptions;
                  ASetDiagnosticsOptions; ASetEagerModelSync true;
                  ACreateModel (initialCode p) "javascript" "file:///main.js"])%list.
Proof.
  intros R Hne Hr kl w'. subst w'.
  pose proof (ready_cleanup_models w s R) as Hm.
  destruct (rerender_changed p w s R Hne) as [E Er]. rewrite E. clear E.
  rewrite <- Er in Hr. clear Er.
  set (c0 := with_props p (session_component s)) in *.
  set (w0 := set_component (Some c0) w) in *.
  destruct (cleanup_session w s c0 R eq_refl eq_refl)
    as (C1 & C2 & (ed & L & Hmo & C3) & C4 & C5 & C6 & C7 & C8 & C9).
  fold w0 in C1, C2, C3, C4, C5, C6, C7, C8, C9.
  set (wc := cleanupSession ep (session_listener s) w0) in *.
  set (w1 := update_component (with_cleanup None) wc) in *.
  set (c1 := with_cleanup None (with_editorRef None c0)).
  assert (K1 : component w1 = Some c1).
  { unfold w1, update_component. simpl. rewrite C1. reflexivity. }
  rewrite (sessionEffect_refused w1 c1 K1 eq_refl Hr), afterSessionEffect_threw.
  cbv zeta. unfold stateChanged, update_component. simpl. rewrite C1. simpl.
  split; [constructor; simpl|].
  - eexists. repeat split; reflexivity.
  - rewrite C2, C7. reflexivity.
  - exact C5.
  - rewrite C3, C4, C6, C7, C8, C9, Hm.
    split; [reflexivity|]. split; [reflexivity|]. split.
    { exists (disposed_editor ed). split; [|reflexivity].
      apply list_lookup_insert_eq. apply live_editor_inv in L as [L _].
      eapply lookup_lt_Some; eauto. }
    split; [reflexivity|]. split; [reflexivity|].
    split; [eexists; repeat split; reflexivity|].
    split; [apply last_snoc|]. rewrite <- !app_assoc. reflexivity.
Qed.

(** ** The validation nudge *)

Lemma nudge_dead eid w : live_editor eid (monaco w) = None -> nudge eid w = w.
Proof. intros L. unfold nudge, editor_getModel. rewrite L. reflexivity. Qed.

Lemma nudge_ready eid w s : Ready w s -> Ready (nudge eid w) s.
Proof.
  intros R. destruct (decide (eid = s_editor s)) as [->|Hne].
  - unfold nudge, editor_getModel.
    destruct (ready_live _ _ R) as (ed & -> & _). simpl.
    set (w1 := act _ (log _ (log _ w))).
    assert (R1 : Ready w1 s) by keep_ready R.
    destruct (type_spec w1 s " " R1) as (R2 & _); [discriminate|].
    set (w2 := edit _ _ w1) in *.
    assert (R3 : Ready (act (AEditorTrigger (s_editor s) "undo") w2) s)
      by keep_ready R2.
    apply (undo_spec _ s R3).
  - rewrite nudge_dead; [exact R|]. apply (ready_other_dead _ _ _ R Hne).
Qed.

Lemma fireTimer_ready i w s : Ready w s -> Ready (fireTimer i w) s.
Proof.
  intros R. unfold fireTimer. destruct (timers w !! i) as [[eid]|]; [|exact R].
  apply nudge_ready. keep_ready R.
Qed.

(** ** Worlds with nothing mounted *)

Lemma dormant_dead w eid : Dormant w -> live_editor eid (monaco w) = None.
Proof. intros [_ D]. apply all_disposed_not_live. exact D. Qed.

(** A key listener left on the document finds the refs of its instance
    gone. *)
Lemma unmounted_listeners e w fl kls :
  component w = None -> foldl (handleKeyDown e) (w, fl) kls = (w, fl).
Proof.
  intros Hc. induction kls as [|kl kls IH]; [reflexivity|].
  change (foldl (handleKeyDown e) (w, fl) (kl :: kls))
    with (foldl (handleKeyDown e) (handleKeyDown e (w, fl) kl) kls).
  assert (E : handleKeyDown e (w, fl) kl = (w, fl)).
  { unfold handleKeyDown, containerRef_of. rewrite Hc.
    destruct (saveGesture e); reflexivity. }
  rewrite E. exact IH.
Qed.

Lemma dormant_keydown e w : Dormant w -> fst (dispatchKeyDown ep e w) = w.
Proof.
  intros D. pose proof D as [Hc _]. unfold dispatchKeyDown.
  destruct (attached w (target e)) eqn:A; [|reflexivity].
  rewrite (unmounted_listeners e w no_flags (doc_keydown w) Hc). simpl.
  destruct (target e) as [eid| |]; try reflexivity.
  simpl. unfold widgetKeyDown. rewrite (dormant_dead _ eid D). reflexivity.
Qed.

(** A timer that fires without a live editor is only consumed. *)
Lemma dormant_fireTimer i w :
  Dormant w -> fireTimer i w = w \/ fireTimer i w = set_timers (delete i (timers w)) w.
Proof.
  intros D. unfold fireTimer. destruct (timers w !! i) as [[eid]|]; [right|left; reflexivity].
  apply nudge_dead. apply (dormant_dead _ eid D).
Qed.

(** With nothing mounted, an event that is not a mount reaches no
    callback. *)
Lemma dormant_step w ev :
  Dormant w -> is_mount ev = false ->
  Dormant (step ep w ev) /\ host (step ep w ev) = host w.
Proof.
  intros D Hm. pose proof D as [Hc Hd].
  destruct ev as [p b|p| |e|eid text|eid|i|b]; simpl in *; try discriminate.
  - unfold rerender. rewrite Hc. auto.
  - unfold unmount. rewrite Hc. auto.
  - rewrite (dormant_keydown e w D). auto.
  - rewrite dead_edit; [auto|apply (dormant_dead _ eid D)|apply editor_type_rewrites].
  - rewrite dead_edit; [auto|apply (dormant_dead _ eid D)|apply editor_undo_rewrites].
  - destruct (dormant_fireTimer i w D) as [->| ->]; auto.
  - unfold assignContainerRef, update_component. rewrite Hc.
    split; [split; [reflexivity|exact Hd]|reflexivity].
Qed.

Lemma dormant_run evs w :
  Dormant w -> forallb (fun ev => negb (is_mount ev)) evs = true ->
  Dormant (run ep w evs) /\ host (run ep w evs) = host w.
Proof.
  revert w. induction evs as [|ev evs IH]; intros w D H; [auto|].
  simpl in H. apply andb_true_iff in H as [H1 H2].
  apply negb_true_iff in H1.
  destruct (dormant_step w ev D H1) as [D' Hh].
  change (run ep w (ev :: evs)) with (run ep (step ep w ev) evs).
  destruct (IH _ D' H2) as [D'' Hh']. split; [exact D''|]. congruence.
Qed.

Lemma init_idle : Idle init.
Proof. constructor; simpl; auto. intros i ed H. destruct i; discriminate. Qed.

(** ** Shapes of the effects *)

Lemma fire_shape eid w : exists h, fireDidChangeModelContent eid w = set_host h w.
Proof.
  unfold fireDidChangeModelContent.
  destruct (live_editor eid (monaco w)) as [ed|];
    [|exists (host w); symmetry; apply set_host_id].
  generalize (ed_listeners ed). intros ls. revert w.
  induction ls as [|l ls IH]; intros w.
  - exists (host w). symmetry. apply set_host_id.
  - change (foldl (runContentListener eid) w (l :: ls))
      with (foldl (runContentListener eid) (runContentListener eid w l) ls).
    destruct (runContentListener_frame eid w l) as [h ->].
    destruct (IH (set_host h w)) as [h' ->]. exists h'. reflexivity.
Qed.

Lemma edit_shape eid op w :
  edit eid op w = w \/
  exists mo h, op (monaco w) = Some mo /\ edit eid op w = set_host h (set_monaco mo w).
Proof.
  unfold edit. destruct (op (monaco w)) as [mo|]; [right|left; reflexivity].
  destruct (fire_shape eid (set_monaco mo w)) as [h ->]. eauto.
Qed.

(** The session effect ends in one of three ways. *)
Lemma sessionEffect_cases w :
  sessionEffect ep w = Returned w \/
  (exists c, component w = Some c /\ containerRef c = true /\ refused ep w = false /\
     sessionEffect ep w = Returned (world_of (sessionEffect ep w))) \/
  (exists c, component w = Some c /\ containerRef c = true /\ refused ep w = true /\
     sessionEffect ep w
     = Threw (act (ACreateModel (initialCode (props c)) "javascript" "file:///main.js")
                (act (ASetEagerModelSync true)
                   (act ASetDiagnosticsOptions
                      (act ASetCompilerOptions
                         (addEventListener
                            {| kl_id := fresh w; kl_instance := instance c;
                               kl_onSave := onSave (props c) |}
                            (set_fresh (S (fresh w)) w))))))).
Proof.
  destruct (component w) as [c|] eqn:Hc.
  - destruct (containerRef c) eqn:Hb.
    + destruct (refused ep w) eqn:Hr.
      * right. right. exists c. repeat split; try assumption.
        apply (sessionEffect_refused w c Hc Hb Hr).
      * right. left. exists c. repeat split; try assumption.
        apply (sessionEffect_returns w Hr).
    + left. apply (sessionEffect_no_container w c Hc Hb).
  - left. unfold sessionEffect. rewrite Hc. reflexivity.
Qed.

(** ** Every live editor has its cleanup *)

Lemma no_live_tended w : no_live_editor w -> Tended w.
Proof. intros H i ed Hi Hd. rewrite (H i ed Hi) in Hd. discriminate. Qed.

Lemma tended_keep w w' :
  editors (monaco w') = editors (monaco w) ->
  (forall c, component w = Some c ->
     exists c', component w' = Some c' /\ editorRef c' = editorRef c /\
       cleanup c' = cleanup c /\ instance c' = instance c) ->
  Tended w -> Tended w'.
Proof.
  intros He Hc T i ed Hi Hd. rewrite He in Hi.
  destruct (T i ed Hi Hd) as (c & kl & C1 & C2 & C3 & C4).
  destruct (Hc c C1) as (c' & K1 & K2 & K3 & K4).
  exists c', kl. rewrite K2, K3, K4. auto.
Qed.

Lemma tended_frame w w' :
  editors (monaco w') = editors (monaco w) -> component w' = component w ->
  Tended w -> Tended w'.
Proof.
  intros He Hc. apply tended_keep; [exact He|].
  intros c H. exists c. rewrite Hc. auto.
Qed.

Lemma tended_update_component f w :
  (forall c, editorRef (f c) = editorRef c /\ cleanup (f c) = cleanup c /\
             instance (f c) = instance c) ->
  Tended w -> Tended (update_component f w).
Proof.
  intros Hf. apply tended_keep; [reflexivity|].
  intros c Hc. exists (f c). unfold update_component. simpl. rewrite Hc.
  destruct (Hf c) as (H1 & H2 & H3). auto.
Qed.

Lemma tended_edit eid op w : rewrites eid op -> Tended w -> Tended (edit eid op w).
Proof.
  intros Hop T. destruct (edit_shape eid op w) as [->|(mo & h & E & ->)]; [exact T|].
  destruct (Hop _ _ E) as (ed & t & cur & undo & L & ->).
  apply live_editor_inv in L as [L1 L2].
  intros i e Hi Hd. simpl in Hi.
  destruct (decide (i = eid)) as [->|Hne].
  - apply (T eid ed L1 L2).
  - rewrite list_lookup_insert_ne in Hi by congruence. apply (T i e Hi Hd).
Qed.

(** After the cleanup of the session effect no editor is live. *)
Lemma tended_invokeCleanup w : Tended w -> no_live_editor (invokeCleanup ep w).
Proof.
  intros T. unfold invokeCleanup.
  destruct (component w) as [c|] eqn:Hc.
  - destruct (cleanup c) as [kl|] eqn:Hk.
    + intros j e Hj. destruct (ed_disposed e) eqn:Hd; [reflexivity|exfalso].
      simpl in Hj. unfold cleanupSession in Hj.
      change (editorRef_of (kl_instance kl) (removeEventListener kl w))
        with (editorRef_of (kl_instance kl) w) in Hj.
      assert (Hlive : forall i ed, editors (monaco w) !! i = Some ed ->
                ed_disposed ed = false -> editorRef_of (kl_instance kl) w = Some i).
      { intros i ed Hi Hdi. destruct (T i ed Hi Hdi) as (c' & kl' & C1 & C2 & C3 & C4).
        rewrite Hc in C1. injection C1 as <-. rewrite Hk in C3. injection C3 as <-.
        unfold editorRef_of. rewrite Hc, C4, Nat.eqb_refl. exact C2. }
      destruct (editorRef_of (kl_instance kl) w) as [eid|] eqn:He; simpl in Hj.
      * unfold editor_dispose in Hj.
        destruct (live_editor eid (monaco w)) as [ed|] eqn:L.
        -- assert (Hj' : <[eid := disposed_editor ed]> (editors (monaco w)) !! j = Some e)
             by (destruct (dispose_releases_model ep); exact Hj).
           destruct (decide (j = eid)) as [->|Hne].
           ++ apply list_lookup_insert_Some in Hj' as [(_ & <- & _)|[? _]];
                [discriminate|congruence].
           ++ rewrite list_lookup_insert_ne in Hj' by congruence.
              pose proof (Hlive j e Hj' Hd) as H. congruence.
        -- pose proof (Hlive j e Hj Hd) as H. injection H as <-.
           rewrite (live_editor_Some _ _ _ Hj Hd) in L. discriminate.
      * pose proof (Hlive j e Hj Hd) as H. discriminate.
    + intros j e Hj. destruct (ed_disposed e) eqn:Hd; [reflexivity|exfalso].
      destruct (T j e Hj Hd) as (c' & kl' & C1 & _ & C3 & _). congruence.
  - intros j e Hj. destruct (ed_disposed e) eqn:Hd; [reflexivity|exfalso].
    destruct (T j e Hj Hd) as (c' & kl' & C1 & _). congruence.
Qed.

Lemma tended_sessionEffect w : no_live_editor w -> Tended (world_of (sessionEffect ep w)).
Proof.
  intros N.
  destruct (sessionEffect_cases w) as [->|[(c & Hc & Hb & Hr & _)|(c & _ & _ & _ & ->)]].
  - apply no_live_tended. exact N.
  - destruct (sessionEffect_spec w c Hc Hb Hr) as (S1 & _ & S3 & _).
    intros i ed Hi Hd. rewrite S3 in Hi.
    apply lookup_app_Some in Hi as [Hi|[Hge Hi]];
      [rewrite (N i ed Hi) in Hd; discriminate|].
    assert (i = length (editors (monaco w))) as ->.
    { apply lookup_lt_Some in Hi. simpl in Hi. lia. }
    eexists. eexists. rewrite S1. repeat split; reflexivity.
  - apply no_live_tended. exact N.
Qed.

Lemma tended_updateEffect v r w : Tended w -> Tended (updateEffect v r w).
Proof.
  intros T. unfold updateEffect. destruct (component w) as [c|]; [|exact T].
  destruct (editorRef c) as [eid|]; [|exact T]. destruct r; [|exact T].
  destruct (negb _); [|exact T].
  apply tended_edit; [apply editor_setValue_rewrites|].
  revert T. apply tended_frame; reflexivity.
Qed.

Lemma tended_afterSessionEffect run3 v r res :
  Tended (world_of res) -> Tended (afterSessionEffect run3 v r res).
Proof.
  destruct res as [w|w]; simpl; intros T.
  - destruct run3; [apply tended_updateEffect|]; exact T.
  - revert T. apply tended_frame; reflexivity.
Qed.

Lemma no_live_registerEnvironment w :
  no_live_editor w -> no_live_editor (registerEnvironment ep w).
Proof.
  intros N i ed Hi. destruct (registerEnvironment_frame w) as (F1 & _).
  rewrite F1 in Hi. apply (N i ed Hi).
Qed.

Lemma tended_commit w : Tended w -> Tended (commit ep w).
Proof.
  intros T. unfold commit. destruct (component w) as [c|] eqn:Hc; [|exact T].
  apply tended_update_component; [intros c'; auto|].
  apply tended_afterSessionEffect.
  destruct (deps c) as [d|].
  - destruct (negb (bool_decide _)); [|exact T].
    apply tended_sessionEffect. apply tended_invokeCleanup. exact T.
  - apply tended_sessionEffect. apply no_live_registerEnvironment.
    apply tended_invokeCleanup. exact T.
Qed.

Lemma tended_render w : Tended w -> Tended (render ep w).
Proof.
  intros T. unfold render. destruct (stateChanged _); auto using tended_commit.
Qed.

Lemma tended_rerender p w : Tended w -> Tended (rerender ep p w).
Proof.
  intros T. unfold rerender. destruct (component w); [|exact T].
  apply tended_render. apply tended_update_component; [intros c'; auto|exact T].
Qed.

Lemma tended_nudge eid w : Tended w -> Tended (nudge eid w).
Proof.
  intros T. unfold nudge. destruct (editor_getModel _ _); [|exact T].
  apply tended_edit; [apply editor_undo_rewrites|].
  match goal with |- Tended (act ?a ?x) =>
    cut (Tended x); [apply tended_frame; reflexivity|] end.
  apply tended_edit; [apply editor_type_rewrites|].
  revert T. apply tended_frame; reflexivity.
Qed.

(** The unmount leaves nothing mounted and no live editor, and calls no
    host callback. *)
Lemma unmount_tended w :
  Tended w -> Dormant (unmount ep w) /\ host (unmount ep w) = host w.
Proof.
  intros T. pose proof (tended_invokeCleanup w T) as N.
  unfold unmount. unfold invokeCleanup in *.
  destruct (component w) as [c|] eqn:Hc.
  - split; [split; [reflexivity|exact N]|].
    simpl. destruct (cleanup c) as [kl|]; [|reflexivity]. simpl.
    unfold cleanupSession. destruct (editorRef_of _ _); reflexivity.
  - split; [split; [exact Hc|exact N]|reflexivity].
Qed.

Lemma tended_step w ev : Tended w -> Tended (step ep w ev).
Proof.
  intros T. destruct ev as [p b|p| |e|eid text|eid|i|b]; simpl.
  - unfold mount. destruct (component w) eqn:Hc.
    + pose proof (tended_rerender p w T) as H. unfold rerender in H.
      rewrite Hc in H. unfold rerender. rewrite Hc. exact H.
    + apply tended_render. apply no_live_tended.
      intros i ed Hi. destruct (ed_disposed ed) eqn:Hd; [reflexivity|].
      destruct (T i ed Hi Hd) as (c' & kl' & C1 & _). congruence.
  - apply tended_rerender. exact T.
  - apply no_live_tended. apply (unmount_tended w T).
  - destruct (dispatchKeyDown_frame e w) as [h ->].
    revert T. apply tended_frame; reflexivity.
  - apply tended_edit; [apply editor_type_rewrites|exact T].
  - apply tended_edit; [apply editor_undo_rewrites|exact T].
  - unfold fireTimer. destruct (timers w !! i) as [[eid]|]; [|exact T].
    apply tended_nudge. revert T. apply tended_frame; reflexivity.
  - apply tended_update_component; [intros c'; auto|exact T].
Qed.

Lemma tended_reachable evs : Tended (run ep init evs).
Proof.
  assert (H : forall w, Tended w -> Tended (run ep w evs)).
  { induction evs as [|ev evs IH]; intros w T; [exact T|].
    change (run ep w (ev :: evs)) with (run ep (step ep w ev) evs).
    apply IH. apply tended_step. exact T. }
  apply H. intros i ed Hi. destruct i; discriminate.
Qed.

(** ** The language registry is touched by the registration effect only *)

Lemma registry_edit eid op w :
  rewrites eid op -> registry (monaco (edit eid op w)) = registry (monaco w).
Proof.
  intros Hop. destruct (edit_shape eid op w) as [->|(mo & h & E & ->)]; [reflexivity|].
  destruct (Hop _ _ E) as (ed & t & cur & undo & _ & ->). reflexivity.
Qed.

Lemma registry_cleanupSession kl w :
  registry (monaco (cleanupSession ep kl w)) = registry (monaco w).
Proof.
  unfold cleanupSession. destruct (editorRef_of _ _) as [eid|]; [|reflexivity].
  simpl. unfold editor_dispose.
  destruct (live_editor eid (monaco w)); [|reflexivity].
  destruct (dispose_releases_model ep); reflexivity.
Qed.

Lemma registry_invokeCleanup w :
  registry (monaco (invokeCleanup ep w)) = registry (monaco w).
Proof.
  unfold invokeCleanup. destruct (component w) as [c|]; [|reflexivity].
  destruct (cleanup c) as [kl|]; [|reflexivity].
  apply (registry_cleanupSession kl w).
Qed.

Lemma registry_sessionEffect w :
  registry (monaco (world_of (sessionEffect ep w))) = registry (monaco w).
Proof.
  destruct w as [mo env dk tm co tr ho fr comp].
  unfold sessionEffect, initEditor, createModel. simpl.
  destruct comp as [c|]; [|reflexivity]. destruct (containerRef c); [|reflexivity].
  simpl. destruct (createModel_rejects_uri_in_use ep && uri_in_use "file:///main.js" mo);
    reflexivity.
Qed.

Lemma registry_updateEffect v r w :
  registry (monaco (updateEffect v r w)) = registry (monaco w).
Proof.
  unfold updateEffect. destruct (component w) as [c|]; [|reflexivity].
  destruct (editorRef c) as [eid|]; [|reflexivity]. destruct r; [|reflexivity].
  destruct (negb _); [|reflexivity].
  apply (registry_edit eid _ (act (AEditorSetValue eid v) w)).
  apply editor_setValue_rewrites.
Qed.

Lemma registry_afterSessionEffect run3 v r res :
  registry (monaco (afterSessionEffect run3 v r res)) = registry (monaco (world_of res)).
Proof.
  destruct res as [w|w]; simpl; [|reflexivity].
  destruct run3; [apply registry_updateEffect|reflexivity].
Qed.

(** A commit of an instance that was committed before leaves the registry
    alone. *)
Lemma registry_commit_again d w :
  registry (monaco (commit ep (update_component (with_deps (Some d)) w)))
  = registry (monaco w).
Proof.
  unfold commit. simpl component. destruct (component w) as [c|]; [|reflexivity].
  simpl.
  match goal with |- context [afterSessionEffect ?a ?b ?c ?r] =>
    rewrite (registry_afterSessionEffect a b c r) end.
  destruct (negb (bool_decide _)); [|reflexivity].
  rewrite registry_sessionEffect.
  apply (registry_invokeCleanup (update_component (with_deps (Some d)) w)).
Qed.

Lemma registerEnvironment_monaco w w' :
  monaco w' = monaco w ->
  monaco (registerEnvironment ep w') = monaco (registerEnvironment ep w).
Proof.
  intros H. unfold registerEnvironment. simpl. rewrite H.
  destruct (languages_register ep "javascript" (monaco w)); simpl;
    destruct (MonacoEnvironment w); destruct (MonacoEnvironment w'); simpl;
    rewrite ?H; reflexivity.
Qed.

(** Every mount on an empty root runs the registration effect, whatever
    becomes of the session. *)
Lemma mount_registry p b w :
  component w = None ->
  registry (monaco (mount ep p b w))
  = registry (monaco (registerEnvironment ep w)).
Proof.
  intros Hc. unfold mount. rewrite Hc. unfold render.
  set (c0 := {| instance := fresh w; props := p; containerRef := b; editorRef := None;
                isReady := false; deps := None; cleanup := None |}).
  set (w0 := set_component (Some c0) (set_fresh (S (fresh w)) w)).
  rewrite (commit_first w0 c0) by reflexivity.
  match goal with |- context [if ?b then _ else _] => destruct b end.
  - rewrite registry_commit_again, registry_afterSessionEffect, registry_sessionEffect.
    rewrite (registerEnvironment_monaco w w0 eq_refl). reflexivity.
  - change (registry (monaco (update_component ?f ?x))) with (registry (monaco x)).
    rewrite registry_afterSessionEffect, registry_sessionEffect.
    rewrite (registerEnvironment_monaco w w0 eq_refl). reflexivity.
Qed.

Lemma mount_languages p b w :
  component w = None ->
  languages (monaco (mount ep p b w)) = registered_after ep (monaco w).
Proof.
  intros Hc. pose proof (mount_registry p b w Hc) as H.
  unfold registry in H. injection H as H _ _. rewrite H.
  apply (registerEnvironment_frame w).
Qed.

Lemma refused_init : refused ep init = false.
Proof. unfold refused. apply andb_false_r. Qed.

(** ** Typing character by character *)

Lemma cursorOf_le w s :
  Ready w s -> cursorOf (s_editor s) (monaco w) <= String.length (liveText w).
Proof.
  intros R. unfold cursorOf. rewrite <- (ready_liveText_eq _ _ R).
  destruct (live_editor _ _); lia.
Qed.

Lemma typing_spec s T :
  T <> "" -> forall w, Ready w s ->
  let w' := run ep w (typing (s_editor s) T) in
  Ready w' s /\
  liveText w' = insert_at (cursorOf (s_editor s) (monaco w)) T (liveText w) /\
  cursorOf (s_editor s) (monaco w') = cursorOf (s_editor s) (monaco w) + String.length T /\
  exists h, host w' = (h ++ forward (s_onCodeChange s) (liveText w'))%list.
Proof.
  induction T as [|c T IH]; intros HT w R; [congruence|].
  change (typing (s_editor s) (String c T))
    with (UserType (s_editor s) (String c "") :: typing (s_editor s) T).
  change (run ep w (UserType (s_editor s) (String c "") :: typing (s_editor s) T))
    with (run ep (edit (s_editor s) (editor_type (s_editor s) (String c "")) w)
            (typing (s_editor s) T)).
  destruct (type_spec w s (String c "") R) as (R1 & T1 & C1 & H1 & _); [discriminate|].
  set (w1 := edit (s_editor s) (editor_type (s_editor s) (String c "")) w) in *.
  destruct T as [|c' T'].
  - simpl. split; [exact R1|]. split; [exact T1|]. split; [exact C1|].
    exists (host w). exact H1.
  - destruct (IH ltac:(discriminate) w1 R1) as (R2 & T2 & C2 & H2).
    cbv zeta. split; [exact R2|]. split; [|split; [|exact H2]].
    + rewrite T2, C1, T1.
      apply (insert_at_insert_at _ (String c "") (String c' T') (liveText w)).
      apply (cursorOf_le _ _ R).
    + rewrite C2, C1. simpl. lia.
Qed.

End WithEngine.

(** ** A concrete session *)

(** Readiness of a concrete world, by evaluation. *)
Ltac ready_by_evaluation :=
  constructor;
  [ reflexivity
  | reflexivity
  | eexists; repeat split; reflexivity
  | eexists; split; reflexivity
  | let i := fresh "i" in
    let ed := fresh "ed" in
    let H := fresh "H" in
    let Hne := fresh "Hne" in
    intros i ed H Hne; destruct i as [|i];
    [exfalso; apply Hne; reflexivity | vm_compute in H; discriminate H] ].

Lemma example_ready ep : Ready (exampleWorld ep) exampleSession.
Proof. apply (mount_ready ep exampleProps init init_idle eq_refl (refused_init ep)). Qed.

(** * The specified properties *)

(** Every mount runs the registration again: with an engine that accepts a
    known language id, the language, its tokenizer and its configuration are
    registered once per mount.  Only the worker resolution is guarded. *)
Lemma mount_registers_again ep p b w :
  component w = None -> register_rejects_duplicate ep = false ->
  languages (monaco (mount ep p b w)) = (languages (monaco w) ++ ["javascript"])%list.
Proof.
  intros Hc Hp. rewrite (mount_languages ep p b w Hc).
  unfold registered_after. rewrite Hp. reflexivity.
Qed.

Lemma unmount_languages ep w :
  languages (monaco (unmount ep w)) = languages (monaco w).
Proof.
  unfold unmount, invokeCleanup.
  destruct (component w) as [c|]; [|reflexivity].
  destruct (cleanup c) as [kl|]; [|reflexivity]. simpl.
  unfold cleanupSession. destruct (editorRef_of _ _) as [eid|]; [|reflexivity]. simpl.
  unfold editor_dispose. destruct (live_editor eid (monaco w)); [|reflexivity].
  destruct (dispose_releases_model ep); reflexivity.
Qed.

Lemma unmount_component ep w : component (unmount ep w) = None.
Proof. unfold unmount. destruct (component w) eqn:Hc; [reflexivity|exact Hc]. Qed.

(** With such an engine, [n] rounds of mounting and unmounting leave [n]
    registrations of the language behind. *)
Lemma remounts_register_each_time ep p n :
  register_rejects_duplicate ep = false ->
  forall w, component w = None ->
  languages (monaco (run ep w (remounts n p)))
  = (languages (monaco w) ++ replicate n "javascript")%list.
Proof.
  intros Hp. induction n as [|n IH]; intros w Hc.
  - simpl. rewrite app_nil_r. reflexivity.
  - change (run ep w (remounts (S n) p))
      with (run ep (unmount ep (mount ep p true w)) (remounts n p)).
    rewrite (IH _ (unmount_component ep _)), unmount_languages,
      (mount_registers_again ep p true w Hc Hp).
    rewrite <- app_assoc. reflexivity.
Qed.

(** C1 (not met by the code).  Mounting, unmounting and mounting again in
    one process: whatever the engine, [languages.register] is called at
    each of the two mounts and [MonacoEnvironment] is installed once; with
    the engine accepting a known language id, the language, the tokenizer
    and the language configuration are each installed twice.  No mount
    fails on a registration.  The second mount shows the document again
    unless the engine refuses the URI of the document the first mount left
    behind. *)
Theorem registration_repeats_on_remount :
  (forall ep,
     let w := run ep init [Mount exampleProps true; Unmount; Mount exampleProps true] in
     List.filter is_register (trace w)
     = [ALanguagesRegister "javascript"; ALanguagesRegister "javascript"] /\
     List.filter is_install (trace w) = [AInstallMonacoEnvironment] /\
     liveText w = if createModel_rejects_uri_in_use ep && negb (dispose_releases_model ep)
                  then "" else "let a = 1") /\
  (let w := run monaco_profile init
              [Mount exampleProps true; Unmount; Mount exampleProps true] in
   languages (monaco w) = ["javascript"; "javascript"] /\
   tokensProviders (monaco w) = ["javascript"; "javascript"] /\
   languageConfigurations (monaco w) = ["javascript"; "javascript"]).
Proof.
  split.
  - intros [[] [] [] []]; vm_compute; repeat split.
  - vm_compute. repeat split.
Qed.

(** C2.  In a ready session with an [onSave] callback, the save gesture
    aimed inside the container calls that callback exactly once, with the
    live text of the document, and leaves the engine (hence the document)
    as it was. *)
Theorem save_gesture_inside_calls_onSave_once ep w s e cb :
  Ready w s -> onSave (s_props s) = Some cb ->
  saveGesture e = true -> contains (s_instance s) (target e) (monaco w) = true ->
  let w' := step ep w (KeyDown e) in
  host w' = (host w ++ [Save cb (liveText w)])%list /\
  monaco w' = monaco w /\ liveText w' = liveText w.
Proof.
  intros R Hcb Hg Hin w'. subst w'. simpl.
  rewrite (ready_keydown ep w s e R), Hin, Hg, Hcb. simpl. auto.
Qed.

Lemma save_gesture_inside_witness :
  let w' := step monaco_profile (exampleWorld monaco_profile) (KeyDown (ctrlS (TEditor 0))) in
  host w' = [Save 9 "let a = 1"] /\
  monaco w' = monaco (exampleWorld monaco_profile) /\ liveText w' = "let a = 1".
Proof.
  apply (save_gesture_inside_calls_onSave_once monaco_profile
           (exampleWorld monaco_profile) exampleSession (ctrlS (TEditor 0)) 9).
  - ready_by_evaluation.
  - reflexivity.
  - reflexivity.
  - reflexivity.
Defined.

(** C3.  In a ready session, a render that brings a new [initialCode]
    (other than the previous prop and other than the live text, [onSave]
    being the same) replaces the text wholesale: one [setValue] call, the
    live text becomes the new value, and the listener of the session is
    notified once with it. *)
Theorem new_initialCode_replaces_text_once ep w s p :
  Ready w s -> onSave p = onSave (s_props s) ->
  initialCode p <> initialCode (s_props s) -> initialCode p <> liveText w ->
  let w' := step ep w (Rerender p) in
  liveText w' = initialCode p /\
  trace w' = (trace w ++ [AEditorSetValue (s_editor s) (initialCode p)])%list /\
  host w' = (host w ++ forward (s_onCodeChange s) (initialCode p))%list.
Proof.
  intros R Hs Hp Hl w'. subst w'. simpl.
  rewrite (rerender_same ep p w s R Hs).
  assert (E1 : String.eqb (initialCode (s_props s)) (initialCode p) = false)
    by (apply String.eqb_neq; congruence).
  assert (E2 : String.eqb (liveText w) (initialCode p) = false)
    by (apply String.eqb_neq; congruence).
  rewrite E1, E2. simpl andb. cbv iota.
  destruct (replaceText_spec (initialCode p) w s R) as (R' & T & H & Tr & _).
  split; [|split; assumption].
  rewrite (liveText_reprops _ s p R'). exact T.
Qed.

Lemma new_initialCode_witness :
  let p := {| p_initialCode := Some "let b = 2"; p_onCodeChange := Some 7;
              p_onSave := Some 9; p_height := None |} in
  let w := exampleWorld monaco_profile in
  let w' := step monaco_profile w (Rerender p) in
  liveText w' = "let b = 2" /\
  trace w' = (trace w ++ [AEditorSetValue 0 "let b = 2"])%list /\
  host w' = [CodeChange 7 "let b = 2"].
Proof.
  apply (new_initialCode_replaces_text_once monaco_profile
           (exampleWorld monaco_profile) exampleSession).
  - ready_by_evaluation.
  - reflexivity.
  - discriminate.
  - discriminate.
Defined.

(** C4.  In a ready session, a render whose [initialCode] equals the live
    text performs no replace: no callback is called and the text stays;
    when [onSave] is unchanged too, the engine and the call trace are
    untouched.  When the render also brings another [onSave], the session
    is made anew and shows the same text, unless the engine refuses the
    new document: then no editor is left to show a text. *)
Theorem same_initialCode_is_noop ep w s p :
  Ready w s -> initialCode p = liveText w ->
  let w' := step ep w (Rerender p) in
  host w' = host w /\
  liveText w' = (if bool_decide (onSave p = onSave (s_props s))
                    || negb (refused ep (invokeCleanup ep w))
                 then liveText w else "") /\
  (onSave p = onSave (s_props s) -> monaco w' = monaco w /\ trace w' = trace w).
Proof.
  intros R Hl w'. subst w'. simpl.
  destruct (decide (onSave p = onSave (s_props s))) as [Hs|Hs].
  - rewrite (rerender_same ep p w s R Hs).
    rewrite Hl, String.eqb_refl, andb_false_r.
    rewrite (bool_decide_eq_true_2 _ Hs).
    split; [reflexivity|]. split; [|auto].
    apply (liveText_reprops _ s p R).
  - rewrite (bool_decide_eq_false_2 _ Hs).
    destruct (refused ep (invokeCleanup ep w)) eqn:Hr; simpl.
    + destruct (rerender_refused ep p w s R Hs Hr) as (_ & T & H & _).
      split; [exact H|]. split; [exact T|]. intros E. contradiction.
    + destruct (rerender_new ep p w s R Hs Hr) as (_ & T & H & _).
      split; [exact H|]. split; [congruence|]. intros E. contradiction.
Qed.

Lemma same_initialCode_witness :
  let w := step monaco_profile (exampleWorld monaco_profile) (UserType 0 "x") in
  let p := {| p_initialCode := Some "xlet a = 1"; p_onCodeChange := Some 7;
              p_onSave := Some 9; p_height := None |} in
  let w' := step monaco_profile w (Rerender p) in
  host w' = host w /\ liveText w' = liveText w /\
  (onSave p = onSave exampleProps -> monaco w' = monaco w /\ trace w' = trace w).
Proof.
  intros w p w'.
  destruct (same_initialCode_is_noop monaco_profile w exampleSession p) as (H1 & H2 & H3).
  - ready_by_evaluation.
  - reflexivity.
  - split; [exact H1|]. split; [exact H2|exact H3].
Defined.

(** C5 as stated fails: with an engine whose editors do not own the models
    they are given, the document created at mount outlives the unmount. *)
Lemma teardown_leaves_document_alive :
  ~ (forall ep w s, Ready w s -> document_destroyed (unmount ep w) (s_model s)).
Proof.
  intros H.
  destruct (H monaco_profile _ _ (example_ready monaco_profile)) as (m & Hm & Hd).
  vm_compute in Hm. injection Hm as <-. discriminate.
Qed.

(** C5 (amended).  Teardown of a session removes the capturing key listener
    first, then disposes the editor widget, then clears the editor ref;
    afterwards no key listener is left, the widget is disposed and the
    instance is gone.  The teardown never disposes the document itself: the
    model is destroyed exactly when the engine's [editor.dispose()]
    releases the model it was given. *)
Theorem teardown_order ep w s :
  Ready w s ->
  let w' := unmount ep w in
  trace w' = (trace w ++ [ARemoveEventListener (session_listener s);
                           AEditorDispose (s_editor s); ASetEditorRef None])%list /\
  doc_keydown w' = [] /\
  (exists ed, editors (monaco w') !! s_editor s = Some ed /\ ed_disposed ed = true) /\
  component w' = None /\
  (document_destroyed w' (s_model s) <-> dispose_releases_model ep = true).
Proof.
  intros R w'. subst w'.
  unfold unmount, invokeCleanup. rewrite (ready_component _ _ R). simpl.
  destruct (cleanup_ready ep w s R) as (_ & C2 & (ed & L & _ & C3) & C4 & _ & _ & _ & _ & C9).
  split; [exact C9|]. split; [exact C2|]. split; [|split; [reflexivity|]].
  - exists (disposed_editor ed). split; [|reflexivity].
    rewrite C3. apply list_lookup_insert_eq.
    apply live_editor_inv in L as [L _]. eapply lookup_lt_Some; eauto.
  - destruct (ready_model _ _ R) as (m & Hm & Hd).
    unfold document_destroyed. simpl. rewrite C4.
    destruct (dispose_releases_model ep).
    + split; [reflexivity|]. intros _. exists (set_m_disposed true m).
      rewrite list_lookup_alter_eq, Hm. auto.
    + split; [|discriminate]. intros (m' & Hm' & Hd'). congruence.
Qed.

Lemma teardown_order_witness :
  let w := exampleWorld monaco_profile in
  let w' := unmount monaco_profile w in
  trace w' = (trace w ++ [ARemoveEventListener (session_listener exampleSession);
                           AEditorDispose 0; ASetEditorRef None])%list /\
  doc_keydown w' = [] /\
  (exists ed, editors (monaco w') !! 0 = Some ed /\ ed_disposed ed = true) /\
  component w' = None /\
  (document_destroyed w' 0 <-> false = true).
Proof.
  apply (teardown_order monaco_profile (exampleWorld monaco_profile) exampleSession).
  ready_by_evaluation.
Defined.

(** C6.  Whatever happened before, once the component is unmounted no
    event other than a new mount reaches a host callback: key presses,
    edits and timers leave the notifications as they were; the unmount
    itself calls none; and the nudge timer that fires after the disposal
    finds no model and is merely consumed. *)
Theorem no_callbacks_after_unmount ep evs1 evs2 :
  forallb (fun ev => negb (is_mount ev)) evs2 = true ->
  let w := step ep (run ep init evs1) Unmount in
  let w' := run ep w evs2 in
  host w = host (run ep init evs1) /\
  host w' = host w /\
  forall i, fireTimer i w' = w' \/ fireTimer i w' = set_timers (delete i (timers w')) w'.
Proof.
  intros H w w'. subst w w'. simpl step.
  destruct (unmount_tended ep _ (tended_reachable ep evs1)) as [D Hh].
  split; [exact Hh|].
  destruct (dormant_run ep evs2 _ D H) as [D' Hh'].
  split; [exact Hh'|]. intros i. apply dormant_fireTimer. exact D'.
Qed.

Lemma no_callbacks_after_unmount_witness :
  let w := step monaco_profile
             (run monaco_profile init [Mount exampleProps true; UserType 0 "x"]) Unmount in
  let w' := run monaco_profile w
              [TimerFire 0; KeyDown (ctrlS (TEditor 0)); UserType 0 "y"; UserUndo 0] in
  host w = host (run monaco_profile init [Mount exampleProps true; UserType 0 "x"]) /\
  host w' = host w /\
  forall i, fireTimer i w' = w' \/ fireTimer i w' = set_timers (delete i (timers w')) w'.
Proof.
  apply (no_callbacks_after_unmount monaco_profile
           [Mount exampleProps true; UserType 0 "x"]
           [TimerFire 0; KeyDown (ctrlS (TEditor 0)); UserType 0 "y"; UserUndo 0]).
  reflexivity.
Defined.

(** C7.  In a ready session every accepted edit (typed text, undo, the
    programmatic replace) calls the listener of the session at most once,
    with the whole text of the document after the edit; after typing a text
    [T] character by character, the last notification carries the whole
    document, which contains [T] at the place where typing began. *)
Theorem change_notification_carries_full_text ep w s :
  Ready w s ->
  (forall text, text <> "" ->
     let w' := step ep w (UserType (s_editor s) text) in
     host w' = (host w ++ forward (s_onCodeChange s) (liveText w'))%list /\
     liveText w' = insert_at (cursorOf (s_editor s) (monaco w)) text (liveText w)) /\
  (let w' := step ep w (UserUndo (s_editor s)) in
   w' = w \/ host w' = (host w ++ forward (s_onCodeChange s) (liveText w'))%list) /\
  (forall v,
     let w' := replaceText v s w in
     host w' = (host w ++ forward (s_onCodeChange s) (liveText w'))%list /\
     liveText w' = v) /\
  (forall T cb, T <> "" -> s_onCodeChange s = Some cb ->
     let w' := run ep w (typing (s_editor s) T) in
     liveText w' = insert_at (cursorOf (s_editor s) (monaco w)) T (liveText w) /\
     last (host w') = Some (CodeChange cb (liveText w'))).
Proof.
  intros R. split; [|split; [|split]].
  - intros text H. split; apply (type_spec w s text R H).
  - apply (undo_spec w s R).
  - intros v. destruct (replaceText_spec v w s R) as (_ & T & H & _).
    cbv zeta. rewrite T. auto.
  - intros T cb H Hcb.
    destruct (typing_spec ep s T H w R) as (_ & HT & _ & h & Hh).
    split; [exact HT|].
    cbv zeta. rewrite Hh, Hcb. simpl. apply last_snoc.
Qed.

Lemma change_notification_witness :
  let w := exampleWorld monaco_profile in
  let s := exampleSession in
  (forall text, text <> "" ->
     let w' := step monaco_profile w (UserType (s_editor s) text) in
     host w' = (host w ++ forward (s_onCodeChange s) (liveText w'))%list /\
     liveText w' = insert_at (cursorOf (s_editor s) (monaco w)) text (liveText w)) /\
  (let w' := step monaco_profile w (UserUndo (s_editor s)) in
   w' = w \/ host w' = (host w ++ forward (s_onCodeChange s) (liveText w'))%list) /\
  (forall v,
     let w' := replaceText v s w in
     host w' = (host w ++ forward (s_onCodeChange s) (liveText w'))%list /\
     liveText w' = v) /\
  (forall T cb, T <> "" -> s_onCodeChange s = Some cb ->
     let w' := run monaco_profile w (typing (s_editor s) T) in
     liveText w' = insert_at (cursorOf (s_editor s) (monaco w)) T (liveText w) /\
     last (host w') = Some (CodeChange cb (liveText w'))).
Proof.
  apply (change_notification_carries_full_text monaco_profile
           (exampleWorld monaco_profile) exampleSession).
  ready_by_evaluation.
Defined.

(** C8.  In a ready session a key press aimed outside the container, the
    save combination included, changes nothing: [onSave] is not called. *)
Theorem save_key_outside_is_ignored ep w s e :
  Ready w s -> contains (s_instance s) (target e) (monaco w) = false ->
  step ep w (KeyDown e) = w.
Proof.
  intros R Hout. simpl. rewrite (ready_keydown ep w s e R), Hout. reflexivity.
Qed.

Lemma save_key_outside_witness :
  step monaco_profile (exampleWorld monaco_profile) (KeyDown (ctrlS TOutside))
  = exampleWorld monaco_profile.
Proof.
  apply (save_key_outside_is_ignored monaco_profile
           (exampleWorld monaco_profile) exampleSession (ctrlS TOutside)).
  - ready_by_evaluation.
  - reflexivity.
Defined.

Lemma filter_idem {A} (f : A -> bool) (l : list A) :
  List.filter f (List.filter f l) = List.filter f l.
Proof.
  induction l as [|x l IH]; [reflexivity|]. simpl.
  destruct (f x) eqn:E; simpl; rewrite ?E, IH; reflexivity.
Qed.

Lemma set_doc_keydown_id w : set_doc_keydown (doc_keydown w) w = w.
Proof. destruct w. reflexivity. Qed.

Lemma cleanupSession_clears ep kl w :
  editorRef_of (kl_instance kl) (cleanupSession ep kl w) = None /\
  doc_keydown (cleanupSession ep kl w)
  = List.filter (fun l => negb (Nat.eqb (kl_id l) (kl_id kl))) (doc_keydown w).
Proof.
  unfold cleanupSession.
  change (editorRef_of (kl_instance kl) (removeEventListener kl w))
    with (editorRef_of (kl_instance kl) w).
  destruct (editorRef_of (kl_instance kl) w) as [eid|] eqn:E.
  - split; [|reflexivity]. unfold editorRef_of. simpl.
    destruct (component w) as [c|]; [|reflexivity]. simpl.
    destruct (Nat.eqb (instance c) (kl_instance kl)); reflexivity.
  - split; [exact E|reflexivity].
Qed.

(** C9.  Without an editor behind the ref, the teardown only removes the
    key listener: it disposes nothing and cannot fail on a null ref.  Run a
    second time it does nothing but repeat that removal call, which finds
    no listener.  An instance whose initialisation never happened has no
    teardown registered: unmounting it only drops the instance. *)
Theorem teardown_without_session_is_safe ep kl w :
  (editorRef_of (kl_instance kl) w = None ->
   cleanupSession ep kl w = removeEventListener kl w) /\
  cleanupSession ep kl (cleanupSession ep kl w)
  = act (ARemoveEventListener kl) (cleanupSession ep kl w) /\
  (Idle w -> unmount ep w = set_component None w).
Proof.
  split; [apply cleanupSession_no_editor|]. split.
  - destruct (cleanupSession_clears ep kl w) as [E D].
    rewrite (cleanupSession_no_editor ep kl _ E).
    unfold removeEventListener. rewrite D, filter_idem, <- D, set_doc_keydown_id.
    reflexivity.
  - intros [I1 _ _]. unfold unmount, invokeCleanup.
    destruct (component w) as [c|] eqn:Hc.
    + destruct I1 as (_ & _ & _ & -> & _). reflexivity.
    + destruct w. simpl in Hc. subst. reflexivity.
Qed.

Lemma teardown_without_session_witness :
  let kl := {| kl_id := 0; kl_instance := 0; kl_onSave := None |} in
  let w := mount monaco_profile exampleProps false init in
  cleanupSession monaco_profile kl w = removeEventListener kl w /\
  cleanupSession monaco_profile kl (cleanupSession monaco_profile kl w)
  = act (ARemoveEventListener kl) (cleanupSession monaco_profile kl w) /\
  unmount monaco_profile w = set_component None w.
Proof.
  destruct (teardown_without_session_is_safe monaco_profile
              {| kl_id := 0; kl_instance := 0; kl_onSave := None |}
              (mount monaco_profile exampleProps false init)) as (H1 & H2 & H3).
  split; [apply H1; reflexivity|]. split; [exact H2|].
  apply H3. constructor.
  - vm_compute. repeat split.
  - reflexivity.
  - intros i ed H. vm_compute in H. discriminate H.
Defined.

(** A stranded instance hears every key press and answers none: no editor
    is behind the ref its listener reads. *)
Lemma stranded_keydown ep w kl e :
  Stranded w kl -> fst (dispatchKeyDown ep e w) = w.
Proof.
  intros [(c & Hc & Hi & Hb & He & Hk) Hd Hall]. unfold dispatchKeyDown. rewrite Hd.
  destruct (attached w (target e)); [|reflexivity].
  change (foldl (handleKeyDown e) (w, no_flags) [kl])
    with (handleKeyDown e (w, no_flags) kl).
  assert (E : editorRef_of (kl_instance kl) w = None).
  { unfold editorRef_of. rewrite Hc, Hi, Nat.eqb_refl. exact He. }
  assert (H : exists fl, handleKeyDown e (w, no_flags) kl = (w, fl) /\
                (propagationStopped fl = false -> fl = no_flags)).
  { unfold handleKeyDown. rewrite E.
    destruct (saveGesture e); [|eauto].
    destruct (containerRef_of _ _ && contains _ _ _); [|eauto].
    destruct (kl_onSave kl); eexists; (split; [reflexivity|discriminate]). }
  destruct H as (fl & -> & Hfl). simpl.
  destruct (propagationStopped fl); [reflexivity|].
  destruct (target e) as [eid| |]; try reflexivity.
  simpl. unfold widgetKeyDown. rewrite (all_disposed_not_live eid _ Hall). reflexivity.
Qed.

Lemma stranded_liveText w kl : Stranded w kl -> liveText w = "".
Proof.
  intros [(c & Hc & _ & _ & He & _) _ _]. unfold liveText. rewrite Hc, He. reflexivity.
Qed.

(** The teardown leaves the document of the session in the engine: an
    engine with exclusive URIs whose editors do not own their models then
    refuses the next document at the same URI. *)
Lemma refused_after_cleanup ep w s :
  Ready w s ->
  createModel_rejects_uri_in_use ep = true -> dispose_releases_model ep = false ->
  (exists m, models (monaco w) !! s_model s = Some m /\ m_uri m = "file:///main.js") ->
  refused ep (invokeCleanup ep w) = true.
Proof.
  intros R H1 H2 (m & Hm & Hu). unfold refused, uri_in_use.
  rewrite H1, (ready_cleanup_models ep w s R), H2. simpl.
  apply existsb_exists. exists m. split.
  - apply list_elem_of_In. apply (list_elem_of_lookup_2 _ _ _ Hm).
  - destruct (ready_model _ _ R) as (m' & Hm' & Hd).
    rewrite Hm in Hm'. injection Hm' as <-.
    rewrite Hd, Hu. reflexivity.
Qed.

(** C10 (not met by the code on the engine as shipped).  In a ready session
    a render with another [onSave] tears the session down: its editor is
    disposed and no callback is called.  What follows depends on the
    engine.  If it accepts a new document at [file:///main.js], a new
    session is made on a new editor: its text is the [initialCode] of that
    render, whatever had been typed, and its closures hold the [onSave] and
    [onCodeChange] of that render.  If it refuses, [createModel] throws
    inside the session effect and nothing catches it: no editor is live, no
    text is shown, the instance holds no cleanup, the key listener of the
    failed run stays on the document, and no key press saves anything.  An
    engine with exclusive URIs whose editors do not own the models they are
    given refuses whenever the document of the session is at
    [file:///main.js], since the teardown never disposes it.  A render that
    keeps [onSave] keeps the session, and the session keeps the
    [onCodeChange] it captured at creation: edits still notify that one. *)
Theorem onSave_replacement_needs_free_uri ep w s p :
  Ready w s ->
  (onSave p <> onSave (s_props s) ->
   let w' := step ep w (Rerender p) in
   (exists ed, editors (monaco w') !! s_editor s = Some ed /\ ed_disposed ed = true) /\
   host w' = host w /\
   if refused ep (invokeCleanup ep w)
   then liveText w' = "" /\ no_live_editor w' /\
        Stranded w' {| kl_id := fresh w; kl_instance := s_instance s;
                       kl_onSave := onSave p |} /\
        last (console w') = Some LogUncaughtError /\
        forall e, step ep w' (KeyDown e) = w'
   else exists s', Ready w' s' /\ s_editor s' <> s_editor s /\
          liveText w' = initialCode p /\
          s_props s' = p /\ s_onCodeChange s' = onCodeChange p) /\
  (createModel_rejects_uri_in_use ep = true -> dispose_releases_model ep = false ->
   (exists m, models (monaco w) !! s_model s = Some m /\ m_uri m = "file:///main.js") ->
   refused ep (invokeCleanup ep w) = true) /\
  (onSave p = onSave (s_props s) ->
   let w' := step ep w (Rerender p) in
   Ready w' (with_s_props p s) /\
   forall text, text <> "" ->
     let w'' := step ep w' (UserType (s_editor s) text) in
     host w'' = (host w' ++ forward (s_onCodeChange s) (liveText w''))%list).
Proof.
  intros R. split; [|split].
  - intros Hne. simpl. destruct (refused ep (invokeCleanup ep w)) eqn:Hr.
    + destruct (rerender_refused ep p w s R Hne Hr) as (S & T & H & D & _ & _ & _ & L & _).
      split; [exact D|]. split; [exact H|]. split; [exact T|].
      split; [exact (stranded_editors _ _ S)|]. split; [exact S|]. split; [exact L|].
      intros e. apply (stranded_keydown ep _ _ e S).
    + destruct (rerender_new ep p w s R Hne Hr) as (R' & T & H & D).
      split; [exact D|]. split; [exact H|].
      eexists. split; [exact R'|]. simpl.
      split; [|auto].
      destruct (ready_live _ _ R) as (ed & L & _).
      apply live_editor_inv in L as [L _]. apply lookup_lt_Some in L. lia.
  - apply (refused_after_cleanup ep w s R).
  - intros Hs.
    assert (R' : Ready (rerender ep p w) (with_s_props p s)).
    { rewrite (rerender_same ep p w s R Hs). apply ready_reprops; [|exact Hs].
      destruct (_ && _); [apply (replaceText_spec _ _ _ R)|exact R]. }
    split; [exact R'|]. intros text Ht.
    apply (type_spec _ (with_s_props p s) text R' Ht).
Qed.

Lemma onSave_replacement_witness :
  let w := step monaco_profile (exampleWorld monaco_profile) (UserType 0 "x") in
  let p := {| p_initialCode := Some "let a = 1"; p_onCodeChange := Some 8;
              p_onSave := Some 10; p_height := None |} in
  let w' := step monaco_profile w (Rerender p) in
  (exists ed, editors (monaco w') !! 0 = Some ed /\ ed_disposed ed = true) /\
  host w' = host w /\
  liveText w' = "" /\ no_live_editor w' /\
  Stranded w' {| kl_id := 2; kl_instance := 0; kl_onSave := Some 10 |} /\
  last (console w') = Some LogUncaughtError /\
  forall e, step monaco_profile w' (KeyDown e) = w'.
Proof.
  intros w p w'.
  destruct (onSave_replacement_needs_free_uri monaco_profile w exampleSession p)
    as (H1 & H2 & _).
  - ready_by_evaluation.
  - assert (Hr : refused monaco_profile (invokeCleanup monaco_profile w) = true).
    { apply H2; [reflexivity|reflexivity|]. eexists. split; reflexivity. }
    destruct H1 as (D & H & K); [discriminate|].
    rewrite Hr in K. split; [exact D|]. split; [exact H|]. exact K.
Defined.

(** * Further properties of the component *)

(** ** The calls of a mount *)

(** The first mount of an instance with its container in place, when the
    engine accepts the document: the registration effect, the session
    effect, and two updates of the recorded dependencies; the update effect
    does nothing in either pass. *)
Lemma mount_eq ep p w :
  component w = None -> refused ep w = false ->
  mount ep p true w
  = update_component
      (with_deps (Some {| d_onSave := onSave p; d_initialCode := initialCode p;
                          d_isReady := true |}))
      (update_component
         (with_deps (Some {| d_onSave := onSave p; d_initialCode := initialCode p;
                             d_isReady := false |}))
         (world_of
            (sessionEffect ep
               (registerEnvironment ep
                  (set_component
                     (Some {| instance := fresh w; props := p; containerRef := true;
                              editorRef := None; isReady := false; deps := None;
                              cleanup := None |})
                     (set_fresh (S (fresh w)) w)))))).
Proof.
  intros Hc Hr. unfold mount. rewrite Hc. unfold render.
  set (c0 := {| instance := fresh w; props := p; containerRef := true; editorRef := None;
                isReady := false; deps := None; cleanup := None |}).
  set (w0 := set_component (Some c0) (set_fresh (S (fresh w)) w)).
  rewrite (commit_first ep w0 c0) by reflexivity.
  destruct (registerEnvironment_frame ep w0) as (F1 & F2 & F3 & F4 & F5 & F6 & F7 & F8).
  set (w1 := registerEnvironment ep w0) in *.
  assert (Hr1 : refused ep w1 = false) by (rewrite (refused_models ep w w1 F2); exact Hr).
  rewrite (sessionEffect_returns ep w1 Hr1), afterSessionEffect_returned.
  rewrite updateEffect_not_ready.
  destruct (sessionEffect_spec ep w1 c0) as (S1 & S2 & S3 & S4 & S5 & S6);
    [rewrite F4; reflexivity|reflexivity|exact Hr1|].
  set (w2 := world_of (sessionEffect ep w1)) in *.
  set (w3 := update_component _ w2).
  assert (C3 : component w3 = Some (with_deps (Some {| d_onSave := onSave p;
               d_initialCode := initialCode p; d_isReady := false |})
               (with_cleanup (Some {| kl_id := S (fresh w); kl_instance := fresh w;
                                      kl_onSave := onSave p |})
                  (with_isReady true
                    (with_editorRef (Some (length (editors (monaco w)))) c0))))).
  { unfold w3, update_component. simpl. rewrite S1, F1, F6. reflexivity. }
  unfold stateChanged. rewrite C3. simpl.
  erewrite (commit_next ep w3) by (exact C3 || reflexivity).
  simpl. rewrite bool_decide_eq_true_2 by reflexivity.
  rewrite String.eqb_refl. simpl.
  erewrite updateEffect_same; [reflexivity|exact C3|reflexivity|].
  apply (getValue_snoc (monaco w3) (editors (monaco w)) (models (monaco w))
           (new_editor c0 (length (models (monaco w)))) (new_model c0)).
  - unfold w3. simpl. rewrite S3, F1, F2. reflexivity.
  - unfold w3. simpl. rewrite S4, F2. reflexivity.
  - reflexivity.
  - reflexivity.
Qed.

(** The same mount when the engine refuses the document: the registration
    effect, the session effect up to the failing [createModel], and the
    error report; there is no second pass. *)
Lemma mount_refused_eq ep p w :
  component w = None -> refused ep w = true ->
  mount ep p true w
  = update_component
      (with_deps (Some {| d_onSave := onSave p; d_initialCode := initialCode p;
                          d_isReady := false |}))
      (log LogUncaughtError
         (act (ACreateModel (initialCode p) "javascript" "file:///main.js")
            (act (ASetEagerModelSync true)
               (act ASetDiagnosticsOptions
                  (act ASetCompilerOptions
                     (addEventListener
                        {| kl_id := S (fresh w); kl_instance := fresh w;
                           kl_onSave := onSave p |}
                        (set_fresh (S (S (fresh w)))
                           (registerEnvironment ep
                              (set_component
                                 (Some {| instance := fresh w; props := p;
                                          containerRef := true; editorRef := None;
                                          isReady := false; deps := None;
                                          cleanup := None |})
                                 (set_fresh (S (fresh w)) w)))))))))).
Proof.
  intros Hc Hr. unfold mount. rewrite Hc. unfold render.
  set (c0 := {| instance := fresh w; props := p; containerRef := true; editorRef := None;
                isReady := false; deps := None; cleanup := None |}).
  set (w0 := set_component (Some c0) (set_fresh (S (fresh w)) w)).
  rewrite (commit_first ep w0 c0) by reflexivity.
  destruct (registerEnvironment_frame ep w0) as (F1 & F2 & F3 & F4 & F5 & F6 & F7 & F8).
  set (w1 := registerEnvironment ep w0) in *.
  assert (Hr1 : refused ep w1 = true) by (rewrite (refused_models ep w w1 F2); exact Hr).
  rewrite (sessionEffect_refused ep w1 c0 F4 eq_refl Hr1), afterSessionEffect_threw.
  rewrite F6. unfold stateChanged, update_component. simpl. rewrite F4. reflexivity.
Qed.

Lemma registerEnvironment_calls ep w :
  trace (registerEnvironment ep w)
  = (trace w ++ registerTrace ep (monaco w) (MonacoEnvironment w))%list /\
  timers (registerEnvironment ep w) = timers w.
Proof.
  unfold registerEnvironment, languages_register, registerTrace. simpl.
  destruct (register_rejects_duplicate ep && registered "javascript" (monaco w)); simpl;
    destruct (MonacoEnvironment w); simpl; rewrite <- ?app_assoc; auto.
Qed.

Lemma sessionEffect_calls ep w c :
  component w = Some c -> containerRef c = true -> refused ep w = false ->
  trace (world_of (sessionEffect ep w))
  = (trace w ++ sessionTrace {| kl_id := fresh w; kl_instance := instance c;
                                kl_onSave := onSave (props c) |}
                  (props c) (instance c)
                  (length (models (monaco w))) (length (editors (monaco w))))%list /\
  timers (world_of (sessionEffect ep w))
  = (timers w ++ [Nudge (length (editors (monaco w)))])%list.
Proof.
  intros Hc Hcont Hr. destruct w as [mo env dk tm co tr ho fr comp].
  simpl in Hc. subst comp. unfold refused in Hr. simpl in Hr.
  unfold sessionEffect, initEditor, createModel, sessionTrace. simpl.
  rewrite Hcont, Hr. simpl.
  rewrite <- !app_assoc. auto.
Qed.

Lemma unmount_timers ep w : timers (unmount ep w) = timers w.
Proof.
  unfold unmount, invokeCleanup.
  destruct (component w) as [c|]; [|reflexivity].
  destruct (cleanup c) as [kl|]; [|reflexivity]. simpl.
  unfold cleanupSession. destruct (editorRef_of _ _) as [eid|]; reflexivity.
Qed.

(** ** Mounting *)

(** X1.  Mounting the component on an empty root without a session left
    over calls no host callback, and its outcome depends on the engine
    alone.  If the engine accepts the document, the mount yields a ready
    session whose document holds the [initialCode] prop, or [DEFAULT_CODE]
    when the prop is left out, under the URI [file:///main.js] with
    language [javascript].  If the engine refuses it, because a live
    document already has that URI, [createModel] throws inside the session
    effect: no document and no editor are made, nothing is shown, and the
    instance is left with the key listener of the failed run and no
    cleanup. *)
Theorem mount_outcome ep p w :
  Idle w -> component w = None ->
  let w' := step ep w (Mount p true) in
  host w' = host w /\
  if refused ep w
  then liveText w' = "" /\
       models (monaco w') = models (monaco w) /\ editors (monaco w') = editors (monaco w) /\
       Stranded w' {| kl_id := S (fresh w); kl_instance := fresh w; kl_onSave := onSave p |} /\
       last (console w') = Some LogUncaughtError
  else liveText w' = default DEFAULT_CODE (p_initialCode p) /\
       exists s, Ready w' s /\ s_props s = p /\
         models (monaco w') !! s_model s
         = Some {| m_uri := "file:///main.js"; m_language := "javascript";
                   m_text := default DEFAULT_CODE (p_initialCode p); m_disposed := false |}.
Proof.
  intros I Hc w'. subst w'. simpl. destruct (refused ep w) eqn:Hr.
  - destruct (mount_refused ep p w I Hc Hr) as (S & H & M & E & _ & _ & L & _).
    split; [exact H|]. split; [apply (stranded_liveText _ _ S)|]. auto.
  - destruct (mount_ready ep p w I Hc Hr) as (R & H & T & _).
    split; [exact H|]. split; [exact T|].
    eexists. split; [exact R|]. split; [reflexivity|].
    rewrite (mount_eq ep p w Hc Hr). simpl.
    set (w0 := set_component _ (set_fresh (S (fresh w)) w)).
    destruct (registerEnvironment_frame ep w0) as (_ & F2 & _ & F4 & _).
    assert (Hr1 : refused ep (registerEnvironment ep w0) = false)
      by (rewrite (refused_models ep w _ F2); exact Hr).
    destruct (sessionEffect_spec ep (registerEnvironment ep w0) _ F4 eq_refl Hr1)
      as (_ & _ & _ & -> & _).
    rewrite F2. apply lookup_snoc_length.
Qed.

Lemma mount_outcome_witness :
  (let w' := step monaco_profile init (Mount noProps true) in
   host w' = [] /\ liveText w' = DEFAULT_CODE /\
   exists s, Ready w' s /\ s_props s = noProps /\
     models (monaco w') !! s_model s
     = Some {| m_uri := "file:///main.js"; m_language := "javascript";
               m_text := DEFAULT_CODE; m_disposed := false |}) /\
  (let w := run monaco_profile init [Mount exampleProps true; UserType 0 "x"; Unmount] in
   let w' := step monaco_profile w (Mount noProps true) in
   host w' = host w /\ liveText w' = "" /\
   models (monaco w') = models (monaco w) /\ editors (monaco w') = editors (monaco w) /\
   Stranded w' {| kl_id := 3; kl_instance := 2; kl_onSave := None |} /\
   last (console w') = Some LogUncaughtError).
Proof.
  split.
  - destruct (mount_outcome monaco_profile noProps init init_idle eq_refl) as [H K].
    split; [exact H|]. exact K.
  - intros w w'.
    destruct (mount_outcome monaco_profile noProps w) as [H K].
    + constructor.
      * exact I.
      * reflexivity.
      * intros i ed Hi. destruct i as [|i]; vm_compute in Hi;
          [injection Hi as <-; reflexivity|discriminate Hi].
    + reflexivity.
    + split; [exact H|]. exact K.
Defined.

(** X2.  Whatever happened before, mounting the component on an empty root
    issues the registration calls first and then the calls of the session
    effect in program order: key listener, compiler and diagnostics
    options, model, editor, editor ref, completion setup, timer, save
    command, change subscription, [setIsReady].  Nothing else is called; in
    particular no [setValue].  When the engine refuses the document the
    calls end with [createModel], the fifth of them. *)
Theorem mount_call_order ep p evs :
  let w := run ep init evs in
  component w = None ->
  trace (step ep w (Mount p true))
  = (trace w ++ registerTrace ep (monaco w) (MonacoEnvironment w)
       ++ (if refused ep w then take 5 else id)
            (sessionTrace {| kl_id := S (fresh w); kl_instance := fresh w;
                             kl_onSave := onSave p |}
               p (fresh w) (length (models (monaco w))) (length (editors (monaco w)))))%list.
Proof.
  intros w Hc. change (step ep w (Mount p true)) with (mount ep p true w).
  destruct (refused ep w) eqn:Hr.
  - rewrite (mount_refused_eq ep p w Hc Hr).
    set (w0 := set_component _ (set_fresh (S (fresh w)) w)).
    cbn [trace update_component set_component log act addEventListener
         set_doc_keydown set_fresh].
    destruct (registerEnvironment_calls ep w0) as [-> _].
    change (trace w0) with (trace w). change (monaco w0) with (monaco w).
    change (MonacoEnvironment w0) with (MonacoEnvironment w).
    generalize (registerTrace ep (monaco w) (MonacoEnvironment w)). intros rt.
    simpl. rewrite <- !app_assoc. reflexivity.
  - simpl. rewrite (mount_eq ep p w Hc Hr). simpl.
    set (w0 := set_component _ (set_fresh (S (fresh w)) w)).
    destruct (registerEnvironment_frame ep w0) as (F1 & F2 & _ & F4 & _ & F6 & _).
    assert (Hr1 : refused ep (registerEnvironment ep w0) = false)
      by (rewrite (refused_models ep w _ F2); exact Hr).
    destruct (sessionEffect_calls ep (registerEnvironment ep w0) _ F4 eq_refl Hr1) as [-> _].
    destruct (registerEnvironment_calls ep w0) as [-> _].
    rewrite F1, F2, F6. simpl. rewrite <- app_assoc. reflexivity.
Qed.

Lemma mount_call_order_witness :
  let w := run monaco_profile init [Mount exampleProps true; Unmount] in
  trace (step monaco_profile w (Mount noProps true))
  = (trace w ++ registerTrace monaco_profile (monaco w) (MonacoEnvironment w)
       ++ (if refused monaco_profile w then take 5 else id)
            (sessionTrace {| kl_id := S (fresh w); kl_instance := fresh w;
                             kl_onSave := None |}
               noProps (fresh w) (length (models (monaco w)))
               (length (editors (monaco w)))))%list.
Proof.
  apply (mount_call_order monaco_profile noProps [Mount exampleProps true; Unmount]).
  reflexivity.
Defined.

(** X3.  No timer is ever cancelled: a mount schedules exactly one nudge
    timer, for the editor it creates (none when the engine refuses the
    document, since the call is not reached), and an unmount leaves every
    pending timer pending. *)
Theorem timers_are_never_cancelled ep p evs :
  let w := run ep init evs in
  timers (step ep w Unmount) = timers w /\
  (component w = None ->
   timers (step ep w (Mount p true))
   = (timers w ++ if refused ep w then [] else [Nudge (length (editors (monaco w)))])%list).
Proof.
  intros w. split; [apply unmount_timers|].
  intros Hc. simpl. destruct (refused ep w) eqn:Hr.
  - rewrite (mount_refused_eq ep p w Hc Hr). simpl.
    set (w0 := set_component _ (set_fresh (S (fresh w)) w)).
    destruct (registerEnvironment_calls ep w0) as [_ ->].
    rewrite app_nil_r. reflexivity.
  - rewrite (mount_eq ep p w Hc Hr). simpl.
    set (w0 := set_component _ (set_fresh (S (fresh w)) w)).
    destruct (registerEnvironment_frame ep w0) as (F1 & F2 & _ & F4 & _).
    assert (Hr1 : refused ep (registerEnvironment ep w0) = false)
      by (rewrite (refused_models ep w _ F2); exact Hr).
    destruct (sessionEffect_calls ep (registerEnvironment ep w0) _ F4 eq_refl Hr1) as [_ ->].
    destruct (registerEnvironment_calls ep w0) as [_ ->].
    rewrite F1. reflexivity.
Qed.

Lemma timers_are_never_cancelled_witness :
  timers (step monaco_profile init (Mount noProps true)) = [Nudge 0] /\
  (let w := run monaco_profile init [Mount exampleProps true; Unmount] in
   timers (step monaco_profile w Unmount) = timers w /\
   timers (step monaco_profile w (Mount noProps true)) = (timers w ++ [])%list).
Proof.
  split.
  - destruct (timers_are_never_cancelled monaco_profile noProps []) as [_ H].
    apply H. reflexivity.
  - destruct (timers_are_never_cancelled monaco_profile noProps
                [Mount exampleProps true; Unmount]) as [H1 H2].
    split; [exact H1|]. apply H2. reflexivity.
Defined.

(** ** Renders of a ready session *)

(** After a render that leaves a session behind, the session is ready, on
    the same instance and with the props of that render. *)
Lemma rerender_ready ep p w s :
  Ready w s ->
  onSave p = onSave (s_props s) \/ refused ep (invokeCleanup ep w) = false ->
  exists s', Ready (rerender ep p w) s' /\ s_props s' = p /\ s_instance s' = s_instance s.
Proof.
  intros R Hk. destruct (decide (onSave p = onSave (s_props s))) as [H|H].
  - exists (with_s_props p s). split; [|auto].
    rewrite (rerender_same ep p w s R H). apply ready_reprops; [|exact H].
    destruct (_ && _); [apply (replaceText_spec _ _ _ R)|exact R].
  - destruct Hk as [Hk|Hk]; [contradiction|].
    destruct (rerender_new ep p w s R H Hk) as (R' & _). eexists. split; [exact R'|]. auto.
Qed.

(** X4.  In a ready session, a render that keeps [onSave] and [initialCode]
    (whatever it does to [height] and [onCodeChange]) touches nothing but
    the stored props: the engine, the listeners, the timers, the call trace
    and the notifications stay, and so does text the user typed, even
    though it differs from [initialCode]. *)
Theorem rerender_keeps_user_edits ep w s p :
  Ready w s -> onSave p = onSave (s_props s) -> initialCode p = initialCode (s_props s) ->
  let w' := step ep w (Rerender p) in
  monaco w' = monaco w /\ liveText w' = liveText w /\ host w' = host w /\
  trace w' = trace w /\ timers w' = timers w /\ doc_keydown w' = doc_keydown w /\
  Ready w' (with_s_props p s).
Proof.
  intros R Hs Hi w'. subst w'. simpl.
  rewrite (rerender_same ep p w s R Hs), Hi, String.eqb_refl. simpl.
  split; [reflexivity|]. split; [apply (liveText_reprops _ s p R)|].
  split; [reflexivity|]. split; [reflexivity|]. split; [reflexivity|].
  split; [reflexivity|]. apply (ready_reprops _ _ _ R Hs).
Qed.

Lemma rerender_keeps_user_edits_witness :
  let w := step monaco_profile (exampleWorld monaco_profile) (UserType 0 "x") in
  let p := {| p_initialCode := Some "let a = 1"; p_onCodeChange := Some 8;
              p_onSave := Some 9; p_height := Some "900px" |} in
  let w' := step monaco_profile w (Rerender p) in
  monaco w' = monaco w /\ liveText w' = liveText w /\ host w' = host w /\
  trace w' = trace w /\ timers w' = timers w /\ doc_keydown w' = doc_keydown w /\
  Ready w' (with_s_props p exampleSession).
Proof.
  apply (rerender_keeps_user_edits monaco_profile
           (step monaco_profile (exampleWorld monaco_profile) (UserType 0 "x"))
           exampleSession).
  - ready_by_evaluation.
  - reflexivity.
  - reflexivity.
Defined.

(** X5.  The save path never uses a stale callback: after a render of a
    ready session that leaves a session behind (the render keeps [onSave],
    or the engine accepts the document of the new session), a save gesture
    inside the container calls the [onSave] of that render, once, with the
    text the document then has.  After a render with another [onSave] that
    the engine answers by refusing the document, the gesture calls
    nothing. *)
Theorem save_uses_latest_onSave ep w s p e cb :
  Ready w s -> onSave p = Some cb -> saveGesture e = true ->
  let w' := step ep w (Rerender p) in
  contains (s_instance s) (target e) (monaco w') = true ->
  host (step ep w' (KeyDown e))
  = (host w' ++ if bool_decide (onSave p = onSave (s_props s))
                   || negb (refused ep (invokeCleanup ep w))
                then [Save cb (liveText w')] else [])%list.
Proof.
  intros R Hcb Hg w' Hin. subst w'. simpl in *.
  destruct (bool_decide (onSave p = onSave (s_props s))
            || negb (refused ep (invokeCleanup ep w))) eqn:Hk.
  - assert (Hk' : onSave p = onSave (s_props s) \/ refused ep (invokeCleanup ep w) = false).
    { apply orb_true_iff in Hk as [Hk|Hk].
      - left. apply (bool_decide_eq_true_1 _ Hk).
      - right. apply negb_true_iff. exact Hk. }
    destruct (rerender_ready ep p w s R Hk') as (s' & R' & Hp & Hi).
    rewrite (ready_keydown ep _ s' e R'), Hi, Hin, Hg, Hp, Hcb. reflexivity.
  - apply orb_false_iff in Hk as [Hk1 Hk2].
    apply bool_decide_eq_false_1 in Hk1. apply negb_false_iff in Hk2.
    destruct (rerender_refused ep p w s R Hk1 Hk2) as (S & _).
    rewrite (stranded_keydown ep _ _ e S). rewrite app_nil_r. reflexivity.
Qed.

Lemma save_uses_latest_onSave_witness :
  let p := {| p_initialCode := Some "let b = 2"; p_onCodeChange := Some 7;
              p_onSave := Some 10; p_height := None |} in
  (let w' := step owning_profile (exampleWorld owning_profile) (Rerender p) in
   host (step owning_profile w' (KeyDown (ctrlS (TContainer 0))))
   = (host w' ++ [Save 10 (liveText w')])%list) /\
  (let w' := step monaco_profile (exampleWorld monaco_profile) (Rerender p) in
   host (step monaco_profile w' (KeyDown (ctrlS (TContainer 0))))
   = (host w' ++ [])%list).
Proof.
  intros p. split.
  - intros w'.
    pose proof (save_uses_latest_onSave owning_profile (exampleWorld owning_profile)
                  exampleSession p (ctrlS (TContainer 0)) 10) as H.
    apply H.
    + ready_by_evaluation.
    + reflexivity.
    + reflexivity.
    + reflexivity.
  - intros w'.
    pose proof (save_uses_latest_onSave monaco_profile (exampleWorld monaco_profile)
                  exampleSession p (ctrlS (TContainer 0)) 10) as H.
    apply H.
    + ready_by_evaluation.
    + reflexivity.
    + reflexivity.
    + reflexivity.
Defined.

(** ** Key events *)

(** X6.  In a ready session a key press, whatever it is and wherever it is
    aimed, either changes nothing or calls the session's [onSave] once with
    the live text; it never calls [onCodeChange] and never touches the
    document. *)
Theorem keydown_saves_at_most_once ep w s e :
  Ready w s ->
  let w' := step ep w (KeyDown e) in
  w' = w \/
  exists cb, onSave (s_props s) = Some cb /\ w' = notify (Save cb (liveText w)) w.
Proof.
  intros R w'. subst w'. simpl. rewrite (ready_keydown ep w s e R).
  unfold saveBy.
  destruct (contains _ _ _); [|auto].
  destruct (saveGesture e).
  - destruct (onSave (s_props s)) as [cb|]; eauto.
  - destruct (target e); auto.
    destruct (kb_matches ep CtrlCmd_KeyS e); [|auto].
    destruct (onSave (s_props s)) as [cb|]; eauto.
Qed.

Lemma keydown_saves_at_most_once_witness :
  let w := exampleWorld monaco_profile in
  let w' := step monaco_profile w (KeyDown (ctrlS (TEditor 0))) in
  w' = w \/
  exists cb, onSave exampleProps = Some cb /\ w' = notify (Save cb (liveText w)) w.
Proof.
  apply (keydown_saves_at_most_once monaco_profile (exampleWorld monaco_profile)
           exampleSession (ctrlS (TEditor 0))).
  ready_by_evaluation.
Defined.

(** X7.  In a ready session the save gesture aimed inside the container
    always has its default action prevented and its propagation stopped,
    also when no [onSave] is supplied; aimed elsewhere, the listener leaves
    the event alone. *)
Theorem save_gesture_suppresses_default ep w s e :
  Ready w s -> saveGesture e = true ->
  snd (dispatchKeyDown ep e w)
  = if contains (s_instance s) (target e) (monaco w) then handled else no_flags.
Proof.
  intros R Hg. unfold dispatchKeyDown. rewrite (ready_doc _ _ R).
  destruct (ready_refs _ _ R) as [Hc He].
  change (foldl (handleKeyDown e) (w, no_flags) [session_listener s])
    with (handleKeyDown e (w, no_flags) (session_listener s)).
  unfold handleKeyDown. simpl kl_instance. simpl kl_onSave. rewrite Hg, Hc, He.
  destruct (contains (s_instance s) (target e) (monaco w)) eqn:C.
  - rewrite (ready_contains_attached _ _ _ R C). simpl.
    destruct (onSave (s_props s)); reflexivity.
  - destruct (attached w (target e)); [|reflexivity]. simpl.
    destruct (target e); reflexivity.
Qed.

Lemma save_gesture_suppresses_default_witness :
  snd (dispatchKeyDown monaco_profile (ctrlS (TContainer 0))
         (mount monaco_profile noProps true init))
  = handled.
Proof.
  apply (save_gesture_suppresses_default monaco_profile
           (mount monaco_profile noProps true init)
           {| s_instance := 0; s_props := noProps; s_editor := 0; s_model := 0;
              s_listener := 1; s_onCodeChange := None |}
           (ctrlS (TContainer 0))).
  - ready_by_evaluation.
  - reflexivity.
Defined.

(** ** The registration effect *)

Lemma registered_snoc id (l : list string) :
  existsb (String.eqb id) (l ++ [id]) = true.
Proof.
  rewrite existsb_app. simpl. rewrite String.eqb_refl, orb_true_r. reflexivity.
Qed.

(** X8.  After the registration effect the language [javascript] is
    registered and [window.MonacoEnvironment] is set, whether or not
    [languages.register] threw.  When it threw, the tokenizer and the
    language configuration are skipped, the engine is left as it was and the
    failure is logged; when it did not, both are installed after the
    language.  The effect touches no editor, model, listener or callback. *)
Theorem registration_effect_outcome ep w :
  let w' := registerEnvironment ep w in
  registered "javascript" (monaco w') = true /\
  MonacoEnvironment w' = true /\
  match languages_register ep "javascript" (monaco w) with
  | None =>
      monaco w' = monaco w /\
      console w' = (console w ++ [LogAlreadyRegisteredOrError])%list
  | Some _ =>
      languages (monaco w') = (languages (monaco w) ++ ["javascript"])%list /\
      tokensProviders (monaco w') = (tokensProviders (monaco w) ++ ["javascript"])%list /\
      languageConfigurations (monaco w')
      = (languageConfigurations (monaco w) ++ ["javascript"])%list /\
      console w' = (console w ++ [LogRegistered])%list
  end /\
  editors (monaco w') = editors (monaco w) /\ models (monaco w') = models (monaco w) /\
  doc_keydown w' = doc_keydown w /\ host w' = host w /\ component w' = component w.
Proof.
  unfold registerEnvironment, languages_register. simpl.
  destruct (register_rejects_duplicate ep && registered "javascript" (monaco w)) eqn:Hb.
  - apply andb_true_iff in Hb as [_ Hk].
    simpl. destruct (MonacoEnvironment w) eqn:He; simpl; rewrite ?He; repeat split; auto.
  - simpl. destruct (MonacoEnvironment w) eqn:He; simpl; rewrite ?He;
      (split; [exact (registered_snoc "javascript" (languages (monaco w)))
              |repeat split; auto]).
Qed.

(** ** The worker resolution *)

(** X9.  [getWorkerUrl] answers [./ts.worker.js] exactly for the labels
    [typescript] and [javascript] and [./editor.worker.js] for every other
    label; the module id plays no part, and the only effect is one console
    entry naming the label. *)
Theorem getWorkerUrl_resolution moduleId label w :
  (fst (getWorkerUrl moduleId label w) = "./ts.worker.js"
   <-> label = "typescript" \/ label = "javascript") /\
  (fst (getWorkerUrl moduleId label w) = "./editor.worker.js"
   <-> label <> "typescript" /\ label <> "javascript") /\
  snd (getWorkerUrl moduleId label w) = log (LogRequestingWorker label) w /\
  forall moduleId', getWorkerUrl moduleId' label w = getWorkerUrl moduleId label w.
Proof.
  unfold getWorkerUrl.
  destruct (String.eqb_spec label "typescript") as [E1|E1];
    destruct (String.eqb_spec label "javascript") as [E2|E2]; simpl;
    repeat split; auto; try discriminate; try tauto; try congruence.
Qed.

(** ** What every run keeps *)

Lemma sound_keep ep w w' :
  MonacoEnvironment w' = MonacoEnvironment w -> installs w' = installs w ->
  (Forall (main_js_model ep) (models (monaco w)) ->
   Forall (main_js_model ep) (models (monaco w'))) ->
  sound ep w -> sound ep w'.
Proof. intros H1 H2 H3 [J F]. split; [rewrite H1, H2; exact J|auto]. Qed.

Lemma sound_update_component ep f w : sound ep w -> sound ep (update_component f w).
Proof. apply sound_keep; auto. Qed.

Lemma main_js_set_text ep t m : main_js_model ep m -> main_js_model ep (set_m_text t m).
Proof. intros (a & b & c). repeat split; assumption. Qed.

Lemma sound_edit ep eid op w :
  rewrites eid op -> sound ep w -> sound ep (edit eid op w).
Proof.
  intros Hop S. destruct (edit_shape eid op w) as [->|(mo & h & E & ->)]; [exact S|].
  revert S. apply sound_keep; [reflexivity|reflexivity|].
  intros F. destruct (Hop _ _ E) as (ed & t & cur & undo & _ & ->). simpl.
  apply Forall_alter; [exact F|]. intros m _. apply main_js_set_text.
Qed.

Lemma sound_cleanupSession ep kl w : sound ep w -> sound ep (cleanupSession ep kl w).
Proof.
  unfold cleanupSession. destruct (editorRef_of _ _) as [eid|].
  - apply sound_keep; [reflexivity| |].
    + unfold installs. simpl. rewrite !List.filter_app. simpl. rewrite !app_nil_r.
      reflexivity.
    + simpl. intros F. unfold editor_dispose.
      destruct (live_editor eid (monaco w)) as [ed|]; [|exact F].
      destruct (dispose_releases_model ep) eqn:E; [|exact F]. simpl.
      apply Forall_alter; [exact F|]. intros m _ (a & b & c).
      repeat split; try assumption. rewrite E. discriminate.
  - apply sound_keep; [reflexivity| |auto].
    unfold installs. simpl. rewrite List.filter_app. simpl. apply app_nil_r.
Qed.

Lemma sound_invokeCleanup ep w : sound ep w -> sound ep (invokeCleanup ep w).
Proof.
  intros S. unfold invokeCleanup. destruct (component w) as [c|]; [|exact S].
  destruct (cleanup c) as [kl|]; [|exact S].
  apply sound_update_component. apply sound_cleanupSession. exact S.
Qed.

Lemma sound_sessionEffect ep w : sound ep w -> sound ep (world_of (sessionEffect ep w)).
Proof.
  destruct w as [mo env dk tm co tr ho fr comp].
  unfold sessionEffect, initEditor, createModel. simpl.
  destruct comp as [c|]; [|auto]. destruct (containerRef c); simpl; [|auto].
  intros [J F]. unfold installs in J. simpl in J, F.
  destruct (createModel_rejects_uri_in_use ep && uri_in_use "file:///main.js" mo); simpl.
  - split; [|exact F].
    unfold installs. simpl. rewrite !List.filter_app. simpl. rewrite !app_nil_r. exact J.
  - split.
    + unfold installs. simpl. rewrite !List.filter_app. simpl. rewrite !app_nil_r. exact J.
    + simpl. apply Forall_app. split; [exact F|]. apply Forall_singleton. repeat split.
Qed.

Lemma sound_registerEnvironment ep w : sound ep w -> sound ep (registerEnvironment ep w).
Proof.
  intros [J F]. unfold registerEnvironment, languages_register. unfold installs in J.
  simpl.
  destruct (register_rejects_duplicate ep && registered "javascript" (monaco w));
    simpl; destruct (MonacoEnvironment w) eqn:E; simpl;
    (split; [unfold installs; simpl; rewrite ?E, !List.filter_app, J; reflexivity|exact F]).
Qed.

Lemma sound_updateEffect ep v r w : sound ep w -> sound ep (updateEffect v r w).
Proof.
  intros S. unfold updateEffect. destruct (component w) as [c|]; [|exact S].
  destruct (editorRef c) as [eid|]; [|exact S]. destruct r; [|exact S].
  destruct (negb _); [|exact S].
  apply sound_edit; [apply editor_setValue_rewrites|].
  revert S. apply sound_keep; [reflexivity| |auto].
  unfold installs. simpl. rewrite List.filter_app. simpl. apply app_nil_r.
Qed.

Lemma sound_afterSessionEffect ep run3 v r res :
  sound ep (world_of res) -> sound ep (afterSessionEffect run3 v r res).
Proof.
  destruct res as [w|w]; simpl; intros S.
  - destruct run3; [apply sound_updateEffect|]; exact S.
  - revert S. apply sound_keep; auto.
Qed.

Lemma sound_commit ep w : sound ep w -> sound ep (commit ep w).
Proof.
  intros S. unfold commit. destruct (component w) as [c|]; [|exact S].
  apply sound_update_component. apply sound_afterSessionEffect.
  destruct (deps c) as [d|]; cbv zeta;
    repeat match goal with
           | |- sound _ (world_of (if ?b then _ else _)) => destruct b
           | |- sound _ (if ?b then _ else _) => destruct b
           | |- sound _ (world_of (sessionEffect _ _)) => apply sound_sessionEffect
           | |- sound _ (world_of (Returned _)) => simpl world_of
           | |- sound _ (registerEnvironment _ _) => apply sound_registerEnvironment
           | |- sound _ (invokeCleanup _ _) => apply sound_invokeCleanup
           end; exact S.
Qed.

Lemma sound_render ep w : sound ep w -> sound ep (render ep w).
Proof.
  intros S. unfold render. destruct (stateChanged _); auto using sound_commit.
Qed.

Lemma sound_rerender ep p w : sound ep w -> sound ep (rerender ep p w).
Proof.
  intros S. unfold rerender. destruct (component w); [|exact S].
  apply sound_render. apply sound_update_component. exact S.
Qed.

Lemma sound_nudge ep eid w : sound ep w -> sound ep (nudge eid w).
Proof.
  intros S. unfold nudge. destruct (editor_getModel _ _); [|exact S].
  apply sound_edit; [apply editor_undo_rewrites|].
  match goal with |- sound _ (act ?a ?x) =>
    cut (sound ep x);
      [apply sound_keep; [reflexivity| |auto];
       unfold installs; simpl; rewrite List.filter_app; simpl; apply app_nil_r|]
  end.
  apply sound_edit; [apply editor_type_rewrites|].
  revert S. apply sound_keep; [reflexivity| |auto].
  unfold installs. simpl. rewrite List.filter_app. simpl. apply app_nil_r.
Qed.

Lemma sound_step ep w ev : sound ep w -> sound ep (step ep w ev).
Proof.
  intros S. destruct ev as [p b|p| |e|eid text|eid|i|b]; simpl.
  - unfold mount. destruct (component w) eqn:Hc.
    + pose proof (sound_rerender ep p w S) as H. unfold rerender in *.
      rewrite Hc in *. exact H.
    + apply sound_render. revert S. apply sound_keep; auto.
  - apply sound_rerender. exact S.
  - unfold unmount. destruct (component w); [|exact S].
    cut (sound ep (invokeCleanup ep w)); [apply sound_keep; auto|].
    apply sound_invokeCleanup. exact S.
  - destruct (dispatchKeyDown_frame ep e w) as [h ->].
    revert S. apply sound_keep; auto.
  - apply sound_edit; [apply editor_type_rewrites|exact S].
  - apply sound_edit; [apply editor_undo_rewrites|exact S].
  - unfold fireTimer. destruct (timers w !! i) as [[eid]|]; [|exact S].
    apply sound_nudge. revert S. apply sound_keep; auto.
  - apply sound_update_component. exact S.
Qed.

Lemma sound_reachable ep evs : sound ep (run ep init evs).
Proof.
  assert (H : forall w, sound ep w -> sound ep (run ep w evs)).
  { induction evs as [|ev evs IH]; intros w S; [exact S|].
    change (run ep w (ev :: evs)) with (run ep (step ep w ev) evs).
    apply IH. apply sound_step. exact S. }
  apply H. split; [reflexivity|constructor].
Qed.

(** X10.  In every run, [window.MonacoEnvironment] is installed at most
    once: the trace holds one installation if the environment is set and
    none otherwise, however often the component is mounted. *)
Theorem MonacoEnvironment_installed_once ep evs :
  let w := run ep init evs in
  List.filter is_install (trace w)
  = (if MonacoEnvironment w then [AInstallMonacoEnvironment] else []) /\
  length (List.filter is_install (trace w)) <= 1.
Proof.
  intros w. destruct (sound_reachable ep evs) as [J _]. fold w in J.
  unfold installs in J. split; [exact J|].
  rewrite J. destruct (MonacoEnvironment w); simpl; lia.
Qed.

(** X11.  In every run, every document in the engine is one the session
    effect created: its URI is [file:///main.js] and its language is
    [javascript]; and with an engine whose editors do not own the models
    they are given, no document is ever disposed. *)
Theorem every_document_is_main_js ep evs :
  forall i m, models (monaco (run ep init evs)) !! i = Some m ->
    m_uri m = "file:///main.js" /\ m_language m = "javascript" /\
    (dispose_releases_model ep = false -> m_disposed m = false).
Proof.
  intros i m H. destruct (sound_reachable ep evs) as [_ F].
  apply (Forall_lookup_1 _ _ _ _ F H).
Qed.

Lemma every_document_is_main_js_witness :
  let evs := [Mount exampleProps true; UserType 0 "x";
              Rerender {| p_initialCode := Some "let b = 2"; p_onCodeChange := Some 7;
                          p_onSave := Some 10; p_height := None |};
              Unmount] in
  exists m, models (monaco (run monaco_profile init evs)) !! 0 = Some m /\
    m_uri m = "file:///main.js" /\ m_language m = "javascript" /\
    (dispose_releases_model monaco_profile = false -> m_disposed m = false).
Proof.
  eexists. split; [reflexivity|].
  apply (every_document_is_main_js monaco_profile
           [Mount exampleProps true; UserType 0 "x";
            Rerender {| p_initialCode := Some "let b = 2"; p_onCodeChange := Some 7;
                        p_onSave := Some 10; p_height := None |};
            Unmount] 0).
  reflexivity.
Defined.

(** ** The validation nudge on a live session *)

Lemma alter_fixed {A} (f : A -> A) (l : list A) i x :
  l !! i = Some x -> f x = x -> alter f i l = l.
Proof.
  intros Hl Hf. apply list_eq. intros j. destruct (decide (i = j)) as [<-|Hne].
  - rewrite list_lookup_alter_eq, Hl. simpl. rewrite Hf. reflexivity.
  - apply list_lookup_alter_ne. exact Hne.
Qed.

(** Writing a text and then writing back the old text, cursor and undo
    history leaves the engine as it was. *)
Lemma write_text_back eid ed m t cur undo mo :
  live_editor eid mo = Some ed -> models mo !! ed_model ed = Some m ->
  write_text eid (with_cursor_undo cur undo ed) (m_text m) (ed_cursor ed) (ed_undo ed)
    (write_text eid ed t cur undo mo)
  = mo.
Proof.
  intros L Hm. apply live_editor_inv in L as [Hed _].
  unfold write_text. simpl.
  rewrite list_insert_insert_eq, list_alter_alter_eq.
  replace (with_cursor_undo (ed_cursor ed) (ed_undo ed) (with_cursor_undo cur undo ed))
    with ed by (destruct ed; reflexivity).
  rewrite (list_insert_id _ _ _ Hed).
  rewrite (alter_fixed _ _ _ m Hm) by (destruct m; reflexivity).
  destruct mo. reflexivity.
Qed.

(** The world after an engine edit of the session's document. *)
Lemma ready_rewrite_eq w s ed t cur undo :
  Ready w s -> live_editor (s_editor s) (monaco w) = Some ed ->
  fireDidChangeModelContent (s_editor s)
    (set_monaco (write_text (s_editor s) ed t cur undo (monaco w)) w)
  = set_host (host w ++ forward (s_onCodeChange s) t)
      (set_monaco (write_text (s_editor s) ed t cur undo (monaco w)) w).
Proof.
  intros R L. destruct (ready_write_text w s ed t cur undo R L) as [R' Ht].
  rewrite (fire_ready _ _ R'), Ht. reflexivity.
Qed.

Lemma edit_type_eq w s ed text :
  Ready w s -> live_editor (s_editor s) (monaco w) = Some ed -> text <> "" ->
  edit (s_editor s) (editor_type (s_editor s) text) w
  = set_host
      (host w ++ forward (s_onCodeChange s)
                   (insert_at (cursorOf (s_editor s) (monaco w)) text (liveText w)))
      (set_monaco
         (write_text (s_editor s) ed
            (insert_at (cursorOf (s_editor s) (monaco w)) text (liveText w))
            (cursorOf (s_editor s) (monaco w) + String.length text)
            ((liveText w, ed_cursor ed) :: ed_undo ed) (monaco w)) w).
Proof.
  intros R L Hne. unfold edit, editor_type, cursorOf. rewrite L.
  apply String.eqb_neq in Hne. rewrite Hne.
  rewrite <- (ready_liveText_eq _ _ R).
  apply (ready_rewrite_eq w s ed _ _ _ R L).
Qed.

Lemma edit_undo_eq w s ed t cur rest :
  Ready w s -> live_editor (s_editor s) (monaco w) = Some ed ->
  ed_undo ed = (t, cur) :: rest ->
  edit (s_editor s) (editor_undo (s_editor s)) w
  = set_host (host w ++ forward (s_onCodeChange s) t)
      (set_monaco (write_text (s_editor s) ed t cur rest (monaco w)) w).
Proof.
  intros R L Hu. unfold edit, editor_undo. rewrite L, Hu.
  apply (ready_rewrite_eq w s ed _ _ _ R L).
Qed.

(** X12.  When the nudge timer fires on a live session, the space it types
    is undone again: the engine ends exactly as it was (text, cursor and
    undo history), but the session's [onCodeChange] has been called twice,
    first with the text holding the extra space and then with the text as
    it was; [onSave] is not called. *)
Theorem nudge_restores_document w s :
  Ready w s ->
  let w' := nudge (s_editor s) w in
  monaco w' = monaco w /\
  host w'
  = (host w
       ++ forward (s_onCodeChange s)
            (insert_at (cursorOf (s_editor s) (monaco w)) " " (liveText w))
       ++ forward (s_onCodeChange s) (liveText w))%list /\
  trace w' = (trace w ++ [AEditorTrigger (s_editor s) "type";
                           AEditorTrigger (s_editor s) "undo"])%list /\
  Ready w' s.
Proof.
  intros R w'. subst w'. unfold nudge, editor_getModel.
  destruct (ready_live _ _ R) as (ed & L & _ & Hmo & _).
  destruct (ready_text _ _ R) as (m & Hm & _ & Ht).
  rewrite L. change (ed_model <$> Some ed) with (Some (ed_model ed)). cbv iota beta zeta.
  set (w1 := act (AEditorTrigger (s_editor s) "type") (log _ (log _ w))).
  assert (R1 : Ready w1 s) by (eapply Ready_frame; [| | |exact R]; reflexivity).
  rewrite (edit_type_eq w1 s ed " " R1 L) by discriminate.
  change (monaco w1) with (monaco w). change (liveText w1) with (liveText w).
  change (host w1) with (host w).
  set (t1 := insert_at (cursorOf (s_editor s) (monaco w)) " " (liveText w)).
  set (c1 := cursorOf (s_editor s) (monaco w) + String.length " ").
  set (u1 := (liveText w, ed_cursor ed) :: ed_undo ed).
  set (w2 := set_host _ (set_monaco _ w1)).
  set (w3 := act (AEditorTrigger (s_editor s) "undo") w2).
  assert (R3 : Ready w3 s).
  { destruct (ready_write_text w1 s ed t1 c1 u1 R1 L) as [R' _].
    eapply Ready_frame; [| | |exact R']; reflexivity. }
  assert (L3 : live_editor (s_editor s) (monaco w3) = Some (with_cursor_undo c1 u1 ed))
    by (apply (write_text_live _ _ t1 c1 u1 _ L)).
  rewrite (edit_undo_eq w3 s _ (liveText w) (ed_cursor ed) (ed_undo ed) R3 L3 eq_refl).
  split; [|split; [|split]].
  - simpl. rewrite Ht. apply write_text_back; [exact L|]. rewrite Hmo. exact Hm.
  - simpl. rewrite <- app_assoc. reflexivity.
  - simpl. rewrite <- app_assoc. reflexivity.
  - destruct (ready_write_text w3 s _ (liveText w) (ed_cursor ed) (ed_undo ed) R3 L3)
      as [R' _].
    eapply Ready_frame; [| | |exact R']; reflexivity.
Qed.

Lemma nudge_restores_document_witness :
  let w := step monaco_profile (exampleWorld monaco_profile) (UserType 0 "x") in
  let w' := nudge 0 w in
  monaco w' = monaco w /\
  host w' = (host w ++ [CodeChange 7 "x let a = 1"] ++ [CodeChange 7 "xlet a = 1"])%list /\
  trace w' = (trace w ++ [AEditorTrigger 0 "type"; AEditorTrigger 0 "undo"])%list /\
  Ready w' exampleSession.
Proof.
  apply (nudge_restores_document
           (step monaco_profile (exampleWorld monaco_profile) (UserType 0 "x"))
           exampleSession).
  ready_by_evaluation.
Defined.

(** ** Mounting without a container *)

Lemma mount_deferred_eq ep p w :
  component w = None ->
  mount ep p false w
  = update_component
      (with_deps (Some {| d_onSave := onSave p; d_initialCode := initialCode p;
                          d_isReady := false |}))
      (registerEnvironment ep
         (set_component
            (Some {| instance := fresh w; props := p; containerRef := false;
                     editorRef := None; isReady := false; deps := None;
                     cleanup := None |})
            (set_fresh (S (fresh w)) w))).
Proof.
  intros Hc. unfold mount. rewrite Hc. unfold render.
  set (c0 := {| instance := fresh w; props := p; containerRef := false; editorRef := None;
                isReady := false; deps := None; cleanup := None |}).
  set (w0 := set_component (Some c0) (set_fresh (S (fresh w)) w)).
  rewrite (commit_first ep w0 c0) by reflexivity.
  destruct (registerEnvironment_frame ep w0) as (_ & _ & _ & F4 & _).
  rewrite (sessionEffect_no_container ep (registerEnvironment ep w0) c0 F4 eq_refl).
  rewrite afterSessionEffect_returned, updateEffect_not_ready.
  unfold stateChanged, update_component. simpl. rewrite F4. reflexivity.
Qed.

(** A render of an instance that has its container but no session, no
    cleanup and another [onSave] than at its last render: the session
    effect runs and, the engine accepting the document, builds the
    session. *)
Lemma render_starts_session ep w c d :
  component w = Some c -> containerRef c = true -> editorRef c = None ->
  cleanup c = None -> isReady c = false ->
  deps c = Some d -> d_onSave d <> onSave (props c) -> d_isReady d = false ->
  doc_keydown w = [] -> no_live_editor w -> refused ep w = false ->
  Ready (render ep w)
    {| s_instance := instance c; s_props := props c;
       s_editor := length (editors (monaco w)); s_model := length (models (monaco w));
       s_listener := fresh w; s_onCodeChange := onCodeChange (props c) |} /\
  liveText (render ep w) = initialCode (props c) /\ host (render ep w) = host w.
Proof.
  intros Hc Hb He Hk Hi Hd Hne Hdr Hdoc Hall Hr. unfold render.
  rewrite (commit_next ep w c d Hc Hd).
  rewrite bool_decide_eq_false_2 by exact Hne.
  change (negb false) with true. cbv iota.
  rewrite (invokeCleanup_none ep w c Hc Hk).
  rewrite (sessionEffect_returns ep w Hr), afterSessionEffect_returned.
  destruct (sessionEffect_spec ep w c Hc Hb Hr) as (S1 & S2 & S3 & S4 & S5 & S6).
  set (w2 := world_of (sessionEffect ep w)) in *.
  assert (U : forall b : bool,
             (if b then updateEffect (initialCode (props c)) (isReady c) w2 else w2) = w2).
  { intros [|]; [|reflexivity]. rewrite Hi. apply updateEffect_not_ready. }
  rewrite U.
  set (w3 := update_component _ w2).
  set (c3 := with_deps (Some {| d_onSave := onSave (props c);
                                d_initialCode := initialCode (props c);
                                d_isReady := isReady c |})
               (with_cleanup (Some {| kl_id := fresh w; kl_instance := instance c;
                                      kl_onSave := onSave (props c) |})
                  (with_isReady true
                     (with_editorRef (Some (length (editors (monaco w)))) c)))).
  assert (C3 : component w3 = Some c3).
  { unfold w3, update_component. simpl. rewrite S1. reflexivity. }
  assert (N : stateChanged w3 = true).
  { unfold stateChanged. rewrite C3. simpl. rewrite Hi. reflexivity. }
  rewrite N.
  erewrite (commit_next ep w3 c3) by (exact C3 || reflexivity).
  simpl. rewrite bool_decide_eq_true_2 by reflexivity.
  rewrite String.eqb_refl, Hi. simpl.
  assert (V3 : editor_getValue (length (editors (monaco w))) (monaco w3)
               = initialCode (props c)).
  { apply (getValue_snoc (monaco w3) (editors (monaco w)) (models (monaco w))
             (new_editor c (length (models (monaco w)))) (new_model c)).
    - unfold w3. simpl. exact S3.
    - unfold w3. simpl. exact S4.
    - reflexivity.
    - reflexivity. }
  erewrite updateEffect_same; [|exact C3|reflexivity|exact V3].
  set (w4 := update_component _ w3).
  destruct (ready_intro w4
    {| s_instance := instance c; s_props := props c;
       s_editor := length (editors (monaco w)); s_model := length (models (monaco w));
       s_listener := fresh w; s_onCodeChange := onCodeChange (props c) |}
    (editors (monaco w)) (models (monaco w))) as [R T]; try reflexivity.
  - unfold w4, update_component. simpl. rewrite S1. simpl.
    unfold session_component, session_listener. simpl.
    destruct c. simpl in *. subst. reflexivity.
  - unfold w4. simpl. rewrite S2, Hdoc. reflexivity.
  - unfold w4. simpl. exact S3.
  - unfold w4. simpl. exact S4.
  - exact Hall.
  - split; [exact R|]. split; [exact T|]. unfold w4. simpl. exact S5.
Qed.

(** X13.  A mount whose container is not in place creates nothing: no key
    listener, editor, model or timer, no cleanup, and no host callback.
    The session effect reads the container ref anew when it runs, and it
    runs again only with another [onSave]: once the container is there, a
    render that keeps [onSave] still creates nothing, while a render with
    another [onSave] starts the session (the engine accepting the
    document) with the props of that render. *)
Theorem mount_without_container_creates_nothing ep p w :
  Idle w -> component w = None ->
  let w' := step ep w (Mount p false) in
  editors (monaco w') = editors (monaco w) /\ models (monaco w') = models (monaco w) /\
  doc_keydown w' = [] /\ timers w' = timers w /\ host w' = host w /\
  (exists c, component w' = Some c /\ editorRef c = None /\ cleanup c = None /\
             isReady c = false) /\
  forall p',
    let w'' := run ep w' [AssignContainerRef true; Rerender p'] in
    (onSave p' = onSave p ->
     editors (monaco w'') = editors (monaco w) /\ models (monaco w'') = models (monaco w) /\
     doc_keydown w'' = [] /\ timers w'' = timers w /\ host w'' = host w /\
     forall s, ~ Ready w'' s) /\
    (onSave p' <> onSave p -> refused ep w = false ->
     exists s, Ready w'' s /\ s_props s = p' /\ liveText w'' = initialCode p' /\
               host w'' = host w).
Proof.
  intros I Hc w'. subst w'. simpl step.
  pose proof I as [_ I2 I3].
  rewrite (mount_deferred_eq ep p w Hc).
  set (c0 := {| instance := fresh w; props := p; containerRef := false; editorRef := None;
                isReady := false; deps := None; cleanup := None |}).
  set (w0 := set_component (Some c0) (set_fresh (S (fresh w)) w)).
  destruct (registerEnvironment_frame ep w0) as (F1 & F2 & F3 & F4 & F5 & F6 & F7 & F8).
  set (w1 := registerEnvironment ep w0) in *.
  set (d0 := {| d_onSave := onSave p; d_initialCode := initialCode p; d_isReady := false |}).
  split; [exact F1|]. split; [exact F2|]. split; [simpl; rewrite F3; exact I2|].
  split; [exact F7|]. split; [exact F5|].
  split.
  { simpl. rewrite F4. simpl. eexists. repeat split; reflexivity. }
  intros p'. cbv zeta.
  set (cb := {| instance := fresh w; props := p'; containerRef := true; editorRef := None;
                isReady := false; deps := Some d0; cleanup := None |}).
  set (wb := set_component (Some cb) w1).
  assert (E : run ep (update_component (with_deps (Some d0)) w1)
                [AssignContainerRef true; Rerender p']
              = render ep wb).
  { unfold run. cbn [foldl step].
    unfold rerender, assignContainerRef, update_component. simpl. rewrite F4. reflexivity. }
  rewrite E. clear E. split.
  - intros Hs. unfold render.
    rewrite (commit_next ep wb cb d0 eq_refl eq_refl).
    rewrite bool_decide_eq_true_2 by (symmetry; exact Hs).
    change (negb true) with false. cbv iota. rewrite afterSessionEffect_returned.
    assert (U : forall b : bool,
               (if b then updateEffect (initialCode (props cb)) (isReady cb) wb else wb) = wb).
    { intros [|]; [apply updateEffect_not_ready|reflexivity]. }
    rewrite U. unfold stateChanged, update_component. simpl.
    split; [exact F1|]. split; [exact F2|]. split; [rewrite F3; exact I2|].
    split; [exact F7|]. split; [exact F5|].
    intros s R. pose proof (ready_doc _ _ R) as H. simpl in H. rewrite F3 in H.
    simpl in H. rewrite I2 in H. discriminate.
  - intros Hne Hr.
    destruct (render_starts_session ep wb cb d0) as (R & T & H); try reflexivity.
    + intros E. apply Hne. symmetry. exact E.
    + simpl. rewrite F3. exact I2.
    + intros i ed Hi. simpl in Hi. rewrite F1 in Hi. apply (I3 i ed Hi).
    + rewrite (refused_models ep w wb); [exact Hr|exact F2].
    + eexists. split; [exact R|]. split; [reflexivity|]. split; [exact T|].
      rewrite H. exact F5.
Qed.

Lemma mount_without_container_witness :
  let w' := step monaco_profile init (Mount exampleProps false) in
  let p' := {| p_initialCode := Some "let b = 2"; p_onCodeChange := Some 7;
               p_onSave := Some 10; p_height := None |} in
  doc_keydown w' = [] /\ editors (monaco w') = [] /\
  (forall s, ~ Ready (run monaco_profile w' [AssignContainerRef true; Rerender exampleProps]) s) /\
  exists s, Ready (run monaco_profile w' [AssignContainerRef true; Rerender p']) s /\
            s_props s = p'.
Proof.
  intros w' p'.
  destruct (mount_without_container_creates_nothing monaco_profile exampleProps init
              init_idle eq_refl) as (H1 & _ & H3 & _ & _ & _ & H7).
  split; [exact H3|]. split; [exact H1|]. split.
  - destruct (H7 exampleProps) as [Ha _]. apply Ha. reflexivity.
  - destruct (H7 p') as [_ Hb]. destruct Hb as (s & R & Hp & _).
    + discriminate.
    + reflexivity.
    + exists s. split; [exact R|exact Hp].
Defined.

(** ** Key listeners the failing effect leaves behind *)

(** One round of mounting and unmounting against an engine that refuses
    the document. *)
Lemma refused_round ep p w :
  component w = None -> refused ep w = true ->
  let w' := run ep w [Mount p true; Unmount] in
  doc_keydown w'
  = (doc_keydown w ++ [{| kl_id := S (fresh w); kl_instance := fresh w;
                          kl_onSave := onSave p |}])%list /\
  models (monaco w') = models (monaco w) /\ editors (monaco w') = editors (monaco w) /\
  host w' = host w /\ timers w' = timers w /\ component w' = None.
Proof.
  intros Hc Hr w'. subst w'.
  change (run ep w [Mount p true; Unmount]) with (unmount ep (mount ep p true w)).
  rewrite (mount_refused_eq ep p w Hc Hr).
  set (w0 := set_component _ (set_fresh (S (fresh w)) w)).
  destruct (registerEnvironment_frame ep w0) as (F1 & F2 & F3 & F4 & F5 & F6 & F7 & F8).
  unfold unmount, invokeCleanup, update_component. simpl. rewrite F4. simpl.
  rewrite F1, F2, F3, F5, F7. auto 10.
Qed.

(** X14.  The session effect adds its key listener before it calls
    [initEditor] and hands over its cleanup only when it returns.  Against
    an engine that refuses the document, every mount therefore leaves one
    more key listener on the document, and no unmount removes any: after
    [n] rounds of mounting and unmounting, [n] listeners have been added
    to those that were there, while no document, editor or timer was made
    and no callback called. *)
Theorem key_listeners_pile_up ep p n w :
  component w = None -> refused ep w = true ->
  let w' := run ep w (remounts n p) in
  (exists kls, doc_keydown w' = (doc_keydown w ++ kls)%list /\ length kls = n) /\
  models (monaco w') = models (monaco w) /\ editors (monaco w') = editors (monaco w) /\
  host w' = host w /\ timers w' = timers w /\ component w' = None.
Proof.
  revert w. induction n as [|n IH]; intros w Hc Hr; cbv zeta.
  - simpl. split; [exists []; rewrite app_nil_r; auto|]. auto.
  - change (run ep w (remounts (S n) p))
      with (run ep (run ep w [Mount p true; Unmount]) (remounts n p)).
    destruct (refused_round ep p w Hc Hr) as (D & M & E & H & T & C).
    set (w1 := run ep w [Mount p true; Unmount]) in *.
    assert (Hr1 : refused ep w1 = true) by (rewrite (refused_models ep w w1 M); exact Hr).
    destruct (IH w1 C Hr1) as ((kls & D' & L) & M' & E' & H' & T' & C').
    split.
    + eexists. rewrite D', D, <- app_assoc. split; [reflexivity|].
      simpl. rewrite L. reflexivity.
    + rewrite M', E', H', T'. auto.
Qed.

Lemma key_listeners_pile_up_witness :
  let w := run monaco_profile init [Mount exampleProps true; Unmount] in
  let w' := run monaco_profile w (remounts 3 noProps) in
  (exists kls, doc_keydown w' = (doc_keydown w ++ kls)%list /\ length kls = 3) /\
  models (monaco w') = models (monaco w) /\ editors (monaco w') = editors (monaco w) /\
  host w' = host w /\ timers w' = timers w /\ component w' = None.
Proof.
  apply (key_listeners_pile_up monaco_profile noProps 3
           (run monaco_profile init [Mount exampleProps true; Unmount])).
  - reflexivity.
  - reflexivity.
Defined.

(** ** Sessions over a run *)

Lemma with_s_props_id s : with_s_props (s_props s) s = s.
Proof. destruct s. reflexivity. Qed.

Lemma keeps_step ep w s ev :
  Ready w s -> keeps_session (onSave (s_props s)) ev = true ->
  exists p, Ready (step ep w ev) (with_s_props p s) /\ onSave p = onSave (s_props s).
Proof.
  intros R H.
  assert (Same : forall p, onSave p = onSave (s_props s) ->
            Ready (rerender ep p w) (with_s_props p s)).
  { intros p Hp. rewrite (rerender_same ep p w s R Hp). apply ready_reprops; [|exact Hp].
    destruct (_ && _); [apply (replaceText_spec _ _ _ R)|exact R]. }
  assert (Keep : forall w', Ready w' s ->
            exists p, Ready w' (with_s_props p s) /\ onSave p = onSave (s_props s)).
  { intros w' R'. exists (s_props s). rewrite with_s_props_id. auto. }
  destruct ev as [p b|p| |e|eid text|eid|i|b]; simpl in *; try discriminate.
  - apply bool_decide_eq_true_1 in H. eauto.
  - apply Keep. apply ready_keydown_ready. exact R.
  - apply Keep. destruct (decide (eid = s_editor s)) as [->|Hne].
    + destruct (ready_edit w s _ R (editor_type_rewrites (s_editor s) text))
        as [[_ ->]|(mo & _ & R' & _)]; assumption.
    + rewrite dead_edit; [exact R|apply (ready_other_dead _ _ _ R Hne)
                         |apply editor_type_rewrites].
  - apply Keep. destruct (decide (eid = s_editor s)) as [->|Hne].
    + apply (undo_spec w s R).
    + rewrite dead_edit; [exact R|apply (ready_other_dead _ _ _ R Hne)
                         |apply editor_undo_rewrites].
  - apply Keep. apply fireTimer_ready. exact R.
  - apply Keep. subst b. eapply Ready_frame; [| | |exact R]; try reflexivity.
    unfold assignContainerRef, update_component. simpl.
    rewrite (ready_component _ _ R). reflexivity.
Qed.

(** X15.  A session keeps its editor, its document, its key listener and
    the [onCodeChange] it captured through key presses, edits, timers and
    renders that keep [onSave], whatever else those renders change: after
    any such events the session is ready on the same handles, with the
    props of the latest render. *)
Theorem session_lives_on ep evs w s :
  Ready w s -> forallb (keeps_session (onSave (s_props s))) evs = true ->
  exists p, Ready (run ep w evs) (with_s_props p s) /\ onSave p = onSave (s_props s).
Proof.
  revert w s. induction evs as [|ev evs IH]; intros w s R H.
  - exists (s_props s). rewrite with_s_props_id. auto.
  - simpl in H. apply andb_true_iff in H as [H1 H2].
    change (run ep w (ev :: evs)) with (run ep (step ep w ev) evs).
    destruct (keeps_step ep w s ev R H1) as (p1 & R1 & Hp1).
    destruct (IH _ _ R1) as (p2 & R2 & Hp2).
    + simpl. rewrite Hp1. exact H2.
    + exists p2. split; [exact R2|]. simpl in Hp2. congruence.
Qed.

Lemma session_lives_on_witness :
  exists p,
    Ready (run monaco_profile (exampleWorld monaco_profile)
             [UserType 0 "x"; TimerFire 0;
              Rerender {| p_initialCode := Some "let a = 1"; p_onCodeChange := None;
                          p_onSave := Some 9; p_height := Some "50%" |};
              AssignContainerRef true;
              Rerender {| p_initialCode := Some "let b = 2"; p_onCodeChange := Some 8;
                          p_onSave := Some 9; p_height := None |};
              KeyDown (ctrlS (TEditor 0))])
      (with_s_props p exampleSession) /\
    onSave p = Some 9.
Proof.
  apply (session_lives_on monaco_profile
           [UserType 0 "x"; TimerFire 0;
            Rerender {| p_initialCode := Some "let a = 1"; p_onCodeChange := None;
                        p_onSave := Some 9; p_height := Some "50%" |};
            AssignContainerRef true;
            Rerender {| p_initialCode := Some "let b = 2"; p_onCodeChange := Some 8;
                        p_onSave := Some 9; p_height := None |};
            KeyDown (ctrlS (TEditor 0))]
           (exampleWorld monaco_profile) exampleSession).
  - ready_by_evaluation.
  - reflexivity.
Defined.

(** ** The registry over a run *)

Lemma registry_keep ep w w' :
  registry (monaco w') = registry (monaco w) -> registry_ok ep w -> registry_ok ep w'.
Proof.
  unfold registry, registry_ok. intros [= -> -> ->]. auto.
Qed.

Lemma registry_registerEnvironment ep w :
  registry_ok ep w -> registry_ok ep (registerEnvironment ep w).
Proof.
  intros (Hall & Ht & Hc & Hone).
  unfold registry_ok, registerEnvironment, languages_register. simpl.
  destruct (register_rejects_duplicate ep) eqn:Hr; simpl.
  - destruct (registered "javascript" (monaco w)) eqn:Hk; simpl;
      destruct (MonacoEnvironment w); simpl; try (repeat split; auto; fail).
    + assert (E : languages (monaco w) = []).
      { unfold registered in Hk. destruct (languages (monaco w)) as [|x l]; [reflexivity|].
        apply Forall_cons in Hall as [<- _]. simpl in Hk. discriminate. }
      rewrite Ht, Hc, E. simpl. repeat split; auto.
    + assert (E : languages (monaco w) = []).
      { unfold registered in Hk. destruct (languages (monaco w)) as [|x l]; [reflexivity|].
        apply Forall_cons in Hall as [<- _]. simpl in Hk. discriminate. }
      rewrite Ht, Hc, E. simpl. repeat split; auto.
  - destruct (MonacoEnvironment w); simpl; rewrite Ht, Hc;
      (split; [apply Forall_app; split; [exact Hall|apply Forall_singleton; reflexivity]|]);
      repeat split; auto; discriminate.
Qed.

Lemma registry_commit ep w : registry_ok ep w -> registry_ok ep (commit ep w).
Proof.
  intros S. unfold commit. destruct (component w) as [c|]; [|exact S].
  match goal with |- registry_ok _ (update_component ?f ?x) =>
    apply (registry_keep ep x (update_component f x) eq_refl) end.
  eapply registry_keep; [apply registry_afterSessionEffect|].
  destruct (deps c) as [d|]; cbv zeta;
    repeat match goal with
           | |- registry_ok _ (world_of (if ?b then _ else _)) => destruct b
           | |- registry_ok _ (if ?b then _ else _) => destruct b
           | |- registry_ok _ (world_of (sessionEffect _ _)) =>
               eapply registry_keep; [apply registry_sessionEffect|]
           | |- registry_ok _ (world_of (Returned _)) => simpl world_of
           | |- registry_ok _ (registerEnvironment _ _) => apply registry_registerEnvironment
           | |- registry_ok _ (invokeCleanup _ _) =>
               eapply registry_keep; [apply registry_invokeCleanup|]
           end; exact S.
Qed.

Lemma registry_render ep w : registry_ok ep w -> registry_ok ep (render ep w).
Proof.
  intros S. unfold render. destruct (stateChanged _); auto using registry_commit.
Qed.

Lemma registry_rerender ep p w : registry_ok ep w -> registry_ok ep (rerender ep p w).
Proof.
  intros S. unfold rerender. destruct (component w); [|exact S].
  apply registry_render. revert S. apply registry_keep. reflexivity.
Qed.

Lemma registry_nudge eid w : registry (monaco (nudge eid w)) = registry (monaco w).
Proof.
  unfold nudge. destruct (editor_getModel _ _); [|reflexivity].
  rewrite registry_edit by apply editor_undo_rewrites.
  change (monaco (act (AEditorTrigger eid "undo") ?x)) with (monaco x).
  rewrite registry_edit by apply editor_type_rewrites. reflexivity.
Qed.

Lemma registry_step ep w ev : registry_ok ep w -> registry_ok ep (step ep w ev).
Proof.
  intros S. destruct ev as [p b|p| |e|eid text|eid|i|b]; simpl.
  - unfold mount. destruct (component w) eqn:Hc.
    + pose proof (registry_rerender ep p w S) as H. unfold rerender in *.
      rewrite Hc in *. exact H.
    + apply registry_render. revert S. apply registry_keep. reflexivity.
  - apply registry_rerender. exact S.
  - unfold unmount. destruct (component w); [|exact S].
    revert S. apply registry_keep. apply (registry_invokeCleanup ep w).
  - destruct (dispatchKeyDown_frame ep e w) as [h ->]. exact S.
  - revert S. apply registry_keep. apply registry_edit. apply editor_type_rewrites.
  - revert S. apply registry_keep. apply registry_edit. apply editor_undo_rewrites.
  - unfold fireTimer. destruct (timers w !! i) as [[eid]|]; [|exact S].
    revert S. apply registry_keep.
    apply (registry_nudge eid (set_timers (delete i (timers w)) w)).
  - revert S. apply registry_keep. reflexivity.
Qed.

(** X16.  In every run the only language ever registered is [javascript],
    and its tokenizer and its language configuration are installed exactly
    as often as the language itself; with an engine that rejects a known
    id, the failing registration is swallowed and the language stays
    registered once however often the component is mounted. *)
Theorem registry_stays_consistent ep evs :
  let mo := monaco (run ep init evs) in
  (forall id, In id (languages mo) -> id = "javascript") /\
  tokensProviders mo = languages mo /\
  languageConfigurations mo = languages mo /\
  (register_rejects_duplicate ep = true -> length (languages mo) <= 1).
Proof.
  assert (H : forall w, registry_ok ep w -> registry_ok ep (run ep w evs)).
  { induction evs as [|ev evs IH]; intros w S; [exact S|].
    change (run ep w (ev :: evs)) with (run ep (step ep w ev) evs).
    apply IH. apply registry_step. exact S. }
  destruct (H init) as (Hall & Ht & Hc & Hone).
  { split; [constructor|]. split; [reflexivity|]. split; [reflexivity|].
    intros _. simpl. lia. }
  simpl. split; [|auto].
  intros id Hin. symmetry. revert id Hin. apply List.Forall_forall. exact Hall.
Qed.
